(** * CBM: ETL normalisation, remediation tickets, SLA and notification grouping

    A shallow embedding of the Python code of the [etl] package
    (normalizers/base.py, normalizers/jira.py, normalizers/clickup.py,
    normalizers/github.py, validator.py, sla.py, notifier.py, teams.py,
    pipeline.py, mapping_validator.py) together with the properties its
    specification states about it.

    Conventions.
    - JSON documents (payloads, configuration, meta bags) are values of
      [Json]; a dict is an association list in insertion order whose
      lookup returns the first binding of a key.
    - A Python string is a [string] whose characters are its code
      points: the strings of the model are the Python strings over the
      code points below 256 (ASCII and Latin-1). Case mapping and white
      space are Python's on these code points. A message of the source
      that holds a character outside this range (a dash, a warning
      sign) is written as it stands; such a text is only built and
      compared, never lower-cased or stripped.
    - An uncaught Python exception is the outcome [Raise e] of [result].
    - Points in time are integers, microseconds since the Unix epoch. *)

From Stdlib Require Import ZArith Lia Bool List Ascii String.
From stdpp Require Import base option list strings gmap.

Import ListNotations.
Set Warnings "-register-all".
Local Open Scope string_scope.
Local Open Scope list_scope.
Local Open Scope Z_scope.

(** ** Python values *)

(** A Python [float]: a finite dyadic number [m * 2^e], an infinity or a
    NaN. *)
Inductive PyFloat : Type :=
| FFinite (m e : Z)
| FInf (neg : bool)
| FNaN.

Inductive Json : Type :=
| JNull
| JBool (b : bool)
| JInt (z : Z)
| JFloat (f : PyFloat)
| JStr (s : string)
| JList (l : list Json)
| JDict (d : list (string * Json)).

Inductive PyExn : Type :=
| TypeError
| AttributeError
| ValueError
| OverflowError
| IntegrityError
| FieldError.

Inductive result (A : Type) : Type :=
| Ok (a : A)
| Raise (e : PyExn).

Arguments Ok {A} a.
Arguments Raise {A} e.

Definition bind {A B : Type} (r : result A) (k : A -> result B) : result B :=
  match r with
  | Ok a => k a
  | Raise e => Raise e
  end.

Notation "'let*' x := e 'in' k" := (bind e (fun x => k))
  (at level 10, x name, e at level 200, k at level 200).

(** [try: ... except Exception: d]. *)
Definition try_except {A : Type} (r : result A) (d : A) : A :=
  match r with
  | Ok a => a
  | Raise _ => d
  end.

Fixpoint mapM {A B : Type} (f : A -> result B) (l : list A) : result (list B) :=
  match l with
  | [] => Ok []
  | x :: r => let* y := f x in let* ys := mapM f r in Ok (y :: ys)
  end.

(** Truth value of a Python object ([bool(x)]). *)
Definition truthy (j : Json) : bool :=
  match j with
  | JNull => false
  | JBool b => b
  | JInt z => negb (z =? 0)
  | JFloat (FFinite m _) => negb (m =? 0)
  | JFloat _ => true
  | JStr s => negb (String.eqb s "")
  | JList l => match l with [] => false | _ => true end
  | JDict d => match d with [] => false | _ => true end
  end.

(** [a or b]. *)
Definition py_or (a b : Json) : Json := if truthy a then a else b.

(** ** Strings *)

(** The code points below 256 that [str.lower] changes: A..Z, and the
    Latin-1 capitals U+00C0..U+00DE but for the multiplication sign
    U+00D7. *)
Definition is_upper (c : ascii) : bool :=
  let n := nat_of_ascii c in
  ((65 <=? n)%nat && (n <=? 90)%nat)
  || ((192 <=? n)%nat && (n <=? 222)%nat && negb (n =? 215)%nat).

(** The lower-case letter of each of them is 32 code points further. *)
Definition lower_char (c : ascii) : ascii :=
  if is_upper c then ascii_of_nat (nat_of_ascii c + 32) else c.

(** [s.lower()]. *)
Fixpoint py_lower (s : string) : string :=
  match s with
  | EmptyString => EmptyString
  | String c r => String (lower_char c) (py_lower r)
  end.

(** White space as [str.isspace], [str.strip] and the pattern [\s] see
    it below 256: TAB..CR, FS..US, SPACE, NEL (U+0085) and the no-break
    space (U+00A0). *)
Definition is_space (c : ascii) : bool :=
  let n := nat_of_ascii c in
  ((9 <=? n)%nat && (n <=? 13)%nat) || ((28 <=? n)%nat && (n <=? 32)%nat)
  || (n =? 133)%nat || (n =? 160)%nat.

Fixpoint lstrip (l : list ascii) : list ascii :=
  match l with
  | c :: r => if is_space c then lstrip r else l
  | [] => []
  end.

(** [s.strip()]. *)
Definition py_strip (s : string) : string :=
  string_of_list_ascii
    (rev (lstrip (rev (lstrip (list_ascii_of_string s))))).

Fixpoint is_prefix (p l : list ascii) : bool :=
  match p, l with
  | [], _ => true
  | a :: p', b :: l' => Ascii.eqb a b && is_prefix p' l'
  | _ :: _, [] => false
  end.

Fixpoint contains_list (p l : list ascii) : bool :=
  is_prefix p l ||
  match l with
  | [] => false
  | _ :: r => contains_list p r
  end.

(** [needle in hay] on strings. *)
Definition str_contains (needle hay : string) : bool :=
  contains_list (list_ascii_of_string needle) (list_ascii_of_string hay).

Definition is_digit (c : ascii) : bool :=
  (48 <=? nat_of_ascii c)%nat && (nat_of_ascii c <=? 57)%nat.

Definition digit_val (c : ascii) : Z := Z.of_nat (nat_of_ascii c) - 48.

Definition digits_val (ds : list ascii) : Z :=
  fold_left (fun acc c => acc * 10 + digit_val c) ds 0.

(** The longest run of at most [max] digits at the front of [l], and the
    rest. *)
Fixpoint span_digits (max : nat) (l : list ascii) : list ascii * list ascii :=
  match max, l with
  | S k, c :: r =>
      if is_digit c
      then let '(ds, rest) := span_digits k r in (c :: ds, rest)
      else ([], l)
  | _, _ => ([], l)
  end.

(** [s.replace("Z", "+00:00")]. *)
Fixpoint replace_Z (s : string) : string :=
  match s with
  | EmptyString => EmptyString
  | String c r =>
      if Ascii.eqb c "Z"%char
      then String.append "+00:00" (replace_Z r)
      else String c (replace_Z r)
  end.

(** ** Numbers *)

(** [int(x)] for a number: booleans are integers, floats are truncated
    towards zero, infinities and NaN raise. *)
Definition py_int_num (j : Json) : result Z :=
  match j with
  | JBool b => Ok (if b then 1 else 0)
  | JInt z => Ok z
  | JFloat (FFinite m e) =>
      Ok (if 0 <=? e then m * 2 ^ e else Z.quot m (2 ^ (- e)))
  | JFloat (FInf _) => Raise OverflowError
  | JFloat FNaN => Raise ValueError
  | _ => Raise TypeError
  end.

(** [isinstance(x, (int, float))]: [bool] is a subclass of [int]. *)
Definition is_number (j : Json) : bool :=
  match j with
  | JBool _ | JInt _ | JFloat _ => true
  | _ => false
  end.

(** ** Dates and times (normalizers/base.py) *)

(** A [datetime.datetime]: the wall-clock reading in microseconds counted
    from 1970-01-01T00:00:00 of its own time zone, and the UTC offset of
    that zone in microseconds ([None] for a naive datetime). *)
Record DateTime : Type := mkDateTime {
  wall_us : Z;
  tzinfo : option Z
}.

Definition is_aware (d : DateTime) : bool :=
  match tzinfo d with Some _ => true | None => false end.

Definition is_naive (d : DateTime) : bool := negb (is_aware d).

(** The instant an aware datetime denotes; comparisons of aware
    datetimes compare instants. A naive one is read as UTC. *)
Definition instant (d : DateTime) : Z :=
  wall_us d - match tzinfo d with Some o => o | None => 0 end.

Definition is_leap (y : Z) : bool :=
  (y mod 4 =? 0) && (negb (y mod 100 =? 0) || (y mod 400 =? 0)).

Definition days_in_month (y m : Z) : Z :=
  if m =? 2 then (if is_leap y then 29 else 28)
  else if (m =? 4) || (m =? 6) || (m =? 9) || (m =? 11) then 30
  else 31.

Definition days_before_year (y : Z) : Z :=
  (y - 1) * 365 + (y - 1) / 4 - (y - 1) / 100 + (y - 1) / 400.

Definition days_before_month (y m : Z) : Z :=
  fold_left (fun acc k => acc + days_in_month y (Z.of_nat k))
            (seq 1 (Z.to_nat (m - 1))) 0.

(** Proleptic Gregorian ordinal, 0001-01-01 being day 1. *)
Definition ymd2ord (y m d : Z) : Z :=
  days_before_year y + days_before_month y m + d.

Definition EPOCH_ORD : Z := 719163.
Definition US_PER_SECOND : Z := 1000000.
Definition US_PER_DAY : Z := 86400 * US_PER_SECOND.

Definition in_range (lo x hi : Z) : bool := (lo <=? x) && (x <=? hi).

(** [datetime.timezone(timedelta(minutes=offset))]: the offset is
    strictly between -24h and 24h. *)
Definition fixed_timezone (offset_min : Z) : result Z :=
  if (-1440 <? offset_min) && (offset_min <? 1440)
  then Ok (offset_min * 60 * US_PER_SECOND)
  else Raise ValueError.

(** The constructor [datetime.datetime(year, ..., tzinfo)]: [ValueError]
    on a field out of range. *)
Definition datetime_new (y m d hh mm ss us : Z) (tz : option Z)
  : result DateTime :=
  if in_range 1 y 9999 && in_range 1 m 12
     && in_range 1 d (days_in_month y m)
     && in_range 0 hh 23 && in_range 0 mm 59 && in_range 0 ss 59
     && in_range 0 us 999999
  then Ok (mkDateTime
             ((ymd2ord y m d - EPOCH_ORD) * US_PER_DAY
              + (hh * 3600 + mm * 60 + ss) * US_PER_SECOND + us)
             tz)
  else Raise ValueError.

Definition MIN_US : Z := (1 - EPOCH_ORD) * US_PER_DAY.
Definition MAX_US : Z := (ymd2ord 9999 12 31 - EPOCH_ORD + 1) * US_PER_DAY - 1.

(** [datetime.fromtimestamp(t, tz=timezone.utc)], the time [t] given in
    microseconds: an aware datetime in UTC, an exception outside the
    years 1..9999. *)
Definition fromtimestamp_utc (t_us : Z) : result DateTime :=
  if in_range MIN_US t_us MAX_US
  then Ok (mkDateTime t_us (Some 0))
  else Raise ValueError.

(** [django.utils.timezone.make_aware(value, timezone)]: refuses a
    datetime that is aware already. *)
Definition make_aware (value : DateTime) (tz : Z) : result DateTime :=
  if is_aware value
  then Raise ValueError
  else Ok (mkDateTime (wall_us value) (Some tz)).

(** *** [django.utils.dateparse.parse_datetime]

    Modelled from the library's documented pattern
    [(\d{4})-(\d{1,2})-(\d{1,2})[T ](\d{1,2}):(\d{1,2})(?::(\d{1,2})(?:[\.,](\d{1,6})\d{0,6})?)?\s*(Z|[+-]\d{2}(?::?\d{2})?)?$]:
    [Ok None] when the text is not well formatted, [Raise ValueError] when
    it is well formatted but no valid datetime, the datetime otherwise. *)

Definition expect (p : ascii -> bool) (l : list ascii) : option (list ascii) :=
  match l with
  | c :: r => if p c then Some r else None
  | [] => None
  end.

Definition digits_between (lo hi : nat) (l : list ascii)
  : option (list ascii * list ascii) :=
  let '(ds, rest) := span_digits hi l in
  if (lo <=? length ds)%nat then Some (ds, rest) else None.

(** [$]: the end of the text, or just before a final newline. *)
Definition at_end (l : list ascii) : bool :=
  match l with
  | [] => true
  | [c] => Ascii.eqb c "010"%char
  | _ => false
  end.

Definition is_sign (c : ascii) : bool :=
  Ascii.eqb c "+"%char || Ascii.eqb c "-"%char.

(** The [tzinfo] group and the final [$]: [None] when they do not match,
    [Some None] without a zone, [Some (Some minutes)] with one. *)
Definition parse_tz (l : list ascii) : option (option Z) :=
  if at_end l then Some None else
  match l with
  | c :: r =>
      if Ascii.eqb c "Z"%char then
        (if at_end r then Some (Some 0) else None)
      else if is_sign c then
        let '(hh, r1) := span_digits 2 r in
        if (length hh =? 2)%nat then
          let r2 := match r1 with
                    | c2 :: r' => if Ascii.eqb c2 ":"%char then r' else r1
                    | [] => r1
                    end in
          let '(mm, r3) := span_digits 2 r2 in
          let sgn := if Ascii.eqb c "-"%char then (-1) else 1 in
          if (length mm =? 2)%nat && at_end r3
          then Some (Some (sgn * (60 * digits_val hh + digits_val mm)))
          else if at_end r1
               then Some (Some (sgn * (60 * digits_val hh)))
               else None
        else None
      else None
  | [] => None
  end.

(** The optional seconds and fraction: seconds, microseconds, rest. *)
Definition parse_seconds (l : list ascii) : option (Z * Z * list ascii) :=
  match l with
  | c :: r =>
      if Ascii.eqb c ":"%char then
        match digits_between 1 2 r with
        | Some (ss, r1) =>
            match r1 with
            | c1 :: r2 =>
                if Ascii.eqb c1 "."%char || Ascii.eqb c1 ","%char then
                  match digits_between 1 12 r2 with
                  | Some (fs, r3) =>
                      let us := firstn 6 fs in
                      Some (digits_val ss,
                            digits_val us * 10 ^ (6 - Z.of_nat (length us)),
                            r3)
                  | None => None
                  end
                else Some (digits_val ss, 0, r1)
            | [] => Some (digits_val ss, 0, r1)
            end
        | None => None
        end
      else Some (0, 0, l)
  | [] => Some (0, 0, l)
  end.

Definition is_T_or_space (c : ascii) : bool :=
  Ascii.eqb c "T"%char || Ascii.eqb c " "%char.

(** The groups of the pattern: the seven fields and the zone in minutes. *)
Definition match_datetime (l : list ascii)
  : option (Z * Z * Z * Z * Z * Z * Z * option Z) :=
  '(y, l) ← digits_between 4 4 l;
  l ← expect (Ascii.eqb "-"%char) l;
  '(m, l) ← digits_between 1 2 l;
  l ← expect (Ascii.eqb "-"%char) l;
  '(d, l) ← digits_between 1 2 l;
  l ← expect is_T_or_space l;
  '(hh, l) ← digits_between 1 2 l;
  l ← expect (Ascii.eqb ":"%char) l;
  '(mm, l) ← digits_between 1 2 l;
  '(ss, us, l) ← parse_seconds l;
  tz ← parse_tz (lstrip l);
  Some (digits_val y, digits_val m, digits_val d,
        digits_val hh, digits_val mm, ss, us, tz).

Definition parse_datetime (s : string) : result (option DateTime) :=
  match match_datetime (list_ascii_of_string s) with
  | None => Ok None
  | Some (y, m, d, hh, mm, ss, us, tz) =>
      let* tzinfo :=
        match tz with
        | Some offset => let* o := fixed_timezone offset in Ok (Some o)
        | None => Ok None
        end in
      let* dt := datetime_new y m d hh mm ss us tzinfo in
      Ok (Some dt)
  end.

(** [re.search(r"[+-]\d{4}$", s)]. *)
Definition has_numeric_offset (l : list ascii) : bool :=
  match skipn (length l - 5) l with
  | [c; d1; d2; d3; d4] =>
      (5 <=? length l)%nat && is_sign c
      && is_digit d1 && is_digit d2 && is_digit d3 && is_digit d4
  | _ => false
  end.

(** [s[:-5] + s[-5:-2] + ":" + s[-2:]], for a text of five characters or
    more. *)
Definition colon_offset (l : list ascii) : list ascii :=
  let n := length l in
  firstn (n - 5) l ++ firstn 3 (skipn (n - 5) l) ++ [":"%char]
  ++ skipn (n - 2) l.

Section ToDt.

(** [datetime.datetime.fromisoformat] of the Python library in use
    (what it accepts depends on the Python version). *)
Variable fromisoformat : string -> result DateTime.

(** The UTC offset (microseconds) of Django's current time zone at a
    wall-clock reading. *)
Variable current_timezone : Z -> Z.

Definition TO_DT_MS_THRESHOLD : Z := 10000000000.

(** [to_dt(val)] *)
Definition to_dt (val : Json) : result (option DateTime) :=
  if negb (truthy val) then Ok None
  else if is_number val then
    Ok (try_except
          (let* n := py_int_num val in
           if n >? TO_DT_MS_THRESHOLD
           then
             (* int(val)/1000.0 seconds, taken exactly *)
             let* d := fromtimestamp_utc (n * 1000) in
             let* a := make_aware d (current_timezone (wall_us d)) in
             Ok (Some a)
           else
             let* d := fromtimestamp_utc (n * US_PER_SECOND) in
             let* a := make_aware d (current_timezone (wall_us d)) in
             Ok (Some a))
          None)
  else match val with
  | JStr v =>
      let s := list_ascii_of_string (py_strip v) in
      let s := if has_numeric_offset s then colon_offset s else s in
      let s := string_of_list_ascii s in
      let* d := parse_datetime s in
      match d with
      | Some d =>
          if is_naive d
          then let* a := make_aware d 0 in Ok (Some a)
          else Ok (Some d)
      | None =>
          match fromisoformat (replace_Z s) with
          | Raise _ => Ok None
          | Ok d =>
              if is_naive d
              then let* a := make_aware d 0 in Ok (Some a)
              else Ok (Some d)
          end
      end
  | _ => Ok None
  end.

(** [earliest(history_times)]: [min] returns the first of the least
    elements, datetimes being compared as instants. *)
Fixpoint py_min (d : DateTime) (l : list DateTime) : DateTime :=
  match l with
  | [] => d
  | x :: r => py_min (if instant x <? instant d then x else d) r
  end.

Definition earliest (history_times : list DateTime) : option DateTime :=
  match history_times with
  | [] => None
  | d :: r => Some (py_min d r)
  end.

End ToDt.

(** ** Dicts, conversions and equality *)

(** First binding of [k]. *)
Fixpoint dict_get (d : list (string * Json)) (k : string) : option Json :=
  match d with
  | [] => None
  | (k', v) :: r => if String.eqb k' k then Some v else dict_get r k
  end.

Definition dict_has (d : list (string * Json)) (k : string) : bool :=
  match dict_get d k with Some _ => true | None => false end.

(** [obj.get(k)]: only a dict has the method. *)
Definition py_get (obj : Json) (k : string) : result Json :=
  match obj with
  | JDict d => Ok (match dict_get d k with Some v => v | None => JNull end)
  | _ => Raise AttributeError
  end.

(** [obj.get(k, dflt)]. *)
Definition py_get_default (obj : Json) (k : string) (dflt : Json) : result Json :=
  match obj with
  | JDict d => Ok (match dict_get d k with Some v => v | None => dflt end)
  | _ => Raise AttributeError
  end.

(** The value of a number as [m * 2^e]. *)
Definition num_parts (j : Json) : option (Z * Z) :=
  match j with
  | JBool b => Some (if b then 1 else 0, 0)
  | JInt z => Some (z, 0)
  | JFloat (FFinite m e) => Some (m, e)
  | _ => None
  end.

Definition num_eq (a b : Json) : bool :=
  match num_parts a, num_parts b with
  | Some (m1, e1), Some (m2, e2) =>
      let e := Z.min e1 e2 in
      m1 * 2 ^ (e1 - e) =? m2 * 2 ^ (e2 - e)
  | _, _ =>
      match a, b with
      | JFloat (FInf s1), JFloat (FInf s2) => Bool.eqb s1 s2
      | _, _ => false
      end
  end.

(** [a == b]: numbers by value, lists pointwise, dicts as finite maps. *)
Fixpoint py_eq (a b : Json) {struct a} : bool :=
  match a, b with
  | JNull, JNull => true
  | JStr s, JStr t => String.eqb s t
  | JList l, JList l' =>
      (fix go (l l' : list Json) {struct l} : bool :=
         match l, l' with
         | [], [] => true
         | x :: r, y :: r' => py_eq x y && go r r'
         | _, _ => false
         end) l l'
  | JDict d, JDict d' =>
      (length d =? length d')%nat &&
      (fix go (d : list (string * Json)) {struct d} : bool :=
         match d with
         | [] => true
         | (k, v) :: r =>
             match dict_get d' k with
             | Some v' => py_eq v v'
             | None => false
             end && go r
         end) d
  | _, _ => is_number a && is_number b && num_eq a b
  end.

(** [k in obj] for a string [k]: a key of a dict, an element of a list, a
    substring of a string; other objects are not containers. *)
Definition py_in (k : string) (obj : Json) : result bool :=
  match obj with
  | JDict d => Ok (dict_has d k)
  | JList l => Ok (existsb (py_eq (JStr k)) l)
  | JStr s => Ok (str_contains k s)
  | _ => Raise TypeError
  end.

Definition is_dict (j : Json) : bool :=
  match j with JDict _ => true | _ => false end.

Definition is_list (j : Json) : bool :=
  match j with JList _ => true | _ => false end.

Definition is_str (j : Json) : bool :=
  match j with JStr _ => true | _ => false end.

Definition is_none (j : Json) : bool :=
  match j with JNull => true | _ => false end.

(** Decimal numeral of an integer. *)
Fixpoint nat_digits (fuel : nat) (n : Z) (acc : string) : string :=
  match fuel with
  | O => acc
  | S f =>
      let acc' := String (ascii_of_nat (Z.to_nat (48 + n mod 10))) acc in
      if n <? 10 then acc' else nat_digits f (n / 10) acc'
  end.

Definition str_of_Z (z : Z) : string :=
  if z <? 0
  then String "-"%char (nat_digits (S (Z.to_nat (Z.log2 (- z)))) (- z) "")
  else nat_digits (S (Z.to_nat (Z.log2 z))) z "".

(** The digits of an integer literal: groups of digits separated by
    single underscores. *)
Fixpoint int_digits (l : list ascii) (acc : Z) (after_digit : bool)
  : option Z :=
  match l with
  | [] => if after_digit then Some acc else None
  | c :: r =>
      if is_digit c then int_digits r (acc * 10 + digit_val c) true
      else if Ascii.eqb c "_"%char && after_digit
           then match r with
                | c' :: _ => if is_digit c' then int_digits r acc false else None
                | [] => None
                end
           else None
  end.

(** [int(s)] for a string, base ten. *)
Definition int_of_string (s : string) : result Z :=
  let l := list_ascii_of_string (py_strip s) in
  let '(sgn, ds) :=
    match l with
    | c :: r =>
        if Ascii.eqb c "-"%char then (-1, r)
        else if Ascii.eqb c "+"%char then (1, r)
        else (1, l)
    | [] => (1, l)
    end in
  match int_digits ds 0 false with
  | Some n => Ok (sgn * n)
  | None => Raise ValueError
  end.

(** [int(x)]. *)
Definition py_int (j : Json) : result Z :=
  match j with
  | JStr s => int_of_string s
  | _ => py_int_num j
  end.

Section PyStr.

(** [repr] of floats, lists and dicts (Python's printing of these is
    not modelled). *)
Variable py_repr : Json -> string.

(** [str(x)]. *)
Definition py_str (j : Json) : string :=
  match j with
  | JStr s => s
  | JInt z => str_of_Z z
  | JBool true => "True"
  | JBool false => "False"
  | JNull => "None"
  | _ => py_repr j
  end.

End PyStr.

(** ** Remediation tickets (metrics/models.py, etl/validator.py) *)

Inductive RemediationStatus : Type :=
| OPEN
| IN_PROGRESS
| DONE.

Definition is_done (s : RemediationStatus) : bool :=
  match s with DONE => true | _ => false end.

(** A row of [RemediationTicket]. A board is referred to by its primary
    key, a work item by its [source_id], which the model declares
    unique. *)
Record RemediationTicket : Type := mkTicket {
  rt_board : Z;
  rt_work_item : option string;
  rt_rule_code : string;
  rt_message : string;
  rt_status : RemediationStatus;
  rt_created_at : Z;
  rt_resolved_at : option Z;
  rt_meta : Json
}.

(** The table, in primary-key order; a row is identified by its
    position. *)
Abbreviation TicketTable := (list RemediationTicket).

Definition opt_str_eqb (a b : option string) : bool :=
  match a, b with
  | Some x, Some y => String.eqb x y
  | None, None => true
  | _, _ => false
  end.

(** [.filter(board=board, work_item=work_item, rule_code=rule_code)
     .exclude(status=DONE)] *)
Definition open_for (board : Z) (work_item : option string)
    (rule_code : string) (t : RemediationTicket) : bool :=
  (rt_board t =? board) && opt_str_eqb (rt_work_item t) work_item
  && String.eqb (rt_rule_code t) rule_code
  && negb (is_done (rt_status t)).

(** [.order_by("-created_at").first()] over the rows satisfying [p]: the
    position and the row of the latest one (the first in table order
    among equally late ones). *)
Fixpoint first_latest (p : RemediationTicket -> bool) (l : TicketTable)
    (i : nat) (best : option (nat * RemediationTicket))
  : option (nat * RemediationTicket) :=
  match l with
  | [] => best
  | t :: r =>
      let best' :=
        if p t then
          match best with
          | Some (_, b) =>
              if rt_created_at b <? rt_created_at t then Some (i, t) else best
          | None => Some (i, t)
          end
        else best in
      first_latest p r (S i) best'
  end.

Definition set_message (m : string) (t : RemediationTicket) : RemediationTicket :=
  mkTicket (rt_board t) (rt_work_item t) (rt_rule_code t) m (rt_status t)
           (rt_created_at t) (rt_resolved_at t) (rt_meta t).

Definition set_meta (m : Json) (t : RemediationTicket) : RemediationTicket :=
  mkTicket (rt_board t) (rt_work_item t) (rt_rule_code t) (rt_message t)
           (rt_status t) (rt_created_at t) (rt_resolved_at t) m.

Definition set_done (now : Z) (t : RemediationTicket) : RemediationTicket :=
  mkTicket (rt_board t) (rt_work_item t) (rt_rule_code t) (rt_message t)
           DONE (rt_created_at t) (Some now) (rt_meta t).

(** [open_ticket(board, work_item, rule_code, message, meta)] run at time
    [now] on the table [tbl]: the new table and the ticket returned. An
    absent [meta] is [JNull]. *)
Definition open_ticket (now : Z) (board : Z) (work_item : option string)
    (rule_code message : string) (meta : Json) (tbl : TicketTable)
  : TicketTable * RemediationTicket :=
  let meta := py_or meta (JDict []) in
  match first_latest (open_for board work_item rule_code) tbl 0%nat None with
  | Some (i, rt) =>
      let rt1 :=
        if negb (String.eqb (rt_message rt) message)
        then set_message message rt else rt in
      let rt2 :=
        if truthy meta && negb (py_eq (py_or (rt_meta rt1) (JDict [])) meta)
        then set_meta meta rt1 else rt1 in
      (<[i := rt2]> tbl, rt2)
  | None =>
      let rt := mkTicket board work_item rule_code message OPEN now None meta in
      (tbl ++ [rt], rt)
  end.

(** [resolve_ticket_if_any(board, work_item, rule_code)] run at time
    [now]. *)
Definition resolve_ticket_if_any (now : Z) (board : Z)
    (work_item : option string) (rule_code : string) (tbl : TicketTable)
  : TicketTable :=
  map (fun rt => if open_for board work_item rule_code rt
                 then set_done now rt else rt) tbl.

(** One call of [open_ticket]: the time it runs at, its message and its
    meta. *)
Record OpenCall : Type := mkOpenCall {
  oc_now : Z;
  oc_message : string;
  oc_meta : Json
}.

(** [open_ticket] called once per element of [calls], in order, for one
    key. *)
Definition open_ticket_seq (board : Z) (work_item : option string)
    (rule_code : string) (calls : list OpenCall) (tbl : TicketTable)
  : TicketTable :=
  fold_left (fun t c => fst (open_ticket (oc_now c) board work_item rule_code
                                         (oc_message c) (oc_meta c) t))
            calls tbl.

(** The non-done tickets of a key. *)
Definition open_tickets (board : Z) (work_item : option string)
    (rule_code : string) (tbl : TicketTable) : TicketTable :=
  List.filter (open_for board work_item rule_code) tbl.

(** The invariant of the ticket table: at most one non-done ticket per
    key (board, work item, rule code). *)
Definition ticket_invariant (tbl : TicketTable) : Prop :=
  forall board work_item rule_code,
    (length (open_tickets board work_item rule_code tbl) <= 1)%nat.

(** ** Notification grouping (etl/notifier.py) *)

Record Group : Type := mkGroup {
  g_rule : string;
  g_count : Z;
  g_samples : list string
}.

Definition US_PER_MINUTE : Z := 60 * US_PER_SECOND.

(** Stable insertion into a list sorted by decreasing key. *)
Fixpoint insert_desc {A : Type} (key : A -> Z) (x : A) (l : list A) : list A :=
  match l with
  | [] => [x]
  | y :: r => if key y <=? key x then x :: l else y :: insert_desc key x r
  end.

(** A stable sort by decreasing key ([order_by("-k")],
    [sorted(..., reverse=True)]). *)
Definition sort_desc {A : Type} (key : A -> Z) (l : list A) : list A :=
  fold_right (insert_desc key) [] l.

(** [d[k] = v]: in place for a key that is present, at the end for a new
    one. *)
Fixpoint assoc_set {V : Type} (d : list (string * V)) (k : string) (v : V)
  : list (string * V) :=
  match d with
  | [] => [(k, v)]
  | (k', v') :: r =>
      if String.eqb k' k then (k, v) :: r else (k', v') :: assoc_set r k v
  end.

Fixpoint assoc_get {V : Type} (d : list (string * V)) (k : string) : option V :=
  match d with
  | [] => None
  | (k', v) :: r => if String.eqb k' k then Some v else assoc_get r k
  end.

Definition str_in (s : string) (l : list string) : bool :=
  existsb (String.eqb s) l.

(** [_should_include(rule, channel)], [rules] being [channel.rules]. *)
Definition _should_include (rule : string) (rules : Json) : result bool :=
  let rules := py_or rules (JList []) in
  if truthy rules then py_in rule rules else Ok true.

Definition sample_tag (rt : RemediationTicket) : string :=
  match rt_work_item rt with
  | Some sid => sid
  | None => "n/a"
  end.

(** The body of the loop over the recent tickets, for a ticket that is
    included: [g = grouped.setdefault(...)], [g["count"] += 1] and the
    sample. *)
Definition add_ticket (grouped : list (string * Group)) (rt : RemediationTicket)
  : list (string * Group) :=
  let g := match assoc_get grouped (rt_rule_code rt) with
           | Some g => g
           | None => mkGroup (rt_rule_code rt) 0 []
           end in
  let tag := sample_tag rt in
  assoc_set grouped (rt_rule_code rt)
    (mkGroup (g_rule g) (g_count g + 1)
       (if str_in tag (g_samples g) then g_samples g else g_samples g ++ [tag])).

(** [counts[rt.rule_code] = counts.get(rt.rule_code, 0) + 1] *)
Definition add_count (counts : list (string * Z)) (rt : RemediationTicket)
  : list (string * Z) :=
  assoc_set counts (rt_rule_code rt)
    (match assoc_get counts (rt_rule_code rt) with
     | Some c => c
     | None => 0
     end + 1).

(** [open_qs]: the non-done tickets of the board. *)
Definition board_open (board : Z) (tbl : TicketTable) : TicketTable :=
  List.filter (fun rt => (rt_board rt =? board)
                         && negb (is_done (rt_status rt))) tbl.

(** The names Django resolves to a field of [RemediationTicket]
    (metrics/models.py): the primary key it adds, the fields the class
    declares, and the columns of its two foreign keys. *)
Definition RemediationTicket_fields : list string :=
  [ "id"; "pk"; "board"; "board_id"; "work_item"; "work_item_id";
    "rule_code"; "message"; "status"; "created_at"; "resolved_at"; "meta" ].

(** The value of a field of a ticket that holds a time. *)
Definition ticket_time (field : string) (rt : RemediationTicket) : option Z :=
  if String.eqb field "created_at" then Some (rt_created_at rt)
  else if String.eqb field "resolved_at" then rt_resolved_at rt
  else None.

(** [qs.filter(<field>__gte=since)] for a time [since]: the condition
    it puts on a row. Django resolves the keyword against the fields of
    the model when the filter is built and raises [FieldError] for a
    name that is none of them; a null never satisfies the condition. *)
Definition filter_gte (field : string) (since : Z)
  : result (RemediationTicket -> bool) :=
  if str_in field RemediationTicket_fields
  then Ok (fun rt => match ticket_time field rt with
                     | Some t => since <=? t
                     | None => false
                     end)
  else Raise FieldError.

(** [dt.timedelta(minutes=m)] in microseconds: [OverflowError] beyond
    999999999 days. *)
Definition timedelta_minutes (m : Z) : result Z :=
  let us := m * US_PER_MINUTE in
  if Z.abs (us / US_PER_DAY) <=? 999999999 then Ok us
  else Raise OverflowError.

(** [now - dt.timedelta(minutes=window_minutes)]: [OverflowError] when
    the result leaves the years 1..9999. *)
Definition window_since (now window_minutes : Z) : result Z :=
  let* delta := timedelta_minutes window_minutes in
  if in_range MIN_US (now - delta) MAX_US then Ok (now - delta)
  else Raise OverflowError.

(** The [for rt in recent] loop. *)
Fixpoint group_recent (rules : Json) (recent : TicketTable)
    (grouped : list (string * Group)) : result (list (string * Group)) :=
  match recent with
  | [] => Ok grouped
  | rt :: r =>
      let* inc := _should_include (rt_rule_code rt) rules in
      if negb inc then group_recent rules r grouped
      else group_recent rules r (add_ticket grouped rt)
  end.

(** The [for rt in open_qs] loop of the summary. *)
Fixpoint count_open (rules : Json) (open_qs : TicketTable)
    (counts : list (string * Z)) : result (list (string * Z)) :=
  match open_qs with
  | [] => Ok counts
  | rt :: r =>
      let* inc := _should_include (rt_rule_code rt) rules in
      if negb inc then count_open rules r counts
      else count_open rules r (add_count counts rt)
  end.

(** [_collect_for_board(board, channel, window_minutes)] run at time
    [now]; [rules] is [channel.rules]. The two filters of [recent] are
    built one after the other, before any row is read. *)
Definition _collect_for_board (now : Z) (tbl : TicketTable) (board : Z)
    (rules : Json) (window_minutes : Z) : result (list (string * Group)) :=
  let* since := window_since now window_minutes in
  let open_qs := board_open board tbl in
  let* created := filter_gte "created_at" since in
  let* updated := filter_gte "updated_at" since in
  let recent :=
    sort_desc rt_created_at
              (List.filter (fun rt => created rt || updated rt) open_qs) in
  let* grouped := group_recent rules recent [] in
  match grouped with
  | [] =>
      let* counts := count_open rules open_qs [] in
      Ok (map (fun rc => (fst rc, mkGroup (fst rc) (snd rc) []))
              (firstn 5 (sort_desc snd counts)))
  | _ => Ok grouped
  end.


(** ** Blocked-time SLA (etl/sla.py) *)

Section Sla.

Variable py_repr : Json -> string.

(** [_cfg()], [root] being the configuration of the active mapping
    version ([{}] when there is none). *)
Definition sla_cfg (root : Json) : result Json :=
  if is_dict root
  then let* s := py_get root "sla" in Ok (py_or s (JDict []))
  else Ok (JDict []).

(** [obj.items()]. *)
Definition py_items (obj : Json) : result (list (string * Json)) :=
  match obj with
  | JDict d => Ok d
  | _ => Raise AttributeError
  end.

(** [s.strip()] of an object: only a string has the method. *)
Definition py_strip_obj (obj : Json) : result string :=
  match obj with
  | JStr s => Ok (py_strip s)
  | _ => Raise AttributeError
  end.

(** The loop over the labels: the first label whose lower-cased text is
    a lower-cased key of [pri_map]. *)
Fixpoint priority_from_labels (pri_map : Json) (labels : list Json)
  : result string :=
  match labels with
  | [] => Ok ""
  | l :: r =>
      let* items := py_items pri_map in
      if str_in (py_lower (py_str py_repr l))
                (map (fun kv => py_lower (fst kv)) items)
      then Ok (py_str py_repr l)
      else priority_from_labels pri_map r
  end.

(** The loop over [pri_map.items()]: [Some h] when it returns [h]. *)
Fixpoint priority_hours (priority : string) (items : list (string * Json))
  : option Z :=
  match items with
  | [] => None
  | (k, v) :: r =>
      if String.eqb (py_lower priority) (py_lower k)
      then match py_int v with
           | Ok h => Some h
           | Raise _ => priority_hours priority r
           end
      else priority_hours priority r
  end.

(** [{k.lower(): v for k, v in type_map.items()}]: a later binding of a
    lower-cased key replaces an earlier one. *)
Definition lowered (items : list (string * Json)) : list (string * Json) :=
  fold_left (fun d kv => assoc_set d (py_lower (fst kv)) (snd kv)) items [].

(** [(cfg.get(key) or {}) or (defaults.get(key) or {})] *)
Definition sla_map (cfg defaults : Json) (key : string) : result Json :=
  let* m1 := py_get cfg key in
  if truthy (py_or m1 (JDict [])) then Ok (py_or m1 (JDict []))
  else let* m2 := py_get defaults key in
       Ok (py_or m2 (JDict [])).

(** The priority of the item: from [meta.priority] or [meta.Priority],
    else from the labels; the empty string when there is none. *)
Definition meta_priority (pri_map wi_meta : Json) : result string :=
  if is_dict wi_meta then
    let* a := py_get wi_meta "priority" in
    let* b := (if truthy a then Ok a else py_get wi_meta "Priority") in
    let* p := py_strip_obj (py_or b (JStr "")) in
    if negb (String.eqb p "") then Ok p
    else
      let* ls := py_get wi_meta "labels" in
      match py_or ls (JList []) with
      | JList labels => priority_from_labels pri_map labels
      | _ => Ok p
      end
  else Ok "".

(** The type-based override: [Some h] when it returns [h]. *)
Definition type_hours (type_map : Json) (t : string) : result (option Z) :=
  let* items := py_items type_map in
  Ok match dict_get (lowered items) t with
     | Some v => match py_int v with Ok h => Some h | Raise _ => None end
     | None => None
     end.

(** The global fallback. *)
Definition global_hours (cfg defaults : Json) : Z :=
  try_except
    (let* d := py_get_default defaults "blocked_hours" (JInt 48) in
     let* v := py_get_default cfg "blocked_hours" d in
     py_int v)
    48.

(** [_hours_for_item(wi)], for the [meta] and [item_type] of [wi];
    [root] is the active configuration and [defaults] is
    [settings.SLA_DEFAULTS] ([{}] when the setting is absent). *)
Definition _hours_for_item (root defaults : Json) (wi_meta : Json)
    (wi_item_type : string) : result Z :=
  let* cfg := sla_cfg root in
  let defaults := py_or defaults (JDict []) in
  let* pri_map := sla_map cfg defaults "by_priority" in
  let* priority := meta_priority pri_map wi_meta in
  let* by_pri :=
    if negb (String.eqb priority "")
    then let* items := py_items pri_map in Ok (priority_hours priority items)
    else Ok None in
  match by_pri with
  | Some h => Ok h
  | None =>
      let* type_map := sla_map cfg defaults "by_type" in
      let* by_type := type_hours type_map (py_lower wi_item_type) in
      match by_type with
      | Some h => Ok h
      | None => Ok (global_hours cfg defaults)
      end
  end.

End Sla.

(** ** Mapping configuration validator (etl/mapping_validator.py) *)

Definition REQUIRED_KEYS : list (string * list string) :=
  [ ("jira", ["points_field"; "status_map"]);
    ("clickup", ["points_field_name"]);
    ("azure", ["points_field"]);
    ("github", ["link_patterns"]) ].

Definition CANONICAL_STEPS : list string :=
  [ "dev_started"; "dev_done"; "ready_for_qa"; "qa_started"; "qa_verified";
    "signed_off"; "ready_for_uat"; "deployed_uat"; "done" ].

(** An entry [{"path": ..., "msg": ...}] of the error or warning list. *)
Record Issue : Type := mkIssue {
  i_path : string;
  i_msg : string
}.

Record Validation : Type := mkValidation {
  v_ok : bool;
  v_errors : list Issue;
  v_warnings : list Issue;
  v_normalized : Json
}.

(** [_nonempty_list(val)] *)
Definition _nonempty_list (val : Json) : bool :=
  match val with
  | JList l =>
      forallb (fun x => match x with
                        | JStr s => negb (String.eqb (py_strip s) "")
                        | _ => false
                        end) l
  | _ => false
  end.

(** The body of the loop over [REQUIRED_KEYS] for one section: the
    errors it appends. *)
Definition check_section (cfg : Json) (section : string) (keys : list string)
  : result (list Issue) :=
  let* present := py_in section cfg in
  if negb present
  then Ok [mkIssue section ("Missing '" +:+ section +:+ "' section")]
  else
    let* sec := py_get cfg section in
    let sec := py_or sec (JDict []) in
    let* es := mapM (fun k =>
                 let* has := py_in k sec in
                 Ok (if negb has
                     then [mkIssue (section +:+ "." +:+ k)
                                   ("Missing '" +:+ k +:+ "'")]
                     else [])) keys in
    Ok (concat es).

Definition check_presence (cfg : Json) : result (list Issue) :=
  let* es := mapM (fun sk => check_section cfg (fst sk) (snd sk))
                  REQUIRED_KEYS in
  Ok (concat es).

(** [if key in sec and not isinstance(sec.get(key), str)]: the error
    [msg] at [path]. *)
Definition check_str_field (sec : Json) (key path msg : string)
  : result (list Issue) :=
  let* has := py_in key sec in
  if has then
    let* v := py_get sec key in
    Ok (if negb (is_str v) then [mkIssue path msg] else [])
  else Ok [].

(** The loop over [CANONICAL_STEPS]: errors and warnings. *)
Fixpoint check_steps (status_map : list (string * Json)) (steps : list string)
  : list Issue * list Issue :=
  match steps with
  | [] => ([], [])
  | step :: r =>
      let '(es, ws) := check_steps status_map r in
      match dict_get status_map step with
      | None | Some JNull =>
          (es, mkIssue ("jira.status_map." +:+ step)
                       "Not mapped — timestamps for this step won't be set"
               :: ws)
      | Some vals =>
          if negb (_nonempty_list vals)
          then (mkIssue ("jira.status_map." +:+ step)
                        "Must be a non-empty list of status names" :: es, ws)
          else (es, ws)
      end
  end.

(** [s.lower().strip()] of an object. *)
Definition lower_strip (s : Json) : result string :=
  match s with
  | JStr s => Ok (py_strip (py_lower s))
  | _ => Raise AttributeError
  end.

(** The loop [for s in arr] of the duplicate detection, for the step
    [step]: the dict [seen], the errors and the warnings it adds. *)
Fixpoint scan_names (step : string) (arr : list Json)
    (seen : list (string * string))
  : result (list (string * string) * list Issue * list Issue) :=
  match arr with
  | [] => Ok (seen, [], [])
  | s :: r =>
      let* key := lower_strip s in
      if String.eqb key "" then
        let* res := scan_names step r seen in
        let '(seen', es, ws) := res in
        Ok (seen', mkIssue ("jira.status_map." +:+ step) "Empty status string" :: es, ws)
      else
        match assoc_get seen key with
        | Some other =>
            if negb (String.eqb other step) then
              let* res := scan_names step r seen in
              let '(seen', es, ws) := res in
              Ok (seen', es,
                  mkIssue "jira.status_map"
                    ("Status '" +:+ match s with JStr t => t | _ => "" end
                     +:+ "' appears in multiple steps: " +:+ other
                     +:+ " and " +:+ step) :: ws)
            else scan_names step r (assoc_set seen key step)
        | None => scan_names step r (assoc_set seen key step)
        end
  end.

(** The loop [for step, arr in status_map.items()]. *)
Fixpoint scan_steps (items : list (string * Json))
    (seen : list (string * string)) : result (list Issue * list Issue) :=
  match items with
  | [] => Ok ([], [])
  | (step, arr) :: r =>
      match arr with
      | JList l =>
          let* res := scan_names step l seen in
          let '(seen', es, ws) := res in
          let* res' := scan_steps r seen' in
          let '(es', ws') := res' in
          Ok (es ++ es', ws ++ ws')
      | _ =>
          let* res' := scan_steps r seen in
          let '(es', ws') := res' in
          Ok (mkIssue ("jira.status_map." +:+ step) "Must be a list" :: es', ws')
      end
  end.

(** The [# jira] block. *)
Definition check_jira (cfg : Json) : result (list Issue * list Issue) :=
  let* jira := py_get_default cfg "jira" (JDict []) in
  let jira := py_or jira (JDict []) in
  let* e1 := check_str_field jira "points_field" "jira.points_field"
               "Must be a string (e.g., customfield_10016)" in
  let* sm := py_get_default jira "status_map" (JDict []) in
  match py_or sm (JDict []) with
  | JDict status_map =>
      let '(e2, w2) := check_steps status_map CANONICAL_STEPS in
      let* res := scan_steps status_map [] in
      let '(e3, w3) := res in
      Ok (e1 ++ e2 ++ e3, w2 ++ w3)
  | _ => Ok (e1 ++ [mkIssue "jira.status_map" "Must be an object of arrays"], [])
  end.

Definition check_clickup (cfg : Json) : result (list Issue) :=
  let* clickup := py_get_default cfg "clickup" (JDict []) in
  check_str_field (py_or clickup (JDict [])) "points_field_name"
    "clickup.points_field_name"
    "Must be a string (custom field display name)".

Definition check_azure (cfg : Json) : result (list Issue) :=
  let* azure := py_get_default cfg "azure" (JDict []) in
  check_str_field (py_or azure (JDict [])) "points_field" "azure.points_field"
    "Must be a string (e.g., Microsoft.VSTS.Scheduling.StoryPoints)".

(** [v < 0] for a number. *)
Definition num_negative (v : Json) : bool :=
  match v with
  | JInt z => z <? 0
  | JFloat (FFinite m _) => m <? 0
  | JFloat (FInf neg) => neg
  | _ => false
  end.

Definition THRESHOLD_KEYS : list string :=
  [ "max_dev_days_without_progress"; "max_ready_for_qa_days"; "max_qa_days" ].

(** The [# validator thresholds] block. *)
Definition check_validator (cfg : Json) : result (list Issue) :=
  let* validator := py_get cfg "validator" in
  if negb (is_none validator) && negb (is_dict validator)
  then Ok [mkIssue "validator" "Must be an object with numeric thresholds"]
  else
    let* es := mapM (fun k =>
                 let* has := py_in k (py_or validator (JDict [])) in
                 if has then
                   let* v := py_get validator k in
                   Ok (if negb (is_number v) || num_negative v
                       then [mkIssue ("validator." +:+ k)
                                     "Must be a non-negative number"]
                       else [])
                 else Ok []) THRESHOLD_KEYS in
    Ok (concat es).

Section MappingValidator.

(** [re.compile(pat)] of the Python library: [None] when the pattern
    compiles, the text of the [re.error] otherwise. *)
Variable regex_error : string -> option string.

(** [_compile_regex(pat)] *)
Definition _compile_regex (pat : string) : bool * string :=
  match regex_error pat with
  | None => (true, "")
  | Some e => (false, e)
  end.

(** The loop over [link_patterns.items()]. *)
Definition check_patterns (items : list (string * Json)) : list Issue :=
  concat (map (fun np =>
                 match snd np with
                 | JStr pat =>
                     let '(ok, err) := _compile_regex pat in
                     if negb ok
                     then [mkIssue ("github.link_patterns." +:+ fst np)
                                   ("Invalid regex: " +:+ err)]
                     else []
                 | _ => [mkIssue ("github.link_patterns." +:+ fst np)
                                 "Must be a regex string"]
                 end) items).

(** The [# github] block. *)
Definition check_github (cfg : Json) : result (list Issue) :=
  let* github := py_get_default cfg "github" (JDict []) in
  let* lp := py_get_default (py_or github (JDict [])) "link_patterns" (JDict []) in
  match py_or lp (JDict []) with
  | JDict link_patterns => Ok (check_patterns link_patterns)
  | _ => Ok [mkIssue "github.link_patterns"
                     "Must be an object (name -> regex string)"]
  end.

(** [validate_mapping_config(cfg)] *)
Definition validate_mapping_config (cfg : Json) : result Validation :=
  let cfg := py_or cfg (JDict []) in
  let* e0 := check_presence cfg in
  let* j := check_jira cfg in
  let* e2 := check_clickup cfg in
  let* e3 := check_azure cfg in
  let* e4 := check_github cfg in
  let* e5 := check_validator cfg in
  let errors := e0 ++ fst j ++ e2 ++ e3 ++ e4 ++ e5 in
  let warnings := snd j in
  Ok (mkValidation (length errors =? 0)%nat errors warnings cfg).

End MappingValidator.

(** ** Normalizers: shared helpers (etl/normalizers/base.py) *)

(** [for x in obj]: the elements of a list, the keys of a dict, the
    characters of a string. *)
Definition py_iter (obj : Json) : result (list Json) :=
  match obj with
  | JList l => Ok l
  | JDict d => Ok (map (fun kv => JStr (fst kv)) d)
  | JStr s => Ok (map (fun c => JStr (String c EmptyString))
                      (list_ascii_of_string s))
  | _ => Raise TypeError
  end.

(** [obj.lower()]: only a string has the method. *)
Definition py_lower_obj (obj : Json) : result string :=
  match obj with
  | JStr s => Ok (py_lower s)
  | _ => Raise AttributeError
  end.

(** [obj.get(key)] for a key that is any object: lists and dicts are
    not hashable, and JSON dicts have string keys only. *)
Definition py_get_key (obj key : Json) : result Json :=
  match obj with
  | JDict d =>
      match key with
      | JStr k => py_get obj k
      | JList _ | JDict _ => Raise TypeError
      | _ => Ok JNull
      end
  | _ => Raise AttributeError
  end.

(** [cfg(path, default)], [root] being the configuration of the active
    mapping version ([{}] when there is none). *)
Fixpoint cfg (root : Json) (path : list string) (default : Json) : Json :=
  match path with
  | [] => if is_none root then default else root
  | key :: r =>
      match root with
      | JDict d =>
          match dict_get d key with
          | None | Some JNull => default
          | Some node => cfg node r default
          end
      | _ => default
      end
  end.

Definition ItemType_STORY : string := "story".
Definition ItemType_BUG : string := "bug".
Definition ItemType_TASK : string := "task".
Definition ItemType_SUBTASK : string := "subtask".
Definition ItemType_EPIC : string := "epic".

Definition Source_JIRA : string := "jira".
Definition Source_CLICKUP : string := "clickup".
Definition Source_GITHUB : string := "github".

Definition isSome {A : Type} (o : option A) : bool :=
  match o with Some _ => true | None => false end.

(** [map_item_type(name)] *)
Definition map_item_type (name : Json) : result string :=
  let* n := py_lower_obj (py_or name (JStr "")) in
  Ok (if str_contains "bug" n then ItemType_BUG
      else if str_contains "sub-task" n || str_contains "subtask" n
           then ItemType_SUBTASK
      else if str_contains "epic" n then ItemType_EPIC
      else if str_contains "task" n then ItemType_TASK
      else ItemType_STORY).

(** The loop over the labels of [contains_blocked]. *)
Fixpoint any_label_blocked (labels : list Json) : result bool :=
  match labels with
  | [] => Ok false
  | l :: r =>
      let* s := py_lower_obj (py_or l (JStr "")) in
      if str_contains "block" s then Ok true else any_label_blocked r
  end.

(** [contains_blocked(status_name, labels)] *)
Definition contains_blocked (status_name labels : Json) : result bool :=
  let* sn := py_lower_obj (py_or status_name (JStr "")) in
  if str_contains "block" sn then Ok true
  else
    let* ls := py_iter (py_or labels (JList [])) in
    any_label_blocked ls.

Section Normalizers.

Variable fromisoformat : string -> result DateTime.
Variable current_timezone : Z -> Z.

Let to_dt' := to_dt fromisoformat current_timezone.

(** *** Jira: [JiraNormalizer._status_time] *)

(** The loop [for item in h.get("items", []) or []]: one hit per
    status item whose target is among the targets. *)
Fixpoint status_items (targets_lower : list string) (when : option DateTime)
    (items : list Json) : result (list DateTime) :=
  match items with
  | [] => Ok []
  | item :: r =>
      let* f := py_get item "field" in
      if py_eq f (JStr "status") then
        let* ts := py_get item "toString" in
        let* to_name := py_lower_obj (py_or ts (JStr "")) in
        let* rest := status_items targets_lower when r in
        Ok (match when with
            | Some w => if str_in to_name targets_lower then w :: rest else rest
            | None => rest
            end)
      else status_items targets_lower when r
  end.

(** The loop [for h in histories]. *)
Fixpoint status_hits (targets_lower : list string) (histories : list Json)
  : result (list DateTime) :=
  match histories with
  | [] => Ok []
  | h :: r =>
      let* c := py_get h "created" in
      let* when := to_dt' c in
      let* its := py_get_default h "items" (JList []) in
      let* items := py_iter (py_or its (JList [])) in
      let* hits := status_items targets_lower when items in
      let* rest := status_hits targets_lower r in
      Ok (hits ++ rest)
  end.

(** [_status_time(issue, targets)] *)
Definition _status_time (issue targets : Json) : result (option DateTime) :=
  let* ts := py_iter (py_or targets (JList [])) in
  let* targets_lower := mapM py_lower_obj ts in
  let* cl := py_get (py_or issue (JDict [])) "changelog" in
  let* hs := py_get_default (py_or cl (JDict [])) "histories" (JList []) in
  let* histories := py_iter (py_or hs (JList [])) in
  let* hits := status_hits targets_lower histories in
  Ok (earliest hits).

(** *** GitHub: the review loop of [GitHubPRNormalizer.normalize] *)

(** The loop [for r in reviews], from the state [(reviewers,
    first_reviewed_at)]; its results are stored as [reviewer_ids] and
    [first_reviewed_at] of the PR row. *)
Fixpoint review_loop (reviews : list Json) (reviewers : list Json)
    (first_reviewed_at : option DateTime)
  : result (list Json * option DateTime) :=
  match reviews with
  | [] => Ok (reviewers, first_reviewed_at)
  | r :: rest =>
      let* u := py_get r "user" in
      let* rid := py_get (py_or u (JDict [])) "login" in
      let reviewers' :=
        if truthy rid && negb (existsb (py_eq rid) reviewers)
        then reviewers ++ [rid] else reviewers in
      let* sub := py_get r "submitted_at" in
      let* first' :=
        if truthy sub && negb (isSome first_reviewed_at)
        then to_dt' sub
        else Ok first_reviewed_at in
      review_loop rest reviewers' first'
  end.

(** [reviews = payload.get("reviews") or []] and the loop. *)
Definition pr_reviews (payload : Json)
  : result (list Json * option DateTime) :=
  let* rs := py_get (py_or payload (JDict [])) "reviews" in
  let* reviews := py_iter (py_or rs (JList [])) in
  review_loop reviews [] None.

End Normalizers.

(** ** Canonical work items (metrics/models.py) *)

Record Board : Type := mkBoard {
  b_id : Z;
  b_client_id : option string
}.

(** A row of [RawPayload], as far as the normalizers read it. *)
Record RawPayload : Type := mkRawPayload {
  rp_source : string;
  rp_object_type : string;
  rp_payload : Json
}.

(** A row of [WorkItem]. Attributes taken over from a payload hold the
    JSON value they were given; points in time are instants; the parent
    is referred to by its [source_id]. *)
Record WorkItem : Type := mkWorkItem {
  wi_source : string;
  wi_source_id : string;
  wi_board : Z;
  wi_title : Json;
  wi_description : Json;
  wi_item_type : string;
  wi_story_points : option PyFloat;
  wi_sprint_id : option string;
  wi_release_id : option string;
  wi_client_id : option string;
  wi_assignees : list Json;
  wi_dev_owner : Json;
  wi_qa_owner : option string;
  wi_code_reviewer_ids : list string;
  wi_status : Json;
  wi_created_at : option Z;
  wi_started_at : option Z;
  wi_dev_started_at : option Z;
  wi_dev_done_at : option Z;
  wi_deployed_dev_at : option Z;
  wi_ready_for_qa_at : option Z;
  wi_qa_started_at : option Z;
  wi_qa_verified_at : option Z;
  wi_signed_off_at : option Z;
  wi_ready_for_uat_at : option Z;
  wi_deployed_uat_at : option Z;
  wi_done_at : option Z;
  wi_cancelled_at : option Z;
  wi_closed : bool;
  wi_blocked_flag : bool;
  wi_blocked_since : option Z;
  wi_blocked_reason : option string;
  wi_parent_story : option string;
  wi_linked_prs : Json;
  wi_meta : Json;
  wi_last_synced : Z
}.

(** A new instance with the defaults of the model; the board and the
    title have none and are given by every caller. *)
Definition new_work_item (source source_id : string) : WorkItem :=
  {| wi_source := source; wi_source_id := source_id; wi_board := 0;
     wi_title := JStr ""; wi_description := JNull; wi_item_type := "";
     wi_story_points := None; wi_sprint_id := None; wi_release_id := None;
     wi_client_id := None; wi_assignees := []; wi_dev_owner := JNull;
     wi_qa_owner := None; wi_code_reviewer_ids := [];
     wi_status := JStr "backlog";
     wi_created_at := None; wi_started_at := None;
     wi_dev_started_at := None; wi_dev_done_at := None;
     wi_deployed_dev_at := None; wi_ready_for_qa_at := None;
     wi_qa_started_at := None; wi_qa_verified_at := None;
     wi_signed_off_at := None; wi_ready_for_uat_at := None;
     wi_deployed_uat_at := None; wi_done_at := None;
     wi_cancelled_at := None; wi_closed := false;
     wi_blocked_flag := false; wi_blocked_since := None;
     wi_blocked_reason := None; wi_parent_story := None;
     wi_linked_prs := JList []; wi_meta := JDict []; wi_last_synced := 0 |}.

(** [auto_now]: the stamp every save refreshes. *)
Definition set_last_synced (now : Z) (w : WorkItem) : WorkItem :=
  {| wi_source := wi_source w; wi_source_id := wi_source_id w;
     wi_board := wi_board w; wi_title := wi_title w;
     wi_description := wi_description w; wi_item_type := wi_item_type w;
     wi_story_points := wi_story_points w; wi_sprint_id := wi_sprint_id w;
     wi_release_id := wi_release_id w; wi_client_id := wi_client_id w;
     wi_assignees := wi_assignees w; wi_dev_owner := wi_dev_owner w;
     wi_qa_owner := wi_qa_owner w;
     wi_code_reviewer_ids := wi_code_reviewer_ids w;
     wi_status := wi_status w;
     wi_created_at := wi_created_at w; wi_started_at := wi_started_at w;
     wi_dev_started_at := wi_dev_started_at w;
     wi_dev_done_at := wi_dev_done_at w;
     wi_deployed_dev_at := wi_deployed_dev_at w;
     wi_ready_for_qa_at := wi_ready_for_qa_at w;
     wi_qa_started_at := wi_qa_started_at w;
     wi_qa_verified_at := wi_qa_verified_at w;
     wi_signed_off_at := wi_signed_off_at w;
     wi_ready_for_uat_at := wi_ready_for_uat_at w;
     wi_deployed_uat_at := wi_deployed_uat_at w;
     wi_done_at := wi_done_at w; wi_cancelled_at := wi_cancelled_at w;
     wi_closed := wi_closed w; wi_blocked_flag := wi_blocked_flag w;
     wi_blocked_since := wi_blocked_since w;
     wi_blocked_reason := wi_blocked_reason w;
     wi_parent_story := wi_parent_story w;
     wi_linked_prs := wi_linked_prs w; wi_meta := wi_meta w;
     wi_last_synced := now |}.

(** The database as the normalizers see it: the work items, keyed by
    their unique [source_id], and the number of clock readings taken so
    far. *)
Record World : Type := mkWorld {
  items : gmap string WorkItem;
  ticks : nat
}.

Section Store.

(** The clock: the value of the [n]-th reading of [timezone.now()]. *)
Variable clock : nat -> Z.

Definition timezone_now (w : World) : Z * World :=
  (clock (ticks w), mkWorld (items w) (S (ticks w))).

(** [WorkItem.objects.filter(source=..., source_id=...).first()] *)
Definition find_item (source source_id : string) (w : World)
  : option WorkItem :=
  match items w !! source_id with
  | Some row => if String.eqb (wi_source row) source then Some row else None
  | None => None
  end.

(** Saving the row stored under [source_id] stamps [last_synced]. *)
Definition save_item (source_id : string) (row : WorkItem) (w : World) : World :=
  let '(now, w) := timezone_now w in
  mkWorld (<[source_id := set_last_synced now row]> (items w)) (ticks w).

(** [WorkItem.objects.update_or_create(source=..., source_id=...,
    defaults=...)], the defaults being given as the assignments
    [defaults] to the row. A row of another source with this
    [source_id] violates the unique constraint. *)
Definition update_or_create (source source_id : string)
    (defaults : WorkItem -> WorkItem) (w : World) : result World :=
  match items w !! source_id with
  | Some row =>
      if String.eqb (wi_source row) source
      then Ok (save_item source_id (defaults row) w)
      else Raise IntegrityError
  | None =>
      Ok (save_item source_id (defaults (new_work_item source source_id)) w)
  end.

(** [WorkItem.objects.get_or_create(source=..., source_id=...,
    defaults=...)] *)
Definition get_or_create (source source_id : string)
    (defaults : WorkItem -> WorkItem) (w : World) : result World :=
  match items w !! source_id with
  | Some row =>
      if String.eqb (wi_source row) source
      then Ok w
      else Raise IntegrityError
  | None =>
      Ok (save_item source_id (defaults (new_work_item source source_id)) w)
  end.

End Store.

(** ** Jira and ClickUp normalizers *)

Definition opt_instant (d : option DateTime) : option Z :=
  match d with Some d => Some (instant d) | None => None end.

(** [a or b] on optional datetimes (a datetime is always true). *)
Definition dt_or (a b : option DateTime) : option DateTime :=
  match a with Some _ => a | None => b end.

Definition last_json (l : list Json) : Json := List.last l JNull.

(** The values [JiraNormalizer.normalize] computes from one issue before
    it writes. *)
Record JiraValues : Type := mkJiraValues {
  jv_key : Json;
  jv_title : Json;
  jv_description : Json;
  jv_itype : string;
  jv_story_points : option PyFloat;
  jv_sprint_id : option string;
  jv_assignees : list Json;
  jv_dev_owner : Json;
  jv_status_name : Json;
  jv_created_at : option DateTime;
  jv_dev_started_at : option DateTime;
  jv_dev_done_at : option DateTime;
  jv_ready_for_qa_at : option DateTime;
  jv_qa_started_at : option DateTime;
  jv_qa_verified_at : option DateTime;
  jv_signed_off_at : option DateTime;
  jv_ready_for_uat_at : option DateTime;
  jv_deployed_uat_at : option DateTime;
  jv_done_at : option DateTime;
  jv_blocked_flag : bool;
  jv_parent_key : Json;
  jv_project : Json
}.

Section JiraClickUp.

Variable fromisoformat : string -> result DateTime.
Variable current_timezone : Z -> Z.
Variable py_repr : Json -> string.

(** [float(x)] of the Python library ([Raise] for a [ValueError],
    [TypeError] or [OverflowError]). *)
Variable py_float : Json -> result PyFloat.

Variable clock : nat -> Z.

(** The configuration of the active mapping version. *)
Variable root : Json.

Let to_dt' := to_dt fromisoformat current_timezone.
Let py_str' := py_str py_repr.
Let _status_time' := _status_time fromisoformat current_timezone.

(** [float(sp) if sp is not None else None], any exception giving
    [None]. *)
Definition points_of (sp : Json) : option PyFloat :=
  if is_none sp then None
  else match py_float sp with
       | Ok f => Some f
       | Raise _ => None
       end.

(** The sprint id of an issue (best effort). *)
Definition jira_sprint_id (fields : Json) : result (option string) :=
  let* sprint_obj := py_get fields "sprint" in
  if is_dict sprint_obj then
    let* i := py_get sprint_obj "id" in
    let* n := py_get sprint_obj "name" in
    Ok (Some (py_str' (py_or (py_or i n) (JStr ""))))
  else
    let* alt := py_get fields "customfield_10020" in
    match py_or sprint_obj alt with
    | JList (x :: l) =>
        let s0 := last_json (x :: l) in
        let* v := (if is_dict s0 then py_get s0 "id" else Ok s0) in
        Ok (Some (py_str' (py_or v (JStr ""))))
    | _ => Ok None
    end.

(** The part of the loop body of [JiraNormalizer.normalize] that only
    reads the payload: [None] for an issue without key, which is
    skipped. *)
Definition jira_values (payload : Json) : result (option JiraValues) :=
  let points_field := cfg root ["jira"; "points_field"] (JStr "customfield_10016") in
  let status_map := py_or (cfg root ["jira"; "status_map"] (JDict [])) (JDict []) in
  let issue := py_or payload (JDict []) in
  let* fs := py_get issue "fields" in
  let fields := py_or fs (JDict []) in
  let* k1 := py_get issue "key" in
  let* k2 := py_get issue "id" in
  let key := py_or k1 k2 in
  if negb (truthy key) then Ok None else
  let* summary := py_get fields "summary" in
  let title := py_or summary (JStr "Untitled") in
  let* it := py_get fields "issuetype" in
  let* itn := py_get (py_or it (JDict [])) "name" in
  let* itype := map_item_type itn in
  let* a0 := py_get fields "assignee" in
  let assignee := py_or a0 (JDict []) in
  let* dn := py_get assignee "displayName" in
  let* em := py_get assignee "emailAddress" in
  let* ac := py_get assignee "accountId" in
  let assignees := List.filter truthy [py_or (py_or dn em) ac] in
  let dev_owner := match assignees with a :: _ => a | [] => JNull end in
  let* sp := py_get_key fields points_field in
  let story_points := points_of sp in
  let* sprint_id := jira_sprint_id fields in
  let* st := py_get fields "status" in
  let* stn := py_get (py_or st (JDict [])) "name" in
  let status_name := py_or stn (JStr "") in
  let* lb := py_get fields "labels" in
  let labels := py_or lb (JList []) in
  let* c := py_get fields "created" in
  let* created_at := to_dt' c in
  let* u := py_get fields "updated" in
  let* updated_at := to_dt' u in
  let* rd := py_get fields "resolutiondate" in
  let* resolutiondate := to_dt' rd in
  let step s :=
    let* targets := py_get_default status_map s (JList []) in
    _status_time' issue targets in
  let* dev_started_at := step "dev_started" in
  let* dev_done_at := step "dev_done" in
  let* ready_for_qa_at := step "ready_for_qa" in
  let* qa_started_at := step "qa_started" in
  let* qa_verified_at := step "qa_verified" in
  let* signed_off_at := step "signed_off" in
  let* ready_for_uat_at := step "ready_for_uat" in
  let* deployed_uat_at := step "deployed_uat" in
  let* done_at :=
    match resolutiondate with
    | Some _ => Ok resolutiondate
    | None => step "done"
    end in
  let* blocked_flag := contains_blocked status_name labels in
  let* pa := py_get fields "parent" in
  let* parent_key := py_get (py_or pa (JDict [])) "key" in
  let* d := py_get fields "description" in
  let* pr := py_get fields "project" in
  let* project := py_get (py_or pr (JDict [])) "key" in
  Ok (Some {|
    jv_key := key; jv_title := title;
    jv_description := py_or d (JStr ""); jv_itype := itype;
    jv_story_points := story_points; jv_sprint_id := sprint_id;
    jv_assignees := assignees; jv_dev_owner := dev_owner;
    jv_status_name := status_name; jv_created_at := created_at;
    jv_dev_started_at := dev_started_at; jv_dev_done_at := dev_done_at;
    jv_ready_for_qa_at := ready_for_qa_at;
    jv_qa_started_at := qa_started_at;
    jv_qa_verified_at := qa_verified_at;
    jv_signed_off_at := signed_off_at;
    jv_ready_for_uat_at := ready_for_uat_at;
    jv_deployed_uat_at := deployed_uat_at;
    jv_done_at := done_at; jv_blocked_flag := blocked_flag;
    jv_parent_key := parent_key; jv_project := project |}).

(** [upsert_parent(board, source, parent_key)]: the [source_id] of the
    parent, if any. *)
Definition upsert_parent (board : Board) (source : string)
    (parent_key : Json) (w : World) : result (option string * World) :=
  if negb (truthy parent_key) then Ok (None, w)
  else
    let sid := py_str' parent_key in
    let* w' := get_or_create clock source sid
                 (fun r =>
                    {| wi_source := wi_source r; wi_source_id := wi_source_id r;
                       wi_board := b_id board;
                       wi_title := JStr ("Parent " +:+ py_str' parent_key);
                       wi_description := wi_description r;
                       wi_item_type := ItemType_STORY;
                       wi_story_points := wi_story_points r;
                       wi_sprint_id := wi_sprint_id r;
                       wi_release_id := wi_release_id r;
                       wi_client_id := wi_client_id r;
                       wi_assignees := wi_assignees r;
                       wi_dev_owner := wi_dev_owner r;
                       wi_qa_owner := wi_qa_owner r;
                       wi_code_reviewer_ids := wi_code_reviewer_ids r;
                       wi_status := wi_status r;
                       wi_created_at := wi_created_at r;
                       wi_started_at := wi_started_at r;
                       wi_dev_started_at := wi_dev_started_at r;
                       wi_dev_done_at := wi_dev_done_at r;
                       wi_deployed_dev_at := wi_deployed_dev_at r;
                       wi_ready_for_qa_at := wi_ready_for_qa_at r;
                       wi_qa_started_at := wi_qa_started_at r;
                       wi_qa_verified_at := wi_qa_verified_at r;
                       wi_signed_off_at := wi_signed_off_at r;
                       wi_ready_for_uat_at := wi_ready_for_uat_at r;
                       wi_deployed_uat_at := wi_deployed_uat_at r;
                       wi_done_at := wi_done_at r;
                       wi_cancelled_at := wi_cancelled_at r;
                       wi_closed := wi_closed r;
                       wi_blocked_flag := wi_blocked_flag r;
                       wi_blocked_since := wi_blocked_since r;
                       wi_blocked_reason := wi_blocked_reason r;
                       wi_parent_story := wi_parent_story r;
                       wi_linked_prs := wi_linked_prs r;
                       wi_meta := wi_meta r;
                       wi_last_synced := wi_last_synced r |}) w in
    Ok (Some sid, w').

(** The assignments of the [defaults] dict of the Jira normalizer,
    [blocked_since] included. *)
Definition jira_defaults (board : Board) (v : JiraValues)
    (parent_story : option string) (blocked_since : option Z)
    (r : WorkItem) : WorkItem :=
  {| wi_source := wi_source r; wi_source_id := wi_source_id r;
     wi_board := b_id board;
     wi_title := jv_title v;
     wi_description := jv_description v;
     wi_item_type := jv_itype v;
     wi_story_points := jv_story_points v;
     wi_sprint_id := jv_sprint_id v;
     wi_release_id := wi_release_id r;
     wi_client_id := b_client_id board;
     wi_assignees := jv_assignees v;
     wi_dev_owner := jv_dev_owner v;
     wi_qa_owner := wi_qa_owner r;
     wi_code_reviewer_ids := wi_code_reviewer_ids r;
     wi_status := py_or (jv_status_name v) (JStr "backlog");
     wi_created_at := opt_instant (jv_created_at v);
     wi_started_at :=
       opt_instant (dt_or (jv_dev_started_at v) (jv_created_at v));
     wi_dev_started_at := opt_instant (jv_dev_started_at v);
     wi_dev_done_at := opt_instant (jv_dev_done_at v);
     wi_deployed_dev_at := None;
     wi_ready_for_qa_at := opt_instant (jv_ready_for_qa_at v);
     wi_qa_started_at := opt_instant (jv_qa_started_at v);
     wi_qa_verified_at := opt_instant (jv_qa_verified_at v);
     wi_signed_off_at := opt_instant (jv_signed_off_at v);
     wi_ready_for_uat_at := opt_instant (jv_ready_for_uat_at v);
     wi_deployed_uat_at := opt_instant (jv_deployed_uat_at v);
     wi_done_at := opt_instant (jv_done_at v);
     wi_cancelled_at := wi_cancelled_at r;
     wi_closed := isSome (jv_done_at v);
     wi_blocked_flag := jv_blocked_flag v;
     wi_blocked_since := blocked_since;
     wi_blocked_reason := wi_blocked_reason r;
     wi_parent_story := parent_story;
     wi_linked_prs := wi_linked_prs r;
     wi_meta := JDict [("project", jv_project v)];
     wi_last_synced := wi_last_synced r |}.

(** The [with transaction.atomic()] block: the value of
    [defaults["blocked_since"]]. *)
Definition jira_blocked_since (blocked_flag : bool)
    (existing : option WorkItem) (w : World) : option Z * World :=
  match existing with
  | Some e =>
      if blocked_flag && negb (wi_blocked_flag e) then
        let '(now, w) := timezone_now clock w in (Some now, w)
      else if blocked_flag && wi_blocked_flag e then
        match wi_blocked_since e with
        | Some t => (Some t, w)
        | None => let '(now, w) := timezone_now clock w in (Some now, w)
        end
      else (None, w)
  | None =>
      if blocked_flag
      then let '(now, w) := timezone_now clock w in (Some now, w)
      else (None, w)
  end.

(** The body of the loop of [JiraNormalizer.normalize] for one record:
    whether the record was counted, and the database after it. The
    payload is read first; reading has no effect on the database. *)
Definition jira_normalize_one (board : Board) (rp : RawPayload) (w : World)
  : result (bool * World) :=
  if negb (String.eqb (rp_source rp) Source_JIRA)
     || negb (String.eqb (rp_object_type rp) "issue")
  then Ok (false, w)
  else
    let* vs := jira_values (rp_payload rp) in
    match vs with
    | None => Ok (false, w)
    | Some v =>
        let* pw := upsert_parent board Source_JIRA (jv_parent_key v) w in
        let '(parent_story, w) := pw in
        let sid := py_str' (jv_key v) in
        let existing := find_item Source_JIRA sid w in
        let '(blocked_since, w) :=
          jira_blocked_since (jv_blocked_flag v) existing w in
        let* w := update_or_create clock Source_JIRA sid
                    (jira_defaults board v parent_story blocked_since) w in
        Ok (true, w)
    end.

(** [JiraNormalizer(board).normalize(raw_items)]: the count and the
    database afterwards. *)
Fixpoint jira_normalize (board : Board) (raw_items : list RawPayload)
    (w : World) : result (Z * World) :=
  match raw_items with
  | [] => Ok (0, w)
  | rp :: r =>
      let* cw := jira_normalize_one board rp w in
      let* nw := jira_normalize board r (snd cw) in
      Ok ((if fst cw then 1 else 0) + fst nw, snd nw)
  end.

End JiraClickUp.

(** The values [ClickUpNormalizer.normalize] computes from one task
    before it writes. *)
Record ClickUpValues : Type := mkClickUpValues {
  cv_tid : Json;
  cv_title : Json;
  cv_status_name : Json;
  cv_itype : string;
  cv_assignees : list Json;
  cv_dev_owner : Json;
  cv_created_at : option DateTime;
  cv_done_at : option DateTime;
  cv_story_points : option PyFloat;
  cv_sprint_id : option string;
  cv_list_id : Json
}.

Section ClickUp.

Variable fromisoformat : string -> result DateTime.
Variable current_timezone : Z -> Z.
Variable py_repr : Json -> string.
Variable py_float : Json -> result PyFloat.
Variable clock : nat -> Z.
Variable root : Json.

Let to_dt' := to_dt fromisoformat current_timezone.
Let py_str' := py_str py_repr.

(** [self.points_field_name] *)
Definition points_field_name : result string :=
  py_lower_obj
    (py_or (cfg root ["clickup"; "points_field_name"] (JStr "Story Points"))
           (JStr "")).

(** [_points_from_custom(cf_list)] *)
Fixpoint _points_from_custom (pfn : string) (cf_list : list Json)
  : result (option PyFloat) :=
  match cf_list with
  | [] => Ok None
  | cf :: r =>
      let* n := py_get cf "name" in
      let* name := py_lower_obj (py_or n (JStr "")) in
      if String.eqb name pfn then
        let* val := py_get cf "value" in
        Ok (points_of py_float val)
      else _points_from_custom pfn r
  end.

(** The loop over the assignees. *)
Fixpoint clickup_assignees (l : list Json) : result (list Json) :=
  match l with
  | [] => Ok []
  | a :: r =>
      let* un := py_get a "username" in
      let* em := py_get a "email" in
      let* i := py_get a "id" in
      let name := py_or (py_or un em) i in
      let* rest := clickup_assignees r in
      Ok (if truthy name then JStr (py_str' name) :: rest else rest)
  end.

(** The loop looking for a custom field named Sprint or Iteration. *)
Fixpoint clickup_sprint_id (l : list Json) : result (option string) :=
  match l with
  | [] => Ok None
  | cf :: r =>
      let* n := py_get cf "name" in
      let* name := py_lower_obj (py_or n (JStr "")) in
      if String.eqb name "sprint" || String.eqb name "iteration" then
        let* v := py_get cf "value" in
        if truthy v then
          let* x := (if is_dict v then py_get v "id" else Ok v) in
          Ok (Some (py_str' x))
        else Ok None
      else clickup_sprint_id r
  end.

(** The reading part of the loop body of [ClickUpNormalizer.normalize]:
    [None] for a task without id, which is skipped. *)
Definition clickup_values (pfn : string) (payload : Json)
  : result (option ClickUpValues) :=
  let t := py_or payload (JDict []) in
  let* tid := py_get t "id" in
  if negb (truthy tid) then Ok None else
  let* n := py_get t "name" in
  let title := py_or n (JStr "Untitled") in
  let* st := py_get t "status" in
  let* sts := py_get (py_or st (JDict [])) "status" in
  let status_name := py_or sts (JStr "") in
  let* tl := py_lower_obj title in
  let itype := if str_contains "bug" tl then ItemType_BUG else ItemType_STORY in
  let* asg := py_get t "assignees" in
  let* al := py_iter (py_or asg (JList [])) in
  let* assignees := clickup_assignees al in
  let dev_owner := match assignees with a :: _ => a | [] => JNull end in
  let* dc := py_get t "date_created" in
  let* created_at := to_dt' dc in
  let* du := py_get t "date_updated" in
  let* updated_at := to_dt' du in
  let* dcl := py_get t "date_closed" in
  let* done_at := to_dt' dcl in
  let* cfs := py_get t "custom_fields" in
  let* cfl := py_iter (py_or cfs (JList [])) in
  let* story_points := _points_from_custom pfn cfl in
  let* sprint_id := clickup_sprint_id cfl in
  let* li := py_get t "list" in
  let* list_id := py_get (py_or li (JDict [])) "id" in
  Ok (Some {|
    cv_tid := tid; cv_title := title; cv_status_name := status_name;
    cv_itype := itype; cv_assignees := assignees; cv_dev_owner := dev_owner;
    cv_created_at := created_at; cv_done_at := done_at;
    cv_story_points := story_points; cv_sprint_id := sprint_id;
    cv_list_id := list_id |}).

(** The assignments of the [defaults] dict of the ClickUp normalizer. *)
Definition clickup_defaults (board : Board) (v : ClickUpValues)
    (r : WorkItem) : WorkItem :=
  {| wi_source := wi_source r; wi_source_id := wi_source_id r;
     wi_board := b_id board;
     wi_title := cv_title v;
     wi_description := wi_description r;
     wi_item_type := cv_itype v;
     wi_story_points := cv_story_points v;
     wi_sprint_id := cv_sprint_id v;
     wi_release_id := wi_release_id r;
     wi_client_id := b_client_id board;
     wi_assignees := cv_assignees v;
     wi_dev_owner := cv_dev_owner v;
     wi_qa_owner := wi_qa_owner r;
     wi_code_reviewer_ids := wi_code_reviewer_ids r;
     wi_status := py_or (cv_status_name v) (JStr "backlog");
     wi_created_at := opt_instant (cv_created_at v);
     wi_started_at := opt_instant (cv_created_at v);
     wi_dev_started_at := wi_dev_started_at r;
     wi_dev_done_at := wi_dev_done_at r;
     wi_deployed_dev_at := wi_deployed_dev_at r;
     wi_ready_for_qa_at := wi_ready_for_qa_at r;
     wi_qa_started_at := wi_qa_started_at r;
     wi_qa_verified_at := wi_qa_verified_at r;
     wi_signed_off_at := wi_signed_off_at r;
     wi_ready_for_uat_at := wi_ready_for_uat_at r;
     wi_deployed_uat_at := wi_deployed_uat_at r;
     wi_done_at := opt_instant (cv_done_at v);
     wi_cancelled_at := wi_cancelled_at r;
     wi_closed := isSome (cv_done_at v);
     wi_blocked_flag := wi_blocked_flag r;
     wi_blocked_since := wi_blocked_since r;
     wi_blocked_reason := wi_blocked_reason r;
     wi_parent_story := wi_parent_story r;
     wi_linked_prs := wi_linked_prs r;
     wi_meta := JDict [("list_id", cv_list_id v)];
     wi_last_synced := wi_last_synced r |}.

(** The body of the loop of [ClickUpNormalizer.normalize] for one
    record. *)
Definition clickup_normalize_one (pfn : string) (board : Board)
    (rp : RawPayload) (w : World) : result (bool * World) :=
  if negb (String.eqb (rp_source rp) Source_CLICKUP)
     || negb (String.eqb (rp_object_type rp) "task")
  then Ok (false, w)
  else
    let* vs := clickup_values pfn (rp_payload rp) in
    match vs with
    | None => Ok (false, w)
    | Some v =>
        let* w := update_or_create clock Source_CLICKUP (py_str' (cv_tid v))
                    (clickup_defaults board v) w in
        Ok (true, w)
    end.

(** The loop of [ClickUpNormalizer.normalize]. *)
Fixpoint clickup_loop (pfn : string) (board : Board)
    (raw_items : list RawPayload) (w : World) : result (Z * World) :=
  match raw_items with
  | [] => Ok (0, w)
  | rp :: r =>
      let* cw := clickup_normalize_one pfn board rp w in
      let* nw := clickup_loop pfn board r (snd cw) in
      Ok ((if fst cw then 1 else 0) + fst nw, snd nw)
  end.

(** [ClickUpNormalizer(board).normalize(raw_items)]: the constructor
    reads the name of the points field, then the loop runs. *)
Definition clickup_normalize (board : Board) (raw_items : list RawPayload)
    (w : World) : result (Z * World) :=
  let* pfn := points_field_name in
  clickup_loop pfn board raw_items w.

End ClickUp.

(** ** Definitions used to state the SLA precedence *)

(** The value of the first key of [m] equal to [k] up to case. *)
Fixpoint lookup_ci (m : list (string * Z)) (k : string) : option Z :=
  match m with
  | [] => None
  | (k', v) :: r =>
      if String.eqb (py_lower k) (py_lower k') then Some v else lookup_ci r k
  end.

(** The resolution as the specification words it: the [by_priority]
    value of [meta.priority] if it matches a key, else the [by_type]
    value of the item type if it matches a key, else the global default. *)
Definition sla_limit_as_specified (by_priority by_type : list (string * Z))
    (blocked_hours : Z) (meta_priority : option string) (item_type : string)
  : Z :=
  match match meta_priority with
        | Some p => lookup_ci by_priority p
        | None => None
        end with
  | Some h => h
  | None =>
      match lookup_ci by_type item_type with
      | Some h => h
      | None => blocked_hours
      end
  end.

(** A dict with integer values. *)
Definition int_dict (m : list (string * Z)) : Json :=
  JDict (map (fun kv => (fst kv, JInt (snd kv))) m).

(** The configuration [{"sla": {"blocked_hours": ..., "by_priority":
    ..., "by_type": ...}}]. *)
Definition sla_config (by_priority by_type : list (string * Z))
    (blocked_hours : Z) : Json :=
  JDict [("sla", JDict [("blocked_hours", JInt blocked_hours);
                        ("by_priority", int_dict by_priority);
                        ("by_type", int_dict by_type)])].

(** The value of a key of a dict, [None] standing for an absent key. *)
Definition dict_value (d : list (string * Json)) (k : string) : Json :=
  match dict_get d k with
  | Some v => v
  | None => JNull
  end.

(** A value that is a number of hours: one [int] accepts. *)
Definition hours_value (v : Json) : option Z :=
  match py_int v with
  | Ok h => Some h
  | Raise _ => None
  end.

(** The hours of the first key of [m] that equals [k] up to case and
    has a number of hours. *)
Fixpoint first_hours (m : list (string * Json)) (k : string) : option Z :=
  match m with
  | [] => None
  | (k', v) :: r =>
      if String.eqb (py_lower k) (py_lower k')
      then match hours_value v with
           | Some h => Some h
           | None => first_hours r k
           end
      else first_hours r k
  end.

(** The value of the last key of [m] that equals [k] up to case. *)
Definition last_value (m : list (string * Json)) (k : string) : option Json :=
  fold_left (fun acc kv =>
               if String.eqb (py_lower (fst kv)) (py_lower k)
               then Some (snd kv) else acc) m None.

(** The hours the type map gives a type: those of the last key equal
    to it up to case, if its value is a number of hours. *)
Definition type_limit (m : list (string * Json)) (item_type : string)
  : option Z :=
  match last_value m item_type with
  | Some v => hours_value v
  | None => None
  end.

Section SlaInForce.

Variable py_repr : Json -> string.

(** The configuration in force: the [sla] section of the active
    mapping and the setting [SLA_DEFAULTS]. *)
Variable root defaults : Json.

Definition sla_section : Json := try_except (sla_cfg root) (JDict []).

(** The map in force for [key]: that of the [sla] section, and when it
    has none, or an empty one, that of the defaults. *)
Definition map_in_force (key : string) : list (string * Json) :=
  try_except
    (let* m := sla_map sla_section (py_or defaults (JDict [])) key in
     py_items m)
    [].

Definition by_priority_in_force : list (string * Json) :=
  map_in_force "by_priority".

Definition by_type_in_force : list (string * Json) :=
  map_in_force "by_type".

(** The global default in force: [blocked_hours] of the [sla] section,
    else of the defaults, else 48; 48 also when it is no number of
    hours. *)
Definition blocked_hours_in_force : Z :=
  global_hours sla_section (py_or defaults (JDict [])).

(** The priority of an item: the text of [meta.priority], else of
    [meta.Priority], stripped; if that is empty, the first of
    [meta.labels] that is a key of [by_priority] up to case; else none
    (the empty text). *)
Definition item_priority (wi_meta : Json) : string :=
  match wi_meta with
  | JDict m =>
      let p := match py_or (py_or (dict_value m "priority")
                                  (dict_value m "Priority")) (JStr "") with
               | JStr t => py_strip t
               | _ => ""
               end in
      if negb (String.eqb p "") then p
      else match py_or (dict_value m "labels") (JList []) with
           | JList labels =>
               match List.find
                       (fun l => str_in (py_lower (py_str py_repr l))
                                   (map (fun kv => py_lower (fst kv))
                                        by_priority_in_force))
                       labels with
               | Some l => py_str py_repr l
               | None => ""
               end
           | _ => ""
           end
  | _ => ""
  end.

(** The resolution as the code has it: priority, then type, then the
    global default. *)
Definition sla_limit_by_precedence (wi_meta : Json) (item_type : string) : Z :=
  let p := item_priority wi_meta in
  match (if negb (String.eqb p "") then first_hours by_priority_in_force p
         else None) with
  | Some h => h
  | None =>
      match type_limit by_type_in_force item_type with
      | Some h => h
      | None => blocked_hours_in_force
      end
  end.

End SlaInForce.

(** ** Definitions used to state the properties of the review loop *)

(** The distinct elements of a list of objects, equality being [==],
    each at its first occurrence. *)
Definition distinct_objects (l : list Json) : list Json :=
  fold_left (fun acc x => if existsb (py_eq x) acc then acc else acc ++ [x])
            l [].

(** The first element that is not [None]. *)
Fixpoint first_some {A : Type} (l : list (option A)) : option A :=
  match l with
  | [] => None
  | Some a :: _ => Some a
  | None :: r => first_some r
  end.

(** The elements that are not [None]. *)
Definition somes {A : Type} (l : list (option A)) : list A :=
  omap id l.

(** The instants of a list of datetimes do not decrease. *)
Fixpoint chronological (l : list DateTime) : Prop :=
  match l with
  | [] => True
  | d :: r => Forall (fun x => instant d <= instant x) r /\ chronological r
  end.

(** The review records of a payload, [payload.get("reviews") or []]. *)
Definition payload_reviews (payload : Json) : list Json :=
  try_except
    (let* rs := py_get (py_or payload (JDict [])) "reviews" in
     py_iter (py_or rs (JList [])))
    [].

(** The login of the reviewer of a record,
    [(r.get("user") or {}).get("login")]. *)
Definition review_login (r : Json) : Json :=
  try_except
    (let* u := py_get r "user" in py_get (py_or u (JDict [])) "login")
    JNull.

(** The logins of the reviewers of a payload that are not empty, in
    review order. *)
Definition reviewer_logins (payload : Json) : list Json :=
  List.filter truthy (map review_login (payload_reviews payload)).

Section ReviewTimes.

Variable fromisoformat : string -> result DateTime.
Variable current_timezone : Z -> Z.

(** The time of a review record: what [to_dt] reads of its
    [submitted_at], if anything. *)
Definition review_time (r : Json) : option DateTime :=
  try_except
    (let* sub := py_get r "submitted_at" in
     to_dt fromisoformat current_timezone sub)
    None.

(** The [submitted_at] times of the review records of a payload, in
    review order. *)
Definition review_times (payload : Json) : list (option DateTime) :=
  map review_time (payload_reviews payload).

(** The first-review time as the specification words it: the minimum of
    the [submitted_at] times of all review records. *)
Definition first_review_as_specified (payload : Json) : option DateTime :=
  earliest (somes (review_times payload)).

End ReviewTimes.

(** ** Definitions used to state the properties of the mapping validator *)

(** The dict without the key [k]. *)
Definition dict_remove (k : string) (d : list (string * Json))
  : list (string * Json) :=
  List.filter (fun kv => negb (String.eqb (fst kv) k)) d.

(** The configuration [cfg] with [status_map] taken out of its [jira]
    section [jira]. *)
Definition without_status_map (cfg jira : list (string * Json))
  : list (string * Json) :=
  assoc_set cfg "jira" (JDict (dict_remove "status_map" jira)).

(** The step has an entry in the status map. *)
Definition step_mapped (status_map : list (string * Json)) (step : string)
  : bool :=
  match dict_get status_map step with
  | None | Some JNull => false
  | Some _ => true
  end.

Definition not_mapped_warning (step : string) : Issue :=
  mkIssue ("jira.status_map." +:+ step)
          "Not mapped — timestamps for this step won't be set".

(** The status names of a list, lower-cased and stripped. *)
Definition norm_names (arr : list Json) : list string :=
  omap (fun s => match s with
                 | JStr t => Some (py_strip (py_lower t))
                 | _ => None
                 end) arr.

(** The pairs (step, normalised status name) of a status map. *)
Definition step_names (status_map : list (string * Json))
  : list (string * string) :=
  flat_map (fun kv => match snd kv with
                      | JList arr => map (fun n => (fst kv, n)) (norm_names arr)
                      | _ => []
                      end) status_map.

(** No status name appears in two different steps. *)
Definition names_distinct (status_map : list (string * Json)) : bool :=
  forallb (fun a =>
             forallb (fun b => negb (String.eqb (snd a) (snd b))
                               || String.eqb (fst a) (fst b))
                     (step_names status_map))
          (step_names status_map).

(** ** Definitions used in the proofs *)

(** The row [open_ticket] writes back when it found [rt]. *)
Definition refreshed (message : string) (meta : Json) (rt : RemediationTicket)
  : RemediationTicket :=
  let rt1 :=
    if negb (String.eqb (rt_message rt) message)
    then set_message message rt else rt in
  if truthy meta && negb (py_eq (py_or (rt_meta rt1) (JDict [])) meta)
  then set_meta meta rt1 else rt1.

(** Every name recorded in [seen] is a name of the step recorded. *)
Definition seen_sound (sm : list (string * Json))
    (seen : list (string * string)) : Prop :=
  forall key step, assoc_get seen key = Some step -> In (step, key) (step_names sm).


(** The warnings of a status map that maps no canonical step. *)
Definition ALL_NOT_MAPPED : list Issue := map not_mapped_warning CANONICAL_STEPS.

(** ** Definitions used to state the properties of the Jira normalizer *)

(** The changelog entries of an issue,
    [((issue or {}).get("changelog") or {}).get("histories", []) or []]. *)
Definition changelog_entries (issue : Json) : list Json :=
  try_except
    (let* cl := py_get (py_or issue (JDict [])) "changelog" in
     let* hs := py_get_default (py_or cl (JDict [])) "histories" (JList []) in
     py_iter (py_or hs (JList [])))
    [].

(** The items of a changelog entry, [h.get("items", []) or []]. *)
Definition entry_items (h : Json) : list Json :=
  try_except
    (let* its := py_get_default h "items" (JList []) in
     py_iter (py_or its (JList [])))
    [].

(** The status names the configuration [root] lists for a step,
    [status_map.get(step, []) or []]. *)
Definition step_targets (root : Json) (step : string) : list Json :=
  try_except
    (let* t := py_get_default (py_or (cfg root ["jira"; "status_map"] (JDict []))
                                     (JDict [])) step (JList []) in
     py_iter (py_or t (JList [])))
    [].

(** Two names are the same text, case ignored. *)
Definition same_name (a b : Json) : bool :=
  match a, b with
  | JStr s, JStr t => String.eqb (py_lower s) (py_lower t)
  | _, _ => false
  end.

(** The item is a transition of the status field to one of the target
    names, case ignored: its [field] is [status] and its [toString] is
    one of the names. *)
Definition item_matches (targets : list Json) (item : Json) : bool :=
  match item with
  | JDict d =>
      py_eq (dict_value d "field") (JStr "status")
      && existsb (same_name (py_or (dict_value d "toString") (JStr "")))
                 targets
  | _ => false
  end.

(** The entry holds a transition to one of the target names. *)
Definition entry_matches (targets : list Json) (h : Json) : bool :=
  existsb (item_matches targets) (entry_items h).

Section EntryTimes.

Variable fromisoformat : string -> result DateTime.
Variable current_timezone : Z -> Z.

(** The time of a changelog entry: what [to_dt] reads of its
    [created], if anything. *)
Definition entry_time (h : Json) : option DateTime :=
  try_except
    (let* c := py_get h "created" in
     to_dt fromisoformat current_timezone c)
    None.

(** The times of the entries that hold a transition to one of the
    targets, one per such transition, in changelog order. *)
Definition matching_times (targets : list Json) (entries : list Json)
  : list DateTime :=
  flat_map (fun h => match entry_time h with
                     | Some w => map (fun _ => w)
                                     (List.filter (item_matches targets)
                                                  (entry_items h))
                     | None => []
                     end) entries.

End EntryTimes.

(** The canonical steps whose time the normalizer takes from the
    changelog alone, and the value computed for each. *)
Definition CHANGELOG_STEPS : list string :=
  [ "dev_started"; "dev_done"; "ready_for_qa"; "qa_started"; "qa_verified";
    "signed_off"; "ready_for_uat"; "deployed_uat" ].

Definition step_time (step : string) (v : JiraValues) : option DateTime :=
  if String.eqb step "dev_started" then jv_dev_started_at v
  else if String.eqb step "dev_done" then jv_dev_done_at v
  else if String.eqb step "ready_for_qa" then jv_ready_for_qa_at v
  else if String.eqb step "qa_started" then jv_qa_started_at v
  else if String.eqb step "qa_verified" then jv_qa_verified_at v
  else if String.eqb step "signed_off" then jv_signed_off_at v
  else if String.eqb step "ready_for_uat" then jv_ready_for_uat_at v
  else if String.eqb step "deployed_uat" then jv_deployed_uat_at v
  else None.

(** The column of the work item row that holds the time of a step. *)
Definition row_step_time (step : string) (w : WorkItem) : option Z :=
  if String.eqb step "dev_started" then wi_dev_started_at w
  else if String.eqb step "dev_done" then wi_dev_done_at w
  else if String.eqb step "ready_for_qa" then wi_ready_for_qa_at w
  else if String.eqb step "qa_started" then wi_qa_started_at w
  else if String.eqb step "qa_verified" then wi_qa_verified_at w
  else if String.eqb step "signed_off" then wi_signed_off_at w
  else if String.eqb step "ready_for_uat" then wi_ready_for_uat_at w
  else if String.eqb step "deployed_uat" then wi_deployed_uat_at w
  else None.

(** ** Definitions used to state the properties of the upserts *)

(** The value of [blocked_since] an existing row of the source carries
    as a blocked row. *)
Definition carried_blocked_since (source source_id : string) (w : World)
  : option Z :=
  match items w !! source_id with
  | Some e =>
      if String.eqb (wi_source e) source && wi_blocked_flag e
      then wi_blocked_since e else None
  | None => None
  end.

Section Runs.

Variable fromisoformat : string -> result DateTime.
Variable current_timezone : Z -> Z.
Variable py_repr : Json -> string.
Variable py_float : Json -> result PyFloat.
Variable clock : nat -> Z.
Variable root : Json.

(** Normalization runs of single records, one after the other. *)
Fixpoint jira_runs (board : Board) (rps : list RawPayload) (w : World)
  : result World :=
  match rps with
  | [] => Ok w
  | rp :: r =>
      let* cw := jira_normalize_one fromisoformat current_timezone py_repr
                   py_float clock root board rp w in
      jira_runs board r (snd cw)
  end.

(** The record is a Jira issue with the key [source_id] that the
    normalizer reads as blocked. *)
Definition blocked_issue_of (source_id : string) (rp : RawPayload) : bool :=
  String.eqb (rp_source rp) Source_JIRA
  && String.eqb (rp_object_type rp) "issue"
  && match jira_values fromisoformat current_timezone py_repr py_float root
                       (rp_payload rp) with
     | Ok (Some v) =>
         String.eqb (py_str py_repr (jv_key v)) source_id && jv_blocked_flag v
     | _ => false
     end.

End Runs.

(** The normalizers that write work items (etl/registry.py dispatches on
    the source). *)
Inductive NormalizerKind : Type :=
| NJira
| NClickUp.

Definition kind_source (k : NormalizerKind) : string :=
  match k with
  | NJira => Source_JIRA
  | NClickUp => Source_CLICKUP
  end.

Section NormalizeRecord.

Variable fromisoformat : string -> result DateTime.
Variable current_timezone : Z -> Z.
Variable py_repr : Json -> string.
Variable py_float : Json -> result PyFloat.
Variable clock : nat -> Z.
Variable root : Json.

(** [normalize([rp])] of the normalizer of the given kind. *)
Definition normalize_record (k : NormalizerKind) (board : Board)
    (rp : RawPayload) (w : World) : result (Z * World) :=
  match k with
  | NJira =>
      jira_normalize fromisoformat current_timezone py_repr py_float clock
                     root board [rp] w
  | NClickUp =>
      clickup_normalize fromisoformat current_timezone py_repr py_float clock
                        root board [rp] w
  end.

End NormalizeRecord.

(** The rows of [w2] are the rows of [w1] up to their [last_synced]
    stamp, and there is no other row. *)
Definition same_rows_but_stamp (w1 w2 : World) : Prop :=
  forall sid,
    match items w1 !! sid with
    | Some r1 => exists t, items w2 !! sid = Some (set_last_synced t r1)
    | None => items w2 !! sid = None
    end.
(** ** Validation rules (etl/validator.py) *)

(** The ticket table and the number of clock readings taken so far. *)
Record Tickets : Type := mkTickets {
  tk_rows : TicketTable;
  tk_ticks : nat
}.

(** [_active_cfg()], [root] being the configuration of the active
    mapping version ([{}] when there is none). *)
Definition _active_cfg (root : Json) : Json :=
  match root with
  | JDict d =>
      match dict_get d "validator" with
      | Some v => v
      | None => JDict []
      end
  | _ => JDict []
  end.

(** [set(obj)]: the elements, which must be hashable. *)
Definition py_set (obj : Json) : result (list Json) :=
  let* l := py_iter obj in
  if existsb (fun x => is_list x || is_dict x) l
  then Raise TypeError
  else Ok l.

(** [s in a_set] for a string [s]. *)
Definition in_set (s : string) (a_set : list Json) : bool :=
  existsb (py_eq (JStr s)) a_set.

Definition int_or_0 (d : option Z) : Z :=
  match d with Some n => n | None => 0 end.

Section Rules.

(** The clock: the value of the [n]-th reading of [timezone.now()]. *)
Variable clock : nat -> Z.

(** [int(td.total_seconds() // 86400)] for a [timedelta] of the given
    number of microseconds; the quotient is taken in floating point by
    the Python runtime. *)
Variable whole_days : Z -> Z.

(** The configuration of the active mapping version. *)
Variable root : Json.

(** [settings.VALIDATOR_DEFAULTS] ([{}] when the setting is absent). *)
Variable VALIDATOR_DEFAULTS : Json.

Variable py_repr : Json -> string.

Definition tickets_now (s : Tickets) : Z * Tickets :=
  (clock (tk_ticks s), mkTickets (tk_rows s) (S (tk_ticks s))).

(** [_cfg(path, default)] *)
Definition _cfg (path : list string) (default : Json) : Json :=
  cfg (_active_cfg root) path default.

(** [_fallback(key)] *)
Definition _fallback (key : string) : result Json :=
  py_get VALIDATOR_DEFAULTS key.

(** [_days_ago(d)] *)
Definition _days_ago (d : option Z) (s : Tickets) : option Z * Tickets :=
  match d with
  | None => (None, s)
  | Some d =>
      let '(now, s) := tickets_now s in
      (Some (whole_days (now - d)), s)
  end.

(** [resolve_ticket_if_any(board, wi, rule_code)], which reads the clock
    once. *)
Definition resolve_item (board : Board) (wi : WorkItem) (rule_code : string)
    (s : Tickets) : Tickets :=
  let '(now, s) := tickets_now s in
  mkTickets (resolve_ticket_if_any now (b_id board) (Some (wi_source_id wi))
                                   rule_code (tk_rows s))
            (tk_ticks s).

(** [open_ticket(board, wi, rule_code, message)]: the clock is read when
    a row is created ([created_at] is [auto_now_add]), not when one is
    found. *)
Definition open_item (board : Board) (wi : WorkItem)
    (rule_code message : string) (s : Tickets) : Tickets :=
  let key := open_for (b_id board) (Some (wi_source_id wi)) rule_code in
  mkTickets
    (fst (open_ticket (clock (tk_ticks s)) (b_id board)
                      (Some (wi_source_id wi)) rule_code message JNull
                      (tk_rows s)))
    (if isSome (first_latest key (tk_rows s) 0%nat None)
     then tk_ticks s else S (tk_ticks s)).

(** *** [rule_missing_points] *)

(** [wi.dev_started_at and wi.story_points is None] *)
Definition started_without_points (wi : WorkItem) : bool :=
  isSome (wi_dev_started_at wi) && negb (isSome (wi_story_points wi)).

Fixpoint missing_points_loop (board : Board) (require_types : list Json)
    (ignore_subtasks : bool) (items : list WorkItem) (count : Z) (s : Tickets)
  : Z * Tickets :=
  match items with
  | [] => (count, s)
  | wi :: r =>
      if ignore_subtasks && String.eqb (wi_item_type wi) ItemType_SUBTASK then
        missing_points_loop board require_types ignore_subtasks r count
          (resolve_item board wi "MISSING_POINTS" s)
      else if negb (in_set (py_lower (wi_item_type wi)) require_types) then
        missing_points_loop board require_types ignore_subtasks r count
          (resolve_item board wi "MISSING_POINTS" s)
      else if started_without_points wi then
        missing_points_loop board require_types ignore_subtasks r (count + 1)
          (open_item board wi "MISSING_POINTS"
             ("Story points are required before dev starts (item: "
              +:+ wi_source_id wi +:+ ").") s)
      else
        missing_points_loop board require_types ignore_subtasks r count
          (resolve_item board wi "MISSING_POINTS" s)
  end.

Definition rule_missing_points (board : Board) (items : list WorkItem)
    (s : Tickets) : result (Z * Tickets) :=
  let* fb := _fallback "require_points_for_types" in
  let* require_types :=
    py_set (py_or (_cfg ["require_points_for_types"] fb) (JList [])) in
  let* fb' := _fallback "ignore_when_subtask" in
  let ignore_subtasks := truthy (_cfg ["ignore_when_subtask"] fb') in
  Ok (missing_points_loop board require_types ignore_subtasks items 0 s).

(** *** [rule_stuck_in_dev] *)

(** [wi.dev_started_at and not wi.dev_done_at and not wi.closed] *)
Definition dev_in_progress (wi : WorkItem) : bool :=
  isSome (wi_dev_started_at wi) && negb (isSome (wi_dev_done_at wi))
  && negb (wi_closed wi).

Fixpoint stuck_in_dev_loop (board : Board) (max_days : Z)
    (items : list WorkItem) (count : Z) (s : Tickets) : Z * Tickets :=
  match items with
  | [] => (count, s)
  | wi :: r =>
      if dev_in_progress wi then
        let '(d, s) := _days_ago (wi_dev_started_at wi) s in
        let days := int_or_0 d in
        if days >? max_days then
          stuck_in_dev_loop board max_days r (count + 1)
            (open_item board wi "STUCK_IN_DEV"
               ("Dev in progress for " +:+ str_of_Z days +:+ " days (> "
                +:+ str_of_Z max_days +:+ ").") s)
        else
          stuck_in_dev_loop board max_days r count
            (resolve_item board wi "STUCK_IN_DEV" s)
      else
        stuck_in_dev_loop board max_days r count
          (resolve_item board wi "STUCK_IN_DEV" s)
  end.

Definition rule_stuck_in_dev (board : Board) (items : list WorkItem)
    (s : Tickets) : result (Z * Tickets) :=
  let* fb := _fallback "max_dev_days_without_progress" in
  let* max_days :=
    py_int (py_or (_cfg ["max_dev_days_without_progress"] fb) (JInt 4)) in
  Ok (stuck_in_dev_loop board max_days items 0 s).

(** *** [rule_waiting_for_qa] *)

(** [wi.ready_for_qa_at and not wi.qa_started_at and not wi.closed] *)
Definition waiting_for_qa (wi : WorkItem) : bool :=
  isSome (wi_ready_for_qa_at wi) && negb (isSome (wi_qa_started_at wi))
  && negb (wi_closed wi).

Fixpoint waiting_for_qa_loop (board : Board) (max_days : Z)
    (items : list WorkItem) (count : Z) (s : Tickets) : Z * Tickets :=
  match items with
  | [] => (count, s)
  | wi :: r =>
      if waiting_for_qa wi then
        let '(d, s) := _days_ago (wi_ready_for_qa_at wi) s in
        let days := int_or_0 d in
        if days >? max_days then
          waiting_for_qa_loop board max_days r (count + 1)
            (open_item board wi "WAITING_FOR_QA"
               ("In 'Ready for QA' for " +:+ str_of_Z days +:+ " days (> "
                +:+ str_of_Z max_days +:+ ").") s)
        else
          waiting_for_qa_loop board max_days r count
            (resolve_item board wi "WAITING_FOR_QA" s)
      else
        waiting_for_qa_loop board max_days r count
          (resolve_item board wi "WAITING_FOR_QA" s)
  end.

Definition rule_waiting_for_qa (board : Board) (items : list WorkItem)
    (s : Tickets) : result (Z * Tickets) :=
  let* fb := _fallback "max_ready_for_qa_days" in
  let* max_days :=
    py_int (py_or (_cfg ["max_ready_for_qa_days"] fb) (JInt 2)) in
  Ok (waiting_for_qa_loop board max_days items 0 s).

(** *** [rule_stuck_in_qa] *)

(** [wi.qa_started_at and not (wi.qa_verified_at or wi.signed_off_at
    or wi.done_at)] *)
Definition qa_in_progress (wi : WorkItem) : bool :=
  isSome (wi_qa_started_at wi)
  && negb (isSome (wi_qa_verified_at wi) || isSome (wi_signed_off_at wi)
           || isSome (wi_done_at wi)).

Fixpoint stuck_in_qa_loop (board : Board) (max_days : Z)
    (items : list WorkItem) (count : Z) (s : Tickets) : Z * Tickets :=
  match items with
  | [] => (count, s)
  | wi :: r =>
      if qa_in_progress wi then
        let '(d, s) := _days_ago (wi_qa_started_at wi) s in
        let days := int_or_0 d in
        if days >? max_days then
          stuck_in_qa_loop board max_days r (count + 1)
            (open_item board wi "STUCK_IN_QA"
               ("QA in progress for " +:+ str_of_Z days +:+ " days (> "
                +:+ str_of_Z max_days +:+ ").") s)
        else
          stuck_in_qa_loop board max_days r count
            (resolve_item board wi "STUCK_IN_QA" s)
      else
        stuck_in_qa_loop board max_days r count
          (resolve_item board wi "STUCK_IN_QA" s)
  end.

Definition rule_stuck_in_qa (board : Board) (items : list WorkItem)
    (s : Tickets) : result (Z * Tickets) :=
  let* fb := _fallback "max_qa_days" in
  let* max_days := py_int (py_or (_cfg ["max_qa_days"] fb) (JInt 3)) in
  Ok (stuck_in_qa_loop board max_days items 0 s).

(** *** [rule_blocked_reason] *)

(** [wi.blocked_flag and not (wi.blocked_reason or "").strip()] *)
Definition blocked_without_reason (wi : WorkItem) : bool :=
  wi_blocked_flag wi
  && String.eqb (py_strip (match wi_blocked_reason wi with
                           | Some t => t
                           | None => ""
                           end)) "".

Fixpoint blocked_reason_loop (board : Board) (items : list WorkItem)
    (count : Z) (s : Tickets) : Z * Tickets :=
  match items with
  | [] => (count, s)
  | wi :: r =>
      if blocked_without_reason wi then
        blocked_reason_loop board r (count + 1)
          (open_item board wi "BLOCKED_NO_REASON"
             "Work item is blocked but no blocked_reason is provided." s)
      else
        blocked_reason_loop board r count
          (resolve_item board wi "BLOCKED_NO_REASON" s)
  end.

Definition rule_blocked_reason (board : Board) (items : list WorkItem)
    (s : Tickets) : result (Z * Tickets) :=
  Ok (blocked_reason_loop board items 0 s).

(** *** [rule_pr_required] *)

Fixpoint pr_required_loop (board : Board) (require_types : list Json)
    (keywords : list string) (items : list WorkItem) (count : Z) (s : Tickets)
  : result (Z * Tickets) :=
  match items with
  | [] => Ok (count, s)
  | wi :: r =>
      if negb (in_set (py_lower (wi_item_type wi)) require_types) then
        pr_required_loop board require_types keywords r count
          (resolve_item board wi "PR_REQUIRED" s)
      else
        let* status := py_lower_obj (py_or (wi_status wi) (JStr "")) in
        let needs_pr := existsb (fun kw => str_contains kw status) keywords in
        let has_pr := truthy (wi_linked_prs wi) in
        if needs_pr && negb has_pr then
          pr_required_loop board require_types keywords r (count + 1)
            (open_item board wi "PR_REQUIRED"
               ("Status is '" +:+ py_str py_repr (wi_status wi)
                +:+ "' but no linked PR found.") s)
        else
          pr_required_loop board require_types keywords r count
            (resolve_item board wi "PR_REQUIRED" s)
  end.

Definition rule_pr_required (board : Board) (items : list WorkItem)
    (s : Tickets) : result (Z * Tickets) :=
  let* fb := _fallback "require_pr_for_types" in
  let* require_types :=
    py_set (py_or (_cfg ["require_pr_for_types"] fb) (JList [])) in
  let* fb' := _fallback "pr_required_when_status_contains" in
  let* ks :=
    py_iter (py_or (_cfg ["pr_required_when_status_contains"] fb') (JList [])) in
  let* keywords := mapM py_lower_obj ks in
  pr_required_loop board require_types keywords items 0 s.

(** *** The runner *)

Definition ALL_RULES
  : list (string * (Board -> list WorkItem -> Tickets -> result (Z * Tickets))) :=
  [ ("MISSING_POINTS", rule_missing_points);
    ("STUCK_IN_DEV", rule_stuck_in_dev);
    ("WAITING_FOR_QA", rule_waiting_for_qa);
    ("STUCK_IN_QA", rule_stuck_in_qa);
    ("BLOCKED_NO_REASON", rule_blocked_reason);
    ("PR_REQUIRED", rule_pr_required) ].

(** The loop [for code, func in ALL_RULES]. *)
Fixpoint run_rules
    (rules : list (string * (Board -> list WorkItem -> Tickets
                             -> result (Z * Tickets))))
    (board : Board) (items : list WorkItem) (results : list (string * Z))
    (s : Tickets) : result (list (string * Z) * Tickets) :=
  match rules with
  | [] => Ok (results, s)
  | (code, func) :: r =>
      let* ns := func board items s in
      run_rules r board items (assoc_set results code (fst ns)) (snd ns)
  end.

(** [validate_board(board)]; [items] are the work items of the board as
    the query returns them. *)
Definition validate_board (board : Board) (items : list WorkItem)
    (s : Tickets) : result (list (string * Z) * Tickets) :=
  run_rules ALL_RULES board items [] s.

End Rules.

(** The state after [k] further readings of the clock. *)
Definition advance (k : nat) (s : Tickets) : Tickets :=
  mkTickets (tk_rows s) (k + tk_ticks s).

(** A run of the loop of a rule with the code [code] over the work
    items: for each one, after some readings of the clock, the rule
    either opens a ticket of its code for the item (verdict [true]) or
    resolves the tickets of its code for the item (verdict [false]). *)
Inductive rule_run (clock : nat -> Z) (board : Board) (code : string)
  : list WorkItem -> list bool -> Tickets -> Tickets -> Prop :=
| run_done s : rule_run clock board code [] [] s s
| run_open wi r vs s k message s' :
    rule_run clock board code r vs
      (open_item clock board wi code message (advance k s)) s' ->
    rule_run clock board code (wi :: r) (true :: vs) s s'
| run_resolve wi r vs s k s' :
    rule_run clock board code r vs
      (resolve_item clock board wi code (advance k s)) s' ->
    rule_run clock board code (wi :: r) (false :: vs) s s'.

(** Whether [wi] holds a non-done ticket of the rule [code]. *)
Definition has_open (board : Board) (code : string) (tbl : TicketTable)
    (wi : WorkItem) : bool :=
  match open_tickets (b_id board) (Some (wi_source_id wi)) code tbl with
  | [] => false
  | _ => true
  end.

Definition RULE_CODES : list string :=
  [ "MISSING_POINTS"; "STUCK_IN_DEV"; "WAITING_FOR_QA"; "STUCK_IN_QA";
    "BLOCKED_NO_REASON"; "PR_REQUIRED" ].

(** Two rows of one ticket: the columns that identify it. *)
Definition same_ticket (t t' : RemediationTicket) : Prop :=
  rt_board t' = rt_board t
  /\ rt_work_item t' = rt_work_item t
  /\ rt_rule_code t' = rt_rule_code t
  /\ rt_created_at t' = rt_created_at t.

Definition count_true (vs : list bool) : Z :=
  Z.of_nat (length (List.filter id vs)).

(** What the fields of a work item say when a rule has opened a ticket
    for it. *)
Definition justified (code : string) (wi : WorkItem) : bool :=
  if String.eqb code "MISSING_POINTS" then started_without_points wi
  else if String.eqb code "STUCK_IN_DEV" then dev_in_progress wi
  else if String.eqb code "WAITING_FOR_QA" then waiting_for_qa wi
  else if String.eqb code "STUCK_IN_QA" then qa_in_progress wi
  else if String.eqb code "BLOCKED_NO_REASON" then blocked_without_reason wi
  else if String.eqb code "PR_REQUIRED" then negb (truthy (wi_linked_prs wi))
  else false.

(** What a validation run with the rules [codes] over the work items
    [items] of [board] may do to the rows of the table [tbl]: every row
    is still there, with the columns that identify it and its [meta];
    and a row that is not a non-done ticket of one of the rules for one
    of the items is left as it is. *)
Definition rows_kept (board : Board) (items : list WorkItem)
    (codes : list string) (tbl tbl' : TicketTable) : Prop :=
  forall i t, tbl !! i = Some t ->
    exists t',
      tbl' !! i = Some t'
      /\ same_ticket t t'
      /\ rt_meta t' = rt_meta t
      /\ ((forall code wi, In code codes -> In wi items ->
             open_for (b_id board) (Some (wi_source_id wi)) code t = false) ->
          t' = t).

(** An example: a story of board 1 whose development began at the
    epoch, without story points, blocked with a reason that is a blank
    and a no-break space (U+00A0). *)
Definition stalled_story (source_id : string) : WorkItem :=
  {| wi_source := "jira"; wi_source_id := source_id; wi_board := 1;
     wi_title := JStr "Stalled"; wi_description := JNull;
     wi_item_type := "story";
     wi_story_points := None; wi_sprint_id := None; wi_release_id := None;
     wi_client_id := None; wi_assignees := []; wi_dev_owner := JNull;
     wi_qa_owner := None; wi_code_reviewer_ids := [];
     wi_status := JStr "In Progress";
     wi_created_at := Some 0; wi_started_at := Some 0;
     wi_dev_started_at := Some 0; wi_dev_done_at := None;
     wi_deployed_dev_at := None; wi_ready_for_qa_at := None;
     wi_qa_started_at := None; wi_qa_verified_at := None;
     wi_signed_off_at := None; wi_ready_for_uat_at := None;
     wi_deployed_uat_at := None; wi_done_at := None;
     wi_cancelled_at := None; wi_closed := false;
     wi_blocked_flag := true; wi_blocked_since := None;
     wi_blocked_reason := Some (String " " (String "160" EmptyString));
     wi_parent_story := None;
     wi_linked_prs := JList []; wi_meta := JDict []; wi_last_synced := 0 |}.
(** ** Back-filling [blocked_since] (etl/sla.py) *)

Definition set_blocked_since (v : option Z) (w : WorkItem) : WorkItem :=
  {| wi_source := wi_source w; wi_source_id := wi_source_id w;
     wi_board := wi_board w; wi_title := wi_title w;
     wi_description := wi_description w; wi_item_type := wi_item_type w;
     wi_story_points := wi_story_points w; wi_sprint_id := wi_sprint_id w;
     wi_release_id := wi_release_id w; wi_client_id := wi_client_id w;
     wi_assignees := wi_assignees w; wi_dev_owner := wi_dev_owner w;
     wi_qa_owner := wi_qa_owner w;
     wi_code_reviewer_ids := wi_code_reviewer_ids w;
     wi_status := wi_status w;
     wi_created_at := wi_created_at w; wi_started_at := wi_started_at w;
     wi_dev_started_at := wi_dev_started_at w;
     wi_dev_done_at := wi_dev_done_at w;
     wi_deployed_dev_at := wi_deployed_dev_at w;
     wi_ready_for_qa_at := wi_ready_for_qa_at w;
     wi_qa_started_at := wi_qa_started_at w;
     wi_qa_verified_at := wi_qa_verified_at w;
     wi_signed_off_at := wi_signed_off_at w;
     wi_ready_for_uat_at := wi_ready_for_uat_at w;
     wi_deployed_uat_at := wi_deployed_uat_at w;
     wi_done_at := wi_done_at w; wi_cancelled_at := wi_cancelled_at w;
     wi_closed := wi_closed w; wi_blocked_flag := wi_blocked_flag w;
     wi_blocked_since := v;
     wi_blocked_reason := wi_blocked_reason w;
     wi_parent_story := wi_parent_story w;
     wi_linked_prs := wi_linked_prs w; wi_meta := wi_meta w;
     wi_last_synced := wi_last_synced w |}.

(** [Board.objects.filter(id=board_id) if board_id else
    Board.objects.all()], [boards] being the primary keys of the boards. *)
Definition select_boards (boards : list Z) (board_id : option Z) : list Z :=
  match board_id with
  | Some i => if i =? 0 then boards else List.filter (Z.eqb i) boards
  | None => boards
  end.

(** [filter(board=b, blocked_flag=True, blocked_since__isnull=True)] *)
Definition needs_backfill (b : Z) (wi : WorkItem) : bool :=
  (wi_board wi =? b) && wi_blocked_flag wi
  && negb (isSome (wi_blocked_since wi)).

(** The rows of the query, with their keys. The model declares no
    ordering for work items: the order is the one the database
    chooses, here that of the keys. *)
Definition backfill_candidates (b : Z) (w : World)
  : list (string * WorkItem) :=
  List.filter (fun kv => needs_backfill b (snd kv)) (map_to_list (items w)).

(** [wi.dev_started_at or wi.ready_for_qa_at or wi.created_at or
    (now if set_to_now_if_missing else None)] *)
Definition backfill_value (now : Z) (set_to_now_if_missing : bool)
    (wi : WorkItem) : option Z :=
  match wi_dev_started_at wi with
  | Some t => Some t
  | None =>
      match wi_ready_for_qa_at wi with
      | Some t => Some t
      | None =>
          match wi_created_at wi with
          | Some t => Some t
          | None => if set_to_now_if_missing then Some now else None
          end
      end
  end.

Definition BACKFILL_CAP : nat := 5000.

(** The loop [for wi in qs[:5000]]: [save(update_fields=["blocked_since"])]
    writes that column of the row and no other. *)
Fixpoint backfill_rows (now : Z) (set_to_now_if_missing : bool)
    (rows : list (string * WorkItem)) (w : World) (n : Z) : Z * World :=
  match rows with
  | [] => (n, w)
  | (sid, wi) :: r =>
      backfill_rows now set_to_now_if_missing r
        (mkWorld
           (alter (set_blocked_since
                     (backfill_value now set_to_now_if_missing wi))
                  sid (items w))
           (ticks w))
        (n + 1)
  end.

Section Backfill.

Variable clock : nat -> Z.

(** The loop [for b in boards]. *)
Fixpoint backfill_boards (set_to_now_if_missing : bool) (bs : list Z)
    (w : World) (n : Z) : Z * World :=
  match bs with
  | [] => (n, w)
  | b :: r =>
      let qs := backfill_candidates b w in
      let '(now, w) := timezone_now clock w in
      let '(n, w) :=
        backfill_rows now set_to_now_if_missing (firstn BACKFILL_CAP qs) w n in
      backfill_boards set_to_now_if_missing r w n
  end.

(** [backfill_blocked_since(board_id, set_to_now_if_missing)] *)
Definition backfill_blocked_since (boards : list Z) (board_id : option Z)
    (set_to_now_if_missing : bool) (w : World) : Z * World :=
  backfill_boards set_to_now_if_missing (select_boards boards board_id) w 0.

End Backfill.

(** The rows a back-fill for the boards [bs] has to fill: those of one
    of the boards that are blocked and have no [blocked_since]. *)
Definition backfill_pending (bs : list Z) (w : World)
  : list (string * WorkItem) :=
  List.filter (fun kv => existsb (fun b => needs_backfill b (snd kv)) bs)
              (map_to_list (items w)).

(** What a back-fill may have made of a row [row]: the row itself, or,
    for a row that was to be filled, the row with the back-fill value
    of some reading of the clock as its [blocked_since]. *)
Definition backfilled (clock : nat -> Z) (set_to_now_if_missing : bool)
    (bs : list Z) (row row' : WorkItem) : Prop :=
  row' = row
  \/ (existsb (fun b => needs_backfill b row) bs = true
      /\ exists k,
           row' = set_blocked_since
                    (backfill_value (clock k) set_to_now_if_missing row) row).

(** What a back-fill may have made of the work items. *)
Definition world_backfilled (clock : nat -> Z) (set_to_now_if_missing : bool)
    (bs : list Z) (w w' : World) : Prop :=
  forall sid,
    match items w !! sid with
    | None => items w' !! sid = None
    | Some row =>
        exists row', items w' !! sid = Some row'
                     /\ backfilled clock set_to_now_if_missing bs row row'
    end.

(** The back-fill of one row at the time [now], for the board [b]. *)
Definition backfill_row (now : Z) (set_to_now_if_missing : bool) (b : Z)
    (row : WorkItem) : WorkItem :=
  if needs_backfill b row
  then set_blocked_since (backfill_value now set_to_now_if_missing row) row
  else row.
(** ** The Teams card (etl/teams.py) *)

Definition NEWLINE : string := String (ascii_of_nat 10) EmptyString.

(** [", ".join(t.get("samples", [])[:5])] *)
Definition card_samples (t : Group) : string :=
  String.concat ", " (firstn 5 (g_samples t)).

(** The loop that fills [facts]. *)
Definition card_facts (tickets : list Group) : list Json :=
  map (fun t => JDict [("name", JStr (g_rule t));
                       ("value", JStr (str_of_Z (g_count t) +:+ " issues"))])
      tickets.

(** The loop that fills [text_lines]. *)
Fixpoint card_lines (tickets : list Group) : list string :=
  match tickets with
  | [] => []
  | t :: r =>
      let samples := card_samples t in
      if negb (String.eqb samples "")
      then ("**" +:+ g_rule t +:+ "** — e.g. " +:+ samples) :: card_lines r
      else card_lines r
  end.

Definition card_text (tickets : list Group) : string :=
  match card_lines tickets with
  | [] => "See Admin for details."
  | text_lines => String.concat NEWLINE text_lines
  end.

(** [remediation_card(board_name, summary, tickets, admin_url)], each
    ticket being a dict with its [rule], [count] and [samples]. *)
Definition remediation_card (board_name summary : string)
    (tickets : list Group) (admin_url : option string) : Json :=
  JDict [
    ("@type", JStr "MessageCard");
    ("@context", JStr "http://schema.org/extensions");
    ("summary", JStr summary);
    ("themeColor", JStr "E81123");
    ("title", JStr ("⚠️ Remediation Alerts — " +:+ board_name));
    ("sections",
     JList [JDict [("activityTitle", JStr summary);
                   ("facts", JList (card_facts tickets));
                   ("markdown", JBool true)];
            JDict [("text", JStr (card_text tickets));
                   ("markdown", JBool true)]]);
    ("potentialAction",
     JList match admin_url with
           | Some url =>
               if negb (String.eqb url "")
               then [JDict [("@type", JStr "OpenUri");
                            ("name", JStr "Open Admin");
                            ("targets",
                             JList [JDict [("os", JStr "default");
                                           ("uri", JStr url)]])]]
               else []
           | None => []
           end)
  ].

(** A group with its samples cut to the first five. *)
Definition cap_samples (t : Group) : Group :=
  mkGroup (g_rule t) (g_count t) (firstn 5 (g_samples t)).

(** ** Linking pull requests (etl/normalizers/base.py) *)

(** [any((x.get("pr_id") == pid) for x in linked)]: the elements after
    the first match are not looked at. *)
Fixpoint any_pr_id (pid : Json) (linked : list Json) : result bool :=
  match linked with
  | [] => Ok false
  | x :: r =>
      let* v := py_get x "pr_id" in
      if py_eq v pid then Ok true else any_pr_id pid r
  end.

(** [add_linked_pr(work_item, pr_dict, reviewers)] as a function of the
    value of [work_item.linked_prs]: the value it saves, [None] when it
    saves nothing. *)
Definition add_linked_pr (linked_prs pr_dict : Json) (reviewers : list Json)
  : result (option Json) :=
  let linked := py_or linked_prs (JList []) in
  let* pid := py_get pr_dict "pr_id" in
  let* xs := py_iter linked in
  let* found := any_pr_id pid xs in
  if negb found then
    match linked with
    | JList l =>
        let* opened_at := py_get pr_dict "opened_at" in
        let* first_reviewed_at := py_get pr_dict "first_reviewed_at" in
        let* merged_at := py_get pr_dict "merged_at" in
        Ok (Some (JList (l ++ [JDict [("pr_id", pid);
                                      ("opened_at", opened_at);
                                      ("first_reviewed_at", first_reviewed_at);
                                      ("merged_at", merged_at);
                                      ("reviewers", JList reviewers)]])))
    | _ => Raise AttributeError
    end
  else Ok None.

(** The value of [linked_prs] after the call. *)
Definition linked_after (linked_prs : Json) (saved : option Json) : Json :=
  match saved with
  | Some v => v
  | None => linked_prs
  end.

(** ** The pipeline (etl/pipeline.py) *)

(** The task signatures a chain is made of. *)
Inductive Signature : Type :=
| etl_fetch_raw_s (board_id : Z) (mapping_version : string)
| etl_normalize_s (board_id : Z)
| etl_validate_s (board_id : Z)
| run_daily_snapshot_s (board_id : Z) (date_iso : option string).

(** [_build_chain(board_id, stages, mapping_version, date_iso)]: the
    signatures given to [chain]. *)
Definition _build_chain (board_id : Z) (stages : Json)
    (mapping_version : string) (date_iso : option string)
  : result (list Signature) :=
  let tasks := [] in
  let* has_fetch := py_in "fetch" stages in
  let tasks :=
    if has_fetch then tasks ++ [etl_fetch_raw_s board_id mapping_version]
    else tasks in
  let* has_normalize := py_in "normalize" stages in
  let tasks :=
    if has_normalize then tasks ++ [etl_normalize_s board_id] else tasks in
  let* has_validate := py_in "validate" stages in
  let tasks :=
    if has_validate then tasks ++ [etl_validate_s board_id] else tasks in
  let* has_snapshot := py_in "snapshot" stages in
  let tasks :=
    if has_snapshot then
      match date_iso with
      | Some d =>
          if negb (String.eqb d "")
          then tasks ++ [run_daily_snapshot_s board_id (Some d)]
          else tasks ++ [run_daily_snapshot_s board_id None]
      | None => tasks ++ [run_daily_snapshot_s board_id None]
      end
    else tasks in
  match tasks with
  | [] => Raise ValueError
  | _ => Ok tasks
  end.

(** The place of a stage in the flow. *)
Definition stage_rank (s : Signature) : nat :=
  match s with
  | etl_fetch_raw_s _ _ => 0
  | etl_normalize_s _ => 1
  | etl_validate_s _ => 2
  | run_daily_snapshot_s _ _ => 3
  end.

Fixpoint increasing (ns : list nat) : Prop :=
  match ns with
  | [] => True
  | n :: r => Forall (fun m => (n < m)%nat) r /\ increasing r
  end.

Definition STAGES : list string := ["fetch"; "normalize"; "validate"; "snapshot"].

Definition stage_name (s : Signature) : string :=
  match s with
  | etl_fetch_raw_s _ _ => "fetch"
  | etl_normalize_s _ => "normalize"
  | etl_validate_s _ => "validate"
  | run_daily_snapshot_s _ _ => "snapshot"
  end.
(** ** Definitions used to state the properties of the shared helpers *)

(** The values of [ItemType]. *)
Definition ITEM_TYPES : list string :=
  [ItemType_STORY; ItemType_BUG; ItemType_TASK; ItemType_SUBTASK; ItemType_EPIC].

Section CountedRecords.

Variable fromisoformat : string -> result DateTime.
Variable current_timezone : Z -> Z.
Variable py_repr : Json -> string.
Variable py_float : Json -> result PyFloat.
Variable root : Json.

(** The values of a record the Jira normalizer counts: a Jira issue
    with a key or an id. *)
Definition jira_issue (rp : RawPayload) : option JiraValues :=
  if String.eqb (rp_source rp) Source_JIRA
     && String.eqb (rp_object_type rp) "issue"
  then match jira_values fromisoformat current_timezone py_repr py_float
                         root (rp_payload rp) with
       | Ok (Some v) => Some v
       | _ => None
       end
  else None.

(** The values of a record the ClickUp normalizer counts: a ClickUp
    task with an id. *)
Definition clickup_task (pfn : string) (rp : RawPayload)
  : option ClickUpValues :=
  if String.eqb (rp_source rp) Source_CLICKUP
     && String.eqb (rp_object_type rp) "task"
  then match clickup_values fromisoformat current_timezone py_repr py_float
                            pfn (rp_payload rp) with
       | Ok (Some v) => Some v
       | _ => None
       end
  else None.

End CountedRecords.

(** No row of [w] is missing in [w'] or has changed its source. *)
Definition rows_persist (w w' : World) : Prop :=
  forall sid row, items w !! sid = Some row ->
    exists row', items w' !! sid = Some row' /\ wi_source row' = wi_source row.

(** * Properties *)

(** ** Timestamps: [to_dt] *)

Section ToDtFacts.

Variable fromisoformat : string -> result DateTime.
Variable current_timezone : Z -> Z.

Lemma fromtimestamp_utc_aware t d :
  fromtimestamp_utc t = Ok d -> is_aware d = true.
Proof.
  unfold fromtimestamp_utc. destruct (in_range MIN_US t MAX_US); [|discriminate].
  intros [= <-]. reflexivity.
Qed.

Lemma make_aware_of_aware d tz :
  is_aware d = true -> make_aware d tz = Raise ValueError.
Proof. unfold make_aware. intros ->. reflexivity. Qed.

(** The branch for numbers never yields a datetime: the datetime built
    by [fromtimestamp(..., tz=utc)] is aware, [make_aware] refuses it,
    and the [except] clause turns the refusal into [None]. *)
Lemma to_dt_number v :
  is_number v = true -> to_dt fromisoformat current_timezone v = Ok None.
Proof.
  intros Hn. unfold to_dt. destruct (truthy v); simpl; [|reflexivity].
  rewrite Hn. f_equal.
  destruct (py_int_num v) as [n|e]; simpl; [|reflexivity].
  destruct (n >? TO_DT_MS_THRESHOLD).
  - destruct (fromtimestamp_utc (n * 1000)) as [d|e] eqn:E; simpl; [|reflexivity].
    rewrite (make_aware_of_aware d _ (fromtimestamp_utc_aware _ _ E)). reflexivity.
  - destruct (fromtimestamp_utc (n * US_PER_SECOND)) as [d|e] eqn:E; simpl; [|reflexivity].
    rewrite (make_aware_of_aware d _ (fromtimestamp_utc_aware _ _ E)). reflexivity.
Qed.

(** C5. What [to_dt] does on the inputs the specification names: both
    epoch numbers, 1699999999 (seconds) and 1699999999000
    (milliseconds), give [None] instead of an instant in 2023; the text
    of a well-formed but impossible date raises [ValueError] instead of
    giving [None]; the two spellings of 2024-01-01T00:00:00 UTC give
    the same instant; the empty string and [None] give [None]. *)
Theorem to_dt_on_spec_inputs :
  to_dt fromisoformat current_timezone (JInt 1699999999) = Ok None
  /\ to_dt fromisoformat current_timezone (JInt 1699999999000) = Ok None
  /\ to_dt fromisoformat current_timezone (JStr "2024-02-30T00:00:00")
     = Raise ValueError
  /\ to_dt fromisoformat current_timezone (JStr "2024-01-01T00:00:00+0000")
     = Ok (Some (mkDateTime 1704067200000000 (Some 0)))
  /\ to_dt fromisoformat current_timezone (JStr "2024-01-01T00:00:00Z")
     = Ok (Some (mkDateTime 1704067200000000 (Some 0)))
  /\ to_dt fromisoformat current_timezone (JStr "") = Ok None
  /\ to_dt fromisoformat current_timezone JNull = Ok None.
Proof.
  split; [apply to_dt_number; reflexivity|].
  split; [apply to_dt_number; reflexivity|].
  repeat split; vm_compute; reflexivity.
Qed.

End ToDtFacts.

(** ** Remediation tickets: [open_ticket] *)

Section TicketFacts.

Variable p : RemediationTicket -> bool.

Lemma first_latest_best l : forall i b,
  exists r, first_latest p l i (Some b) = Some r.
Proof.
  induction l as [|t l IH]; intros i b; simpl; [eauto|].
  destruct (p t); [|apply IH].
  destruct b as [j b]. destruct (rt_created_at b <? rt_created_at t); apply IH.
Qed.

Lemma first_latest_none l : forall i,
  first_latest p l i None = None -> List.filter p l = [].
Proof.
  induction l as [|t l IH]; intros i; simpl; [reflexivity|].
  destruct (p t).
  - intros H. destruct (first_latest_best l (S i) (i, t)) as [r Hr]. congruence.
  - apply IH.
Qed.

Lemma first_latest_some l : forall i best j t,
  first_latest p l i best = Some (j, t) ->
  best = Some (j, t)
  \/ ((i <= j)%nat /\ l !! (j - i)%nat = Some t /\ p t = true).
Proof.
  induction l as [|x l IH]; intros i best j t; simpl; [auto|].
  intros H. apply IH in H. destruct H as [H | (Hle & Hl & Hp)].
  - destruct (p x) eqn:Hx; [|auto].
    destruct best as [[k b]|].
    + destruct (rt_created_at b <? rt_created_at x); [|auto].
      injection H as <- <-. right. rewrite Nat.sub_diag. auto.
    + injection H as <- <-. right. rewrite Nat.sub_diag. auto.
  - right. split; [lia|]. split; [|exact Hp].
    replace (j - i)%nat with (S (j - S i)) by lia. exact Hl.
Qed.

Lemma filter_nil_lookup (l : list RemediationTicket) j t :
  List.filter p l = [] -> l !! j = Some t -> p t = false.
Proof.
  revert j. induction l as [|x l IH]; intros j; simpl; [discriminate|].
  destruct (p x) eqn:Hx; [discriminate|].
  destruct j; simpl; [congruence | eauto].
Qed.

(** Replacing one of the rows selected by [p] by another row selected
    by [p] leaves as many selected rows. *)
Lemma filter_insert_length (l : list RemediationTicket) : forall j t t',
  l !! j = Some t -> p t = true -> p t' = true ->
  length (List.filter p (<[j := t']> l)) = length (List.filter p l).
Proof.
  induction l as [|x l IH]; intros j t t' Hl Ht Ht'; [discriminate|].
  destruct j; simpl in *.
  - injection Hl as ->. rewrite Ht, Ht'. reflexivity.
  - destruct (p x); simpl; erewrite IH; eauto.
Qed.

Lemma filter_insert_single (l : list RemediationTicket) : forall j t t',
  l !! j = Some t -> p t = true -> p t' = true ->
  (length (List.filter p l) <= 1)%nat ->
  List.filter p (<[j := t']> l) = [t'].
Proof.
  induction l as [|x l IH]; intros j t t' Hl Ht Ht' Hlen; [discriminate|].
  destruct j; simpl in *.
  - injection Hl as ->. rewrite Ht in Hlen. rewrite Ht'. simpl in Hlen.
    destruct (List.filter p l); [reflexivity | simpl in Hlen; lia].
  - destruct (p x) eqn:Hx.
    + simpl in Hlen. destruct (List.filter p l) eqn:Hf; [|simpl in Hlen; lia].
      rewrite (filter_nil_lookup l j t Hf Hl) in Ht. discriminate.
    + eapply IH; eauto.
Qed.

End TicketFacts.

Lemma opt_str_eqb_refl (a : option string) : opt_str_eqb a a = true.
Proof. destruct a; simpl; [apply String.eqb_refl | reflexivity]. Qed.

Lemma open_for_set_message b w r m t :
  open_for b w r (set_message m t) = open_for b w r t.
Proof. reflexivity. Qed.

Lemma open_for_set_meta b w r m t :
  open_for b w r (set_meta m t) = open_for b w r t.
Proof. reflexivity. Qed.

Lemma refreshed_message message meta rt :
  rt_message (refreshed message meta rt) = message.
Proof.
  unfold refreshed.
  destruct (String.eqb (rt_message rt) message) eqn:E; simpl.
  - apply String.eqb_eq in E.
    destruct (truthy meta && _); simpl; exact E.
  - destruct (truthy meta && _); reflexivity.
Qed.

Lemma refreshed_open_for b w r message meta rt :
  open_for b w r (refreshed message meta rt) = open_for b w r rt.
Proof.
  unfold refreshed.
  destruct (negb (String.eqb (rt_message rt) message));
    destruct (truthy meta && _); reflexivity.
Qed.

Lemma refreshed_no_meta message meta rt :
  truthy meta = false -> refreshed message meta rt = set_message message rt.
Proof.
  intros H. unfold refreshed. rewrite H. simpl.
  destruct (String.eqb (rt_message rt) message) eqn:E; simpl; [|reflexivity].
  apply String.eqb_eq in E. destruct rt; simpl in *. subst. reflexivity.
Qed.

Lemma open_ticket_found now b w r message meta tbl i rt :
  first_latest (open_for b w r) tbl 0%nat None = Some (i, rt) ->
  open_ticket now b w r message meta tbl
  = (<[i := refreshed message (py_or meta (JDict [])) rt]> tbl,
     refreshed message (py_or meta (JDict [])) rt).
Proof. intros H. unfold open_ticket. rewrite H. reflexivity. Qed.

Lemma open_ticket_new now b w r message meta tbl :
  first_latest (open_for b w r) tbl 0%nat None = None ->
  open_ticket now b w r message meta tbl
  = (tbl ++ [mkTicket b w r message OPEN now None (py_or meta (JDict []))],
     mkTicket b w r message OPEN now None (py_or meta (JDict []))).
Proof. intros H. unfold open_ticket. rewrite H. reflexivity. Qed.

Lemma open_for_new b w r message now meta :
  open_for b w r (mkTicket b w r message OPEN now None meta) = true.
Proof.
  unfold open_for. simpl.
  rewrite Z.eqb_refl, opt_str_eqb_refl, String.eqb_refl. reflexivity.
Qed.

(** One call keeps the number of non-done tickets of the key if there
    was one, and makes it one if there was none. *)
Lemma open_ticket_count now b w r message meta tbl :
  length (open_tickets b w r (fst (open_ticket now b w r message meta tbl)))
  = Nat.max 1 (length (open_tickets b w r tbl)).
Proof.
  unfold open_tickets.
  destruct (first_latest (open_for b w r) tbl 0%nat None) as [[i rt]|] eqn:E.
  - rewrite (open_ticket_found _ _ _ _ _ _ _ _ _ E). simpl.
    apply first_latest_some in E. destruct E as [E | (_ & Hl & Hp)]; [discriminate|].
    rewrite Nat.sub_0_r in Hl.
    rewrite (filter_insert_length _ tbl i rt _ Hl Hp)
      by (rewrite refreshed_open_for; exact Hp).
    assert (In rt (List.filter (open_for b w r) tbl)) as Hin.
    { apply filter_In. split; [|exact Hp].
      apply list_elem_of_In, list_elem_of_lookup. eauto. }
    destruct (List.filter (open_for b w r) tbl); [destruct Hin | simpl; lia].
  - rewrite (open_ticket_new _ _ _ _ _ _ _ E). simpl.
    apply first_latest_none in E.
    rewrite List.filter_app, E. simpl. rewrite open_for_new. reflexivity.
Qed.

(** One call on a table with at most one non-done ticket of the key. *)
Lemma open_ticket_single now b w r message meta tbl :
  (length (open_tickets b w r tbl) <= 1)%nat ->
  exists t,
    open_tickets b w r (fst (open_ticket now b w r message meta tbl)) = [t]
    /\ rt_message t = message
    /\ length (fst (open_ticket now b w r message meta tbl))
       = (length tbl + (1 - length (open_tickets b w r tbl)))%nat.
Proof.
  unfold open_tickets. intros Hlen.
  destruct (first_latest (open_for b w r) tbl 0%nat None) as [[i rt]|] eqn:E.
  - rewrite (open_ticket_found _ _ _ _ _ _ _ _ _ E). simpl.
    apply first_latest_some in E. destruct E as [E | (_ & Hl & Hp)]; [discriminate|].
    rewrite Nat.sub_0_r in Hl.
    exists (refreshed message (py_or meta (JDict [])) rt).
    split; [|split].
    + eapply filter_insert_single; eauto. rewrite refreshed_open_for. exact Hp.
    + apply refreshed_message.
    + rewrite length_insert.
      assert (In rt (List.filter (open_for b w r) tbl)) as Hin.
      { apply filter_In. split; [|exact Hp].
        apply list_elem_of_In, list_elem_of_lookup. eauto. }
      destruct (List.filter (open_for b w r) tbl) as [|x [|y l]];
        [destruct Hin | simpl; lia | simpl in Hlen; lia].
  - rewrite (open_ticket_new _ _ _ _ _ _ _ E). simpl.
    apply first_latest_none in E.
    eexists. rewrite List.filter_app, E. simpl. rewrite open_for_new.
    split; [reflexivity|]. split; [reflexivity|].
    rewrite length_app. simpl. lia.
Qed.

Lemma opt_str_eqb_eq (a b : option string) : opt_str_eqb a b = true -> a = b.
Proof.
  destruct a, b; simpl; try discriminate; [|reflexivity].
  intros H. apply String.eqb_eq in H. congruence.
Qed.

Lemma open_for_key b w r b' w' r' t :
  open_for b w r t = true -> open_for b' w' r' t = true ->
  b = b' /\ w = w' /\ r = r'.
Proof.
  unfold open_for. intros H H'.
  repeat match goal with
         | H : _ && _ = true |- _ => apply andb_prop in H; destruct H
         end.
  repeat match goal with
         | H : (_ =? _) = true |- _ => apply Z.eqb_eq in H
         | H : opt_str_eqb _ _ = true |- _ => apply opt_str_eqb_eq in H
         | H : String.eqb _ _ = true |- _ => apply String.eqb_eq in H
         end.
  repeat split; congruence.
Qed.

Lemma filter_insert_false (p : RemediationTicket -> bool)
    (l : list RemediationTicket) : forall j t t',
  l !! j = Some t -> p t = false -> p t' = false ->
  List.filter p (<[j := t']> l) = List.filter p l.
Proof.
  induction l as [|x l IH]; intros j t t' Hl Ht Ht'; [discriminate|].
  destruct j; simpl in *.
  - injection Hl as ->. rewrite Ht, Ht'. reflexivity.
  - destruct (p x); erewrite IH; eauto.
Qed.

(** A call for one key leaves the non-done tickets of every other key
    as they are. *)
Lemma open_ticket_other_key now b w r message meta tbl b' w' r' :
  (b, w, r) <> (b', w', r') ->
  open_tickets b' w' r' (fst (open_ticket now b w r message meta tbl))
  = open_tickets b' w' r' tbl.
Proof.
  intros Hne. unfold open_tickets.
  destruct (first_latest (open_for b w r) tbl 0%nat None) as [[i rt]|] eqn:E.
  - rewrite (open_ticket_found _ _ _ _ _ _ _ _ _ E). simpl.
    apply first_latest_some in E. destruct E as [E | (_ & Hl & Hp)]; [discriminate|].
    rewrite Nat.sub_0_r in Hl.
    assert (open_for b' w' r' rt = false) as Hf.
    { destruct (open_for b' w' r' rt) eqn:Ef; [|reflexivity].
      destruct (open_for_key _ _ _ _ _ _ _ Hp Ef) as (-> & -> & ->).
      contradiction. }
    apply (filter_insert_false _ tbl i rt); [exact Hl | exact Hf|].
    rewrite refreshed_open_for. exact Hf.
  - rewrite (open_ticket_new _ _ _ _ _ _ _ E). simpl.
    rewrite List.filter_app. simpl.
    destruct (open_for b' w' r' _) eqn:Ef; [|apply app_nil_r].
    pose proof (open_for_new b w r message now (py_or meta (JDict []))) as Hn.
    destruct (open_for_key _ _ _ _ _ _ _ Hn Ef) as (-> & -> & ->).
    contradiction.
Qed.

(** The invariant holds of the empty table and is kept by [open_ticket]
    and by [resolve_ticket_if_any]. *)
Lemma ticket_invariant_empty : ticket_invariant [].
Proof. intros b w r. simpl. lia. Qed.

Lemma open_ticket_invariant now b w r message meta tbl :
  ticket_invariant tbl ->
  ticket_invariant (fst (open_ticket now b w r message meta tbl)).
Proof.
  intros H b' w' r'.
  destruct (decide ((b, w, r) = (b', w', r'))) as [[= <- <- <-]|Hne].
  - rewrite open_ticket_count. specialize (H b w r). lia.
  - rewrite open_ticket_other_key by exact Hne. apply H.
Qed.

Lemma resolve_ticket_open_le now b w r tbl b' w' r' :
  (length (open_tickets b' w' r' (resolve_ticket_if_any now b w r tbl))
   <= length (open_tickets b' w' r' tbl))%nat.
Proof.
  unfold open_tickets, resolve_ticket_if_any.
  induction tbl as [|t tbl IH]; simpl; [lia|].
  destruct (open_for b w r t) eqn:Et.
  - replace (open_for b' w' r' (set_done now t)) with false
      by (unfold open_for; simpl; rewrite andb_false_r; reflexivity).
    destruct (open_for b' w' r' t); simpl; lia.
  - destruct (open_for b' w' r' t); simpl; lia.
Qed.

Lemma resolve_ticket_invariant now b w r tbl :
  ticket_invariant tbl ->
  ticket_invariant (resolve_ticket_if_any now b w r tbl).
Proof.
  intros H b' w' r'. specialize (H b' w' r').
  pose proof (resolve_ticket_open_le now b w r tbl b' w' r'). lia.
Qed.

(** C1. On a table holding at most one non-done ticket of the key
    (board, work_item, rule_code), calling [open_ticket] for that key any
    number of times, at least once, with any messages and metas, leaves
    exactly one non-done ticket of the key; its message is the message of
    the last call; and the calls together created one row if the key had
    no non-done ticket and none otherwise. *)
Theorem open_ticket_seq_one_ticket (board : Z) (work_item : option string)
    (rule_code : string) (calls : list OpenCall) (last : OpenCall)
    (tbl : TicketTable) :
  (length (open_tickets board work_item rule_code tbl) <= 1)%nat ->
  let tbl' := open_ticket_seq board work_item rule_code (calls ++ [last]) tbl in
  (exists t, open_tickets board work_item rule_code tbl' = [t]
             /\ rt_message t = oc_message last)
  /\ length tbl'
     = (length tbl + (1 - length (open_tickets board work_item rule_code tbl)))%nat.
Proof.
  revert tbl. induction calls as [|c calls IH]; intros tbl Hlen; simpl.
  - destruct (open_ticket_single (oc_now last) board work_item rule_code
                (oc_message last) (oc_meta last) tbl Hlen) as (t & H1 & H2 & H3).
    split; [exists t; auto | exact H3].
  - destruct (open_ticket_single (oc_now c) board work_item rule_code
                (oc_message c) (oc_meta c) tbl Hlen) as (t & H1 & _ & H3).
    set (tbl1 := fst (open_ticket (oc_now c) board work_item rule_code
                        (oc_message c) (oc_meta c) tbl)) in *.
    assert (length (open_tickets board work_item rule_code tbl1) <= 1)%nat as Hlen1
      by (rewrite H1; simpl; lia).
    destruct (IH tbl1 Hlen1) as [Ht Hl]. split; [exact Ht|].
    transitivity (length tbl1
                  + (1 - length (open_tickets board work_item rule_code tbl1)))%nat;
      [exact Hl|].
    rewrite H1, H3. simpl. lia.
Qed.

Lemma open_ticket_seq_one_ticket_witness :
  let tbl := [mkTicket 1 (Some "PROJ-1") "MISSING_POINTS" "old" DONE 5 (Some 6) (JDict [])] in
  let calls := [mkOpenCall 10 "first" JNull;
                mkOpenCall 11 "second" (JDict [("k", JInt 1)])] in
  let last := mkOpenCall 12 "third" JNull in
  (length (open_tickets 1 (Some "PROJ-1") "MISSING_POINTS" tbl) <= 1)%nat
  /\ (exists t,
        open_tickets 1 (Some "PROJ-1") "MISSING_POINTS"
          (open_ticket_seq 1 (Some "PROJ-1") "MISSING_POINTS" (calls ++ [last]) tbl)
        = [t]
        /\ rt_message t = "third")
  /\ length (open_ticket_seq 1 (Some "PROJ-1") "MISSING_POINTS" (calls ++ [last]) tbl)
     = 2%nat.
Proof.
  intros tbl calls last.
  split; [simpl; lia|].
  apply (open_ticket_seq_one_ticket 1 (Some "PROJ-1") "MISSING_POINTS" calls last tbl).
  simpl. lia.
Defined.

(** C10. A call of [open_ticket] whose [meta] is empty or absent changes
    no field of any existing ticket other than the message: every row of
    the table is afterwards the row it was with, at most, another
    message, so the meta stored in it is kept. The ticket the call works
    on, the latest non-done one of the key, gets the message of the
    call. *)
Theorem open_ticket_empty_meta_keeps_meta (now board : Z)
    (work_item : option string) (rule_code message : string) (meta : Json)
    (tbl : TicketTable) :
  truthy meta = false ->
  (forall j t, tbl !! j = Some t ->
     exists m,
       fst (open_ticket now board work_item rule_code message meta tbl) !! j
       = Some (set_message m t))
  /\ (forall i rt,
        first_latest (open_for board work_item rule_code) tbl 0%nat None
        = Some (i, rt) ->
        fst (open_ticket now board work_item rule_code message meta tbl) !! i
        = Some (set_message message rt)
        /\ snd (open_ticket now board work_item rule_code message meta tbl)
           = set_message message rt).
Proof.
  intros Hm.
  assert (truthy (py_or meta (JDict [])) = false) as Hm'
    by (unfold py_or; rewrite Hm; reflexivity).
  assert (forall t : RemediationTicket, set_message (rt_message t) t = t) as Hid
    by (intros []; reflexivity).
  split.
  - intros j t Hj.
    destruct (first_latest (open_for board work_item rule_code) tbl 0%nat None)
      as [[i rt]|] eqn:E.
    + rewrite (open_ticket_found _ _ _ _ _ _ _ _ _ E). simpl.
      rewrite (refreshed_no_meta _ _ _ Hm').
      apply first_latest_some in E. destruct E as [E | (_ & Hl & _)]; [discriminate|].
      rewrite Nat.sub_0_r in Hl.
      destruct (decide (i = j)) as [->|Hne].
      * exists message. rewrite list_lookup_insert_eq by (eapply lookup_lt_Some; eauto).
        congruence.
      * exists (rt_message t). rewrite list_lookup_insert_ne by exact Hne.
        rewrite Hid. exact Hj.
    + rewrite (open_ticket_new _ _ _ _ _ _ _ E). simpl.
      exists (rt_message t). rewrite Hid.
      rewrite lookup_app_l by (eapply lookup_lt_Some; eauto). exact Hj.
  - intros i rt E.
    rewrite (open_ticket_found _ _ _ _ _ _ _ _ _ E). simpl.
    rewrite (refreshed_no_meta _ _ _ Hm').
    apply first_latest_some in E. destruct E as [E | (_ & Hl & _)]; [discriminate|].
    rewrite Nat.sub_0_r in Hl.
    split; [|reflexivity].
    apply list_lookup_insert_eq. eapply lookup_lt_Some; eauto.
Qed.

Lemma open_ticket_empty_meta_keeps_meta_witness :
  let rt := mkTicket 1 (Some "PROJ-1") "BLOCKED_SLA" "Blocked for ~50h"
              OPEN 5 None (JDict [("sla_hours", JInt 48)]) in
  let tbl := [rt] in
  truthy (JDict []) = false
  /\ tbl !! 0%nat = Some rt
  /\ first_latest (open_for 1 (Some "PROJ-1") "BLOCKED_SLA") tbl 0%nat None
     = Some (0%nat, rt)
  /\ (exists m,
        fst (open_ticket 9 1 (Some "PROJ-1") "BLOCKED_SLA" "Blocked for ~51h"
               (JDict []) tbl) !! 0%nat
        = Some (set_message m rt))
  /\ fst (open_ticket 9 1 (Some "PROJ-1") "BLOCKED_SLA" "Blocked for ~51h"
            (JDict []) tbl) !! 0%nat
     = Some (set_message "Blocked for ~51h" rt).
Proof.
  intros rt tbl.
  destruct (open_ticket_empty_meta_keeps_meta 9 1 (Some "PROJ-1") "BLOCKED_SLA"
              "Blocked for ~51h" (JDict []) tbl eq_refl) as [H1 H2].
  split; [reflexivity|]. split; [reflexivity|]. split; [reflexivity|].
  split.
  - apply (H1 0%nat rt). reflexivity.
  - apply (H2 0%nat rt). reflexivity.
Defined.

(** ** Lists and association lists *)

Lemma str_in_In (x : string) (l : list string) : str_in x l = true <-> In x l.
Proof.
  unfold str_in. rewrite existsb_exists. split.
  - intros (y & Hy & E). apply String.eqb_eq in E. subst. exact Hy.
  - intros H. exists x. split; [exact H | apply String.eqb_refl].
Qed.

Section AssocFacts.

Context {V : Type}.

Lemma assoc_get_set (d : list (string * V)) k v k' :
  assoc_get (assoc_set d k v) k'
  = if String.eqb k k' then Some v else assoc_get d k'.
Proof.
  induction d as [|[a b] d IH]; simpl.
  - reflexivity.
  - destruct (String.eqb_spec a k) as [->|Hak]; simpl.
    + destruct (String.eqb k k'); reflexivity.
    + rewrite IH. destruct (String.eqb_spec a k') as [->|Hak'].
      * destruct (String.eqb_spec k k'); [congruence | reflexivity].
      * reflexivity.
Qed.

End AssocFacts.

Lemma In_firstn {A : Type} (x : A) (n : nat) (l : list A) :
  In x (firstn n l) -> In x l.
Proof.
  revert l. induction n as [|n IH]; intros [|y l]; simpl; try tauto.
  intros [H|H]; auto.
Qed.

(** ** Notification grouping: [_collect_for_board] *)

Lemma filter_gte_created since :
  exists p, filter_gte "created_at" since = Ok p.
Proof. eexists. reflexivity. Qed.

Lemma filter_gte_updated since :
  filter_gte "updated_at" since = Raise FieldError.
Proof. reflexivity. Qed.

Lemma window_since_raise now window_minutes e :
  window_since now window_minutes = Raise e -> e = OverflowError.
Proof.
  unfold window_since, timedelta_minutes.
  destruct (Z.abs _ <=? 999999999); cbn [bind]; [|congruence].
  destruct (in_range MIN_US _ MAX_US); congruence.
Qed.

(** C9. [_collect_for_board] returns no grouping, whatever the board,
    the channel and the window are. It filters the tickets on
    [updated_at], which is no field of [RemediationTicket], so the call
    ends in [FieldError] as soon as the window has a start; a window
    whose start is no date ends it in [OverflowError] before that. An
    hour's window over a board with one open ticket is an instance. *)
Theorem collect_for_board_raises (now : Z) (tbl : TicketTable) (board : Z)
    (rules : Json) (window_minutes : Z) :
  match _collect_for_board now tbl board rules window_minutes with
  | Ok _ => False
  | Raise e =>
      match window_since now window_minutes with
      | Ok _ => e = FieldError
      | Raise _ => e = OverflowError
      end
  end
  /\ _collect_for_board 1704067200000000
       [mkTicket 1 (Some "PROJ-1") "MISSING_POINTS" "Story points are required"
                 OPEN 1704065400000000 None (JDict [])]
       1 JNull 60
     = Raise FieldError.
Proof.
  split; [|reflexivity].
  unfold _collect_for_board.
  destruct (window_since now window_minutes) as [since|e] eqn:E; cbn [bind].
  - destruct (filter_gte_created since) as [p ->]. cbn [bind].
    rewrite filter_gte_updated. reflexivity.
  - apply (window_since_raise _ _ _ E).
Qed.

(** ** SLA: [_hours_for_item] *)

Lemma dict_get_assoc (d : list (string * Json)) (k : string) :
  dict_get d k = assoc_get d k.
Proof. induction d as [|[a b] d IH]; simpl; [reflexivity | rewrite IH; reflexivity]. Qed.

Lemma py_or_dict d : py_or (JDict d) (JDict []) = JDict d.
Proof. destruct d; reflexivity. Qed.

Lemma priority_hours_first p (items : list (string * Json)) :
  priority_hours p items = first_hours items p.
Proof.
  induction items as [|[k v] items IH]; simpl; [reflexivity|].
  destruct (String.eqb (py_lower p) (py_lower k)); [|exact IH].
  unfold hours_value. destruct (py_int v); [reflexivity | exact IH].
Qed.

Lemma lowered_get (items : list (string * Json)) t : forall d0 acc,
  dict_get d0 (py_lower t) = acc ->
  dict_get (fold_left (fun d kv => assoc_set d (py_lower (fst kv)) (snd kv))
                      items d0)
           (py_lower t)
  = fold_left (fun acc kv =>
                 if String.eqb (py_lower (fst kv)) (py_lower t)
                 then Some (snd kv) else acc) items acc.
Proof.
  induction items as [|[k v] items IH]; intros d0 acc H; simpl; [exact H|].
  apply IH. rewrite dict_get_assoc, assoc_get_set, <- dict_get_assoc.
  destruct (String.eqb (py_lower k) (py_lower t)); [reflexivity | exact H].
Qed.

Lemma type_hours_limit type_map (items : list (string * Json)) t :
  py_items type_map = Ok items ->
  type_hours type_map (py_lower t) = Ok (type_limit items t).
Proof.
  intros H. unfold type_hours, type_limit, lowered, last_value, hours_value.
  rewrite H. cbn [bind].
  rewrite (lowered_get items t [] None) by reflexivity.
  destruct (fold_left _ items None) as [v|]; [|reflexivity].
  destruct (py_int v); reflexivity.
Qed.

Section SlaFacts.

Variable py_repr : Json -> string.

Lemma priority_from_labels_find pri_map (items : list (string * Json))
    (labels : list Json) :
  py_items pri_map = Ok items ->
  priority_from_labels py_repr pri_map labels
  = Ok match List.find
               (fun l => str_in (py_lower (py_str py_repr l))
                           (map (fun kv => py_lower (fst kv)) items))
               labels with
       | Some l => py_str py_repr l
       | None => ""
       end.
Proof.
  intros H. induction labels as [|l labels IH]; simpl; [reflexivity|].
  rewrite H. cbn [bind].
  destruct (str_in _ _); [reflexivity | exact IH].
Qed.

Lemma priority_from_labels_inv pri_map (labels : list Json) p :
  priority_from_labels py_repr pri_map labels = Ok p ->
  labels = [] \/ exists items, py_items pri_map = Ok items.
Proof.
  destruct labels as [|l labels]; [auto|]. simpl.
  destruct (py_items pri_map) as [items|]; [eauto | discriminate].
Qed.

Variable root defaults : Json.

(** The priority the code computes is the priority of the item. *)
Lemma meta_priority_item pri_map wi_meta p :
  sla_map (sla_section root) (py_or defaults (JDict [])) "by_priority"
  = Ok pri_map ->
  meta_priority py_repr pri_map wi_meta = Ok p ->
  p = item_priority py_repr root defaults wi_meta.
Proof.
  intros Hm. unfold meta_priority, item_priority.
  destruct wi_meta as [| | | | | |m]; cbn [is_dict]; try (intros [= <-]; reflexivity).
  cbn [py_get bind]. fold (dict_value m "priority").
  fold (dict_value m "Priority"). fold (dict_value m "labels").
  assert ((if truthy (dict_value m "priority")
           then Ok (dict_value m "priority")
           else Ok (dict_value m "Priority"))
          = Ok (py_or (dict_value m "priority") (dict_value m "Priority")))
    as -> by (unfold py_or; destruct (truthy _); reflexivity).
  cbn [bind].
  destruct (py_or (py_or (dict_value m "priority") (dict_value m "Priority"))
                  (JStr "")) as [| | | |t| |]; cbn [py_strip_obj bind];
    try discriminate.
  destruct (String.eqb (py_strip t) "") eqn:Es; cbn [negb];
    [|intros [= <-]; reflexivity].
  apply String.eqb_eq in Es.
  destruct (py_or (dict_value m "labels") (JList []))
    as [| | | | |labels|]; try (intros [= <-]; exact Es).
  intros H. unfold by_priority_in_force, map_in_force. rewrite Hm. cbn [bind].
  destruct (priority_from_labels_inv _ _ _ H) as [->|[items Hi]].
  - simpl in H. injection H as <-. reflexivity.
  - rewrite Hi. cbn [try_except].
    rewrite (priority_from_labels_find _ items labels Hi) in H.
    injection H as <-. reflexivity.
Qed.

(** The limit the code computes is the limit by precedence. *)
Lemma hours_for_item_limit wi_meta item_type h :
  _hours_for_item py_repr root defaults wi_meta item_type = Ok h ->
  h = sla_limit_by_precedence py_repr root defaults wi_meta item_type.
Proof.
  unfold _hours_for_item, sla_limit_by_precedence.
  destruct (sla_cfg root) as [cfg|] eqn:Ec; cbn [bind]; [|discriminate].
  assert (sla_section root = cfg) as Hs by (unfold sla_section; rewrite Ec; reflexivity).
  destruct (sla_map cfg (py_or defaults (JDict [])) "by_priority")
    as [pri_map|] eqn:Ep; cbn [bind]; [|discriminate].
  destruct (meta_priority py_repr pri_map wi_meta) as [p|] eqn:Em;
    cbn [bind]; [|discriminate].
  rewrite <- Hs in Ep.
  rewrite <- (meta_priority_item pri_map wi_meta p Ep Em).
  assert (forall by_pri,
             match by_pri with
             | Some h' => Ok h'
             | None =>
                 let* type_map := sla_map cfg (py_or defaults (JDict [])) "by_type" in
                 let* by_type := type_hours type_map (py_lower item_type) in
                 match by_type with
                 | Some h' => Ok h'
                 | None => Ok (global_hours cfg (py_or defaults (JDict [])))
                 end
             end = Ok h ->
             h = match by_pri with
                 | Some h' => h'
                 | None =>
                     match type_limit (by_type_in_force root defaults) item_type with
                     | Some h' => h'
                     | None => blocked_hours_in_force root defaults
                     end
                 end) as Hrest.
  { intros [h'|]; [intros [= <-]; reflexivity|].
    unfold by_type_in_force, map_in_force, blocked_hours_in_force.
    rewrite Hs.
    destruct (sla_map cfg (py_or defaults (JDict [])) "by_type")
      as [type_map|]; cbn [bind]; [|discriminate].
    unfold type_hours at 1.
    destruct (py_items type_map) as [items|] eqn:Ei; cbn [bind]; [|discriminate].
    fold (type_hours type_map (py_lower item_type)).
    intros H.
    assert (type_hours type_map (py_lower item_type) = Ok (type_limit items item_type))
      as Ht by (apply type_hours_limit, Ei).
    unfold type_hours in Ht. rewrite Ei in Ht. cbn [bind] in Ht.
    injection Ht as Ht. rewrite Ht in H. cbn [try_except].
    destruct (type_limit items item_type); injection H as <-; reflexivity. }
  destruct (negb (String.eqb p "")).
  - unfold by_priority_in_force, map_in_force. rewrite Ep. cbn [bind].
    destruct (py_items pri_map) as [items|]; cbn [bind]; [|discriminate].
    cbn [try_except]. rewrite priority_hours_first. apply Hrest.
  - cbn [bind]. apply (Hrest None).
Qed.

End SlaFacts.

(** C6, as the code has it. Whenever [_hours_for_item] returns a limit
    for an item, whatever the configuration, the defaults and the meta
    bag are, the limit is resolved in this order: the priority of the
    item, which is [meta.priority], else [meta.Priority], else the
    first of its labels that is a key of [by_priority] up to case,
    gives the hours of the first [by_priority] key equal to it up to
    case; else the type of the item gives the hours of the [by_type]
    key equal to it up to case; else [blocked_hours] applies. The maps
    and [blocked_hours] are those in force: of the [sla] section of the
    active mapping, else of the defaults. *)
Theorem hours_for_item_precedence (py_repr : Json -> string)
    (root defaults wi_meta : Json) (item_type : string) (hours : Z) :
  _hours_for_item py_repr root defaults wi_meta item_type = Ok hours ->
  let by_priority := by_priority_in_force root defaults in
  let by_type := by_type_in_force root defaults in
  let priority := item_priority py_repr root defaults wi_meta in
  hours = sla_limit_by_precedence py_repr root defaults wi_meta item_type
  /\ match (if String.eqb priority "" then None
            else first_hours by_priority priority) with
     | Some h => hours = h
     | None =>
         match type_limit by_type item_type with
         | Some h => hours = h
         | None => hours = blocked_hours_in_force root defaults
         end
     end.
Proof.
  intros H. cbv zeta.
  pose proof (hours_for_item_limit py_repr root defaults wi_meta item_type
                hours H) as Hl.
  split; [exact Hl|].
  rewrite Hl. unfold sla_limit_by_precedence.
  destruct (String.eqb (item_priority py_repr root defaults wi_meta) "");
    cbn [negb].
  - destruct (type_limit _ item_type); reflexivity.
  - destruct (first_hours _ _); [reflexivity|].
    destruct (type_limit _ item_type); reflexivity.
Qed.

(** An instance: a configuration with other sections, a meta bag with
    other keys, and a priority written in lower case between a blank
    and a no-break space. Priority P1 is mapped to 4, type bug to 24,
    the global default is 48: the limit is 4. *)
Lemma hours_for_item_precedence_witness :
  let rep := fun _ : Json => "" in
  let root :=
    JDict [("jira", JDict [("points_field", JStr "customfield_10016")]);
           ("sla", JDict [("by_type", JDict [("Bug", JInt 24)]);
                          ("blocked_hours", JInt 48);
                          ("by_priority", JDict [("P0", JStr "soon");
                                                 ("P1", JInt 4)])])] in
  let defaults := JDict [("blocked_hours", JInt 72)] in
  let meta := JDict [("labels", JList [JStr "backend"]);
                     ("priority", JStr (" p1" +:+ String "160"%char ""));
                     ("list_id", JInt 7)] in
  _hours_for_item rep root defaults meta "bug" = Ok 4
  /\ item_priority rep root defaults meta = "p1"
  /\ sla_limit_by_precedence rep root defaults meta "bug" = 4
  /\ _hours_for_item rep (sla_config [("P1", 4)] [("bug", 24)] 48) JNull
                     (JDict [("priority", JStr "P1")]) "bug" = Ok 4.
Proof.
  intros rep root defaults meta.
  assert (_hours_for_item rep root defaults meta "bug" = Ok 4) as H
    by (vm_compute; reflexivity).
  destruct (hours_for_item_precedence rep root defaults meta "bug" 4 H)
    as [Hl _].
  split; [exact H|]. split; [vm_compute; reflexivity|].
  split; [symmetry; exact Hl | vm_compute; reflexivity].
Defined.

(** C6, as the specification words it, fails: an item without
    [meta.priority] whose label P1 is a key of [by_priority] gets the
    priority value 4, not the value 24 of its type. *)
Lemma hours_for_item_label_beats_type :
  _hours_for_item (fun _ => "") (sla_config [("P1", 4)] [("bug", 24)] 48)
                  (JDict []) (JDict [("labels", JList [JStr "P1"])]) "bug"
  = Ok 4
  /\ sla_limit_as_specified [("P1", 4)] [("bug", 24)] 48 None "bug" = 24
  /\ _hours_for_item (fun _ => "") (sla_config [("P1", 4)] [("bug", 24)] 48)
                     (JDict []) (JDict [("labels", JList [JStr "P1"])]) "bug"
     <> Ok (sla_limit_as_specified [("P1", 4)] [("bug", 24)] 48 None "bug").
Proof.
  split; [vm_compute; reflexivity|].
  split; [vm_compute; reflexivity|].
  vm_compute. discriminate.
Qed.

(** ** GitHub: reviewers and first review *)

Lemma py_min_first d (l : list DateTime) :
  Forall (fun x => instant d <= instant x) l -> py_min d l = d.
Proof.
  induction 1 as [|x l Hx _ IH]; simpl; [reflexivity|].
  destruct (instant x <? instant d) eqn:E; [|exact IH].
  apply Z.ltb_lt in E. lia.
Qed.

Lemma first_some_chronological (times : list (option DateTime)) :
  chronological (somes times) ->
  first_some times = earliest (somes times).
Proof.
  unfold somes.
  induction times as [|[d|] times IH]; simpl; [reflexivity | | exact IH].
  intros [H _]. rewrite (py_min_first d _ H). reflexivity.
Qed.

Lemma first_some_cons {A : Type} (first : option A) (a : option A) l :
  first_some (first :: a :: l)
  = first_some (match first with Some _ => first | None => a end :: l).
Proof. destruct first, a; reflexivity. Qed.

Section ReviewFacts.

Variable fromisoformat : string -> result DateTime.
Variable current_timezone : Z -> Z.

Lemma to_dt_falsy v :
  truthy v = false -> to_dt fromisoformat current_timezone v = Ok None.
Proof. intros H. unfold to_dt. rewrite H. reflexivity. Qed.

(** The loop over the review records, whatever they hold: when it
    ends, the reviewers are those it began with followed by the new
    non-empty logins, and the first-review time is the first that is
    set among the one it began with and the times of the records. *)
Lemma review_loop_inv (reviews : list Json) : forall acc first racc rfirst,
  review_loop fromisoformat current_timezone reviews acc first
  = Ok (racc, rfirst) ->
  racc = fold_left (fun acc x => if existsb (py_eq x) acc then acc
                                 else acc ++ [x])
                   (List.filter truthy (map review_login reviews)) acc
  /\ rfirst = first_some
                (first :: map (review_time fromisoformat current_timezone)
                              reviews).
Proof.
  induction reviews as [|r reviews IH]; intros acc first racc rfirst.
  - simpl. intros [= <- <-]. split; [reflexivity | destruct first; reflexivity].
  - cbn [review_loop map List.filter].
    destruct (py_get r "user") as [u|] eqn:Eu; cbn [bind]; [|discriminate].
    destruct (py_get (py_or u (JDict [])) "login") as [rid|] eqn:El;
      cbn [bind]; [|discriminate].
    destruct (py_get r "submitted_at") as [sub|] eqn:Es; cbn [bind];
      [|discriminate].
    assert (review_login r = rid) as ->
      by (unfold review_login; rewrite Eu; cbn [bind]; rewrite El; reflexivity).
    assert (review_time fromisoformat current_timezone r
            = try_except (to_dt fromisoformat current_timezone sub) None) as ->
      by (unfold review_time; rewrite Es; reflexivity).
    intros H.
    assert (exists first',
               (if truthy sub && negb (isSome first)
                then to_dt fromisoformat current_timezone sub
                else Ok first) = Ok first'
               /\ first_some (first' :: map (review_time fromisoformat
                                               current_timezone) reviews)
                  = first_some
                      (first
                       :: try_except (to_dt fromisoformat current_timezone sub)
                                     None
                       :: map (review_time fromisoformat current_timezone)
                              reviews)) as (first' & Hf & Hfs).
    { destruct first as [d|]; cbn [isSome negb andb].
      - rewrite andb_false_r. exists (Some d). split; reflexivity.
      - rewrite andb_true_r. destruct (truthy sub) eqn:Et.
        + destruct (to_dt fromisoformat current_timezone sub) as [t|] eqn:Ed.
          * exists t. split; [reflexivity|]. cbn [try_except].
            rewrite first_some_cons. reflexivity.
          * discriminate H.
        + exists None. split; [reflexivity|].
          rewrite (to_dt_falsy _ Et). reflexivity. }
    rewrite Hf in H. cbn [bind] in H.
    apply IH in H. destruct H as [-> ->]. split; [|exact Hfs].
    destruct (truthy rid) eqn:Et; cbn [andb fold_left]; [|reflexivity].
    destruct (existsb (py_eq rid) acc); reflexivity.
Qed.

Lemma pr_reviews_inv payload reviewers first :
  pr_reviews fromisoformat current_timezone payload = Ok (reviewers, first) ->
  reviewers = distinct_objects (reviewer_logins payload)
  /\ first = first_some (review_times fromisoformat current_timezone payload).
Proof.
  unfold pr_reviews, distinct_objects, reviewer_logins, review_times,
    payload_reviews.
  destruct (py_get (py_or payload (JDict [])) "reviews") as [rs|];
    cbn [bind]; [|discriminate].
  destruct (py_iter (py_or rs (JList []))) as [reviews|]; cbn [bind];
    [|discriminate].
  cbn [try_except]. intros H. apply review_loop_inv in H. exact H.
Qed.

(** C8, as the code has it. Whenever the review loop ends for a
    payload, whatever its review records hold, the reviewer ids are
    the distinct non-empty logins of the records in review order, and
    the first-review time is the [submitted_at] of the first record,
    in list order, that has one [to_dt] turns into a time ([None] when
    there is none); it is the minimum of the [submitted_at] times when
    the records are listed in chronological order. *)
Theorem pr_reviews_first_in_order (payload : Json) (reviewers : list Json)
    (first_reviewed_at : option DateTime) :
  pr_reviews fromisoformat current_timezone payload
  = Ok (reviewers, first_reviewed_at) ->
  let times := review_times fromisoformat current_timezone payload in
  reviewers = distinct_objects (reviewer_logins payload)
  /\ first_reviewed_at = first_some times
  /\ (chronological (somes times) ->
      first_reviewed_at
      = first_review_as_specified fromisoformat current_timezone payload).
Proof.
  intros H. cbv zeta. apply pr_reviews_inv in H. destruct H as [Hr Hf].
  split; [exact Hr|]. split; [exact Hf|].
  intros Hc. rewrite Hf. apply first_some_chronological, Hc.
Qed.

End ReviewFacts.

(** An instance: review records as GitHub delivers them, with further
    keys; the first record has no [submitted_at]. *)
Lemma pr_reviews_first_in_order_witness :
  let fiso := fun _ : string => @Raise DateTime ValueError in
  let ctz := fun _ : Z => 0 in
  let review := fun (id : Z) (login : string) (state : string)
                    (submitted_at : Json) =>
    JDict [("id", JInt id);
           ("user", JDict [("login", JStr login); ("id", JInt (id + 100));
                           ("type", JStr "User")]);
           ("body", JStr "");
           ("state", JStr state);
           ("submitted_at", submitted_at);
           ("commit_id", JStr "9c1f")] in
  let payload :=
    JDict [("repo", JDict [("owner", JStr "acme"); ("name", JStr "app")]);
           ("pr", JDict [("number", JInt 12)]);
           ("reviews",
            JList [review 1 "ann" "PENDING" JNull;
                   review 2 "bob" "COMMENTED" (JStr "2024-01-01T00:00:00Z");
                   review 3 "ann" "APPROVED" (JStr "2024-01-02T00:00:00Z")])] in
  let t1 := mkDateTime 1704067200000000 (Some 0) in
  let t2 := mkDateTime 1704153600000000 (Some 0) in
  pr_reviews fiso ctz payload = Ok ([JStr "ann"; JStr "bob"], Some t1)
  /\ review_times fiso ctz payload = [None; Some t1; Some t2]
  /\ Some t1 = first_review_as_specified fiso ctz payload.
Proof.
  intros fiso ctz review payload t1 t2.
  assert (pr_reviews fiso ctz payload = Ok ([JStr "ann"; JStr "bob"], Some t1))
    as H by (vm_compute; reflexivity).
  assert (review_times fiso ctz payload = [None; Some t1; Some t2]) as Ht
    by (vm_compute; reflexivity).
  split; [exact H|]. split; [exact Ht|].
  destruct (pr_reviews_first_in_order fiso ctz payload _ _ H) as (_ & _ & Hc).
  apply Hc. rewrite Ht. simpl. repeat constructor. vm_compute. discriminate.
Defined.

(** C8, as the specification words it, fails: for two reviews listed
    newest first the code keeps the time of the first record, which is
    not the minimum. *)
Lemma pr_reviews_not_minimum :
  let fiso := fun _ : string => @Raise DateTime ValueError in
  let ctz := fun _ : Z => 0 in
  let review := fun (login : string) (submitted_at : string) =>
    JDict [("user", JDict [("login", JStr login)]);
           ("state", JStr "APPROVED");
           ("submitted_at", JStr submitted_at)] in
  let payload :=
    JDict [("reviews", JList [review "ann" "2024-01-02T00:00:00Z";
                              review "bob" "2024-01-01T00:00:00Z"])] in
  let t1 := mkDateTime 1704067200000000 (Some 0) in
  let t2 := mkDateTime 1704153600000000 (Some 0) in
  pr_reviews fiso ctz payload = Ok ([JStr "ann"; JStr "bob"], Some t2)
  /\ first_review_as_specified fiso ctz payload = Some t1
  /\ instant t1 < instant t2.
Proof. vm_compute. repeat split; reflexivity. Qed.

(** ** Mapping validator *)

Lemma check_steps_warnings sm steps :
  snd (check_steps sm steps)
  = map not_mapped_warning
        (List.filter (fun s => negb (step_mapped sm s)) steps).
Proof.
  induction steps as [|step steps IH]; [reflexivity|].
  cbn [check_steps List.filter]. unfold step_mapped at 1.
  destruct (check_steps sm steps) as [es ws]. simpl in IH.
  destruct (dict_get sm step) as [[]|]; simpl;
    try (destruct (negb _); simpl); subst ws; reflexivity.
Qed.

Section ScanFacts.

Variable sm : list (string * Json).

Hypothesis distinct : forall a b,
  In a (step_names sm) -> In b (step_names sm) -> snd a = snd b -> fst a = fst b.

Lemma scan_names_no_warning step (arr : list Json) : forall seen seen' es ws,
  seen_sound sm seen ->
  (forall n, In n (norm_names arr) -> In (step, n) (step_names sm)) ->
  scan_names step arr seen = Ok (seen', es, ws) ->
  ws = [] /\ seen_sound sm seen'.
Proof.
  induction arr as [|s arr IH]; intros seen seen' es ws Hs Hn H.
  - injection H as <- <- <-. auto.
  - cbn [scan_names] in H.
    destruct s as [| | | |t| |]; try discriminate. cbn [lower_strip bind] in H.
    assert (forall n, In n (norm_names arr) -> In (step, n) (step_names sm)) as Hn'.
    { intros n Hin. apply Hn. unfold norm_names. simpl. right. exact Hin. }
    assert (In (step, py_strip (py_lower t)) (step_names sm)) as Hk.
    { apply Hn. unfold norm_names. simpl. left. reflexivity. }
    destruct (String.eqb (py_strip (py_lower t)) "").
    + destruct (scan_names step arr seen) as [[[s1 e1] w1]|] eqn:E;
        [|discriminate]. simpl in H. injection H as <- <- <-.
      eapply IH; eauto.
    + destruct (assoc_get seen (py_strip (py_lower t))) as [other|] eqn:Eo.
      * destruct (String.eqb_spec other step) as [->|Hne]; simpl in H.
        -- eapply IH; [| exact Hn' | exact H].
           intros k st. rewrite assoc_get_set.
           destruct (String.eqb_spec (py_strip (py_lower t)) k) as [<-|];
             [intros [= <-]; exact Hk | apply Hs].
        -- exfalso. apply Hne.
           apply (distinct (other, py_strip (py_lower t))
                           (step, py_strip (py_lower t)));
             [apply Hs, Eo | exact Hk | reflexivity].
      * eapply IH; [| exact Hn' | exact H].
        intros k st. rewrite assoc_get_set.
        destruct (String.eqb_spec (py_strip (py_lower t)) k) as [<-|];
          [intros [= <-]; exact Hk | apply Hs].
Qed.

Lemma scan_steps_no_warning (items : list (string * Json)) : forall seen es ws,
  incl items sm ->
  seen_sound sm seen ->
  scan_steps items seen = Ok (es, ws) ->
  ws = [].
Proof.
  induction items as [|[step arr] items IH]; intros seen es ws Hi Hs H.
  - injection H as <- <-. reflexivity.
  - cbn [scan_steps] in H.
    assert (incl items sm) as Hi' by (intros x Hx; apply Hi; right; exact Hx).
    destruct arr as [| | | | |l|].
    all: try (destruct (scan_steps items seen) as [[e1 w1]|] eqn:E;
              [|discriminate]; simpl in H; injection H as <- <-;
              eapply IH; eauto).
    destruct (scan_names step l seen) as [[[s1 e1] w1]|] eqn:E1; [|discriminate].
    simpl in H.
    destruct (scan_steps items s1) as [[e2 w2]|] eqn:E2; [|discriminate].
    simpl in H. injection H as <- <-.
    apply scan_names_no_warning in E1; [|exact Hs|].
    + destruct E1 as [-> Hs1]. simpl. eapply IH; eauto.
    + intros n Hin. unfold step_names. apply in_flat_map.
      exists (step, JList l). split; [apply Hi; left; reflexivity|].
      simpl. apply in_map_iff. exists n. auto.
Qed.

End ScanFacts.

Lemma names_distinct_prop sm :
  names_distinct sm = true ->
  forall a b, In a (step_names sm) -> In b (step_names sm) ->
              snd a = snd b -> fst a = fst b.
Proof.
  unfold names_distinct. intros H a b Ha Hb E.
  rewrite forallb_forall in H. specialize (H a Ha).
  rewrite forallb_forall in H. specialize (H b Hb).
  rewrite E, String.eqb_refl in H. simpl in H.
  apply String.eqb_eq. exact H.
Qed.

Lemma scan_names_warning_paths step (arr : list Json) : forall seen seen' es ws,
  scan_names step arr seen = Ok (seen', es, ws) ->
  Forall (fun w => i_path w = "jira.status_map") ws.
Proof.
  induction arr as [|s arr IH]; intros seen seen' es ws H.
  - injection H as <- <- <-. constructor.
  - cbn [scan_names] in H.
    destruct (lower_strip s) as [key|]; cbn [bind] in H; [|discriminate].
    destruct (String.eqb key "").
    + destruct (scan_names step arr seen) as [[[s1 e1] w1]|] eqn:E;
        [|discriminate]. simpl in H. injection H as <- <- <-.
      eapply IH, E.
    + destruct (assoc_get seen key) as [other|].
      * destruct (negb (String.eqb other step)).
        -- destruct (scan_names step arr seen) as [[[s1 e1] w1]|] eqn:E;
             [|discriminate]. simpl in H. injection H as <- <- <-.
           constructor; [reflexivity | eapply IH, E].
        -- eapply IH, H.
      * eapply IH, H.
Qed.

Lemma scan_steps_warning_paths (items : list (string * Json)) : forall seen es ws,
  scan_steps items seen = Ok (es, ws) ->
  Forall (fun w => i_path w = "jira.status_map") ws.
Proof.
  induction items as [|[step arr] items IH]; intros seen es ws H.
  - injection H as <- <-. constructor.
  - cbn [scan_steps] in H.
    destruct arr as [| | | | |l|].
    all: try (destruct (scan_steps items seen) as [[e1 w1]|] eqn:E;
              [|discriminate]; simpl in H; injection H as <- <-;
              eapply IH, E).
    destruct (scan_names step l seen) as [[[s1 e1] w1]|] eqn:E1; [|discriminate].
    simpl in H.
    destruct (scan_steps items s1) as [[e2 w2]|] eqn:E2; [|discriminate].
    simpl in H. injection H as <- <-.
    apply Forall_app. split.
    + eapply scan_names_warning_paths, E1.
    + eapply IH, E2.
Qed.

Lemma dict_get_set_same (cfg : list (string * Json)) k v :
  dict_get (assoc_set cfg k v) k = Some v.
Proof. rewrite dict_get_assoc, assoc_get_set, String.eqb_refl. reflexivity. Qed.

Lemma dict_get_set_other (cfg : list (string * Json)) k v k' :
  k <> k' -> dict_get (assoc_set cfg k v) k' = dict_get cfg k'.
Proof.
  intros H. rewrite !dict_get_assoc, assoc_get_set.
  destruct (String.eqb_spec k k'); [contradiction | reflexivity].
Qed.

Lemma dict_get_remove_same k d : dict_get (dict_remove k d) k = None.
Proof.
  induction d as [|[a b] d IH]; simpl; [reflexivity|].
  destruct (String.eqb_spec a k) as [->|Hne]; simpl; [exact IH|].
  destruct (String.eqb_spec a k); [contradiction | exact IH].
Qed.

Lemma dict_get_remove_other k d k' :
  k <> k' -> dict_get (dict_remove k d) k' = dict_get d k'.
Proof.
  intros H. induction d as [|[a b] d IH]; simpl; [reflexivity|].
  destruct (String.eqb_spec a k) as [->|Hne]; simpl.
  - destruct (String.eqb_spec k k'); [contradiction | exact IH].
  - rewrite IH. reflexivity.
Qed.

Lemma check_section_ext cfg cfg' s keys :
  dict_get cfg s = dict_get cfg' s ->
  check_section (JDict cfg) s keys = check_section (JDict cfg') s keys.
Proof.
  intros H. unfold check_section. simpl. unfold dict_has. rewrite H. reflexivity.
Qed.

Lemma check_clickup_ext cfg cfg' :
  dict_get cfg "clickup" = dict_get cfg' "clickup" ->
  check_clickup (JDict cfg) = check_clickup (JDict cfg').
Proof. intros H. unfold check_clickup. simpl. rewrite H. reflexivity. Qed.

Lemma check_azure_ext cfg cfg' :
  dict_get cfg "azure" = dict_get cfg' "azure" ->
  check_azure (JDict cfg) = check_azure (JDict cfg').
Proof. intros H. unfold check_azure. simpl. rewrite H. reflexivity. Qed.

Lemma check_validator_ext cfg cfg' :
  dict_get cfg "validator" = dict_get cfg' "validator" ->
  check_validator (JDict cfg) = check_validator (JDict cfg').
Proof. intros H. unfold check_validator. simpl. rewrite H. reflexivity. Qed.

Lemma check_github_ext regex_error cfg cfg' :
  dict_get cfg "github" = dict_get cfg' "github" ->
  check_github regex_error (JDict cfg) = check_github regex_error (JDict cfg').
Proof. intros H. unfold check_github. simpl. rewrite H. reflexivity. Qed.

(** The presence check, section by section. *)
Lemma check_presence_unfold c :
  check_presence c
  = (let* ej := check_section c "jira" ["points_field"; "status_map"] in
     let* ec := check_section c "clickup" ["points_field_name"] in
     let* ea := check_section c "azure" ["points_field"] in
     let* eg := check_section c "github" ["link_patterns"] in
     Ok (ej ++ ec ++ ea ++ eg)).
Proof.
  unfold check_presence, REQUIRED_KEYS. cbn [mapM fst snd].
  destruct (check_section c "jira" _) as [ej|]; [|reflexivity].
  destruct (check_section c "clickup" _) as [ec|]; [|reflexivity].
  destruct (check_section c "azure" _) as [ea|]; [|reflexivity].
  destruct (check_section c "github" _) as [eg|]; [|reflexivity].
  cbn. rewrite app_nil_r. reflexivity.
Qed.

Lemma check_section_jira_keys cfg jira :
  dict_get cfg "jira" = Some (JDict jira) ->
  check_section (JDict cfg) "jira" ["points_field"; "status_map"] = Ok [] ->
  dict_has jira "points_field" = true /\ dict_has jira "status_map" = true.
Proof.
  intros Hj. unfold check_section. cbn [py_in bind]. unfold dict_has at 1.
  rewrite Hj. cbn [negb py_get bind]. rewrite Hj, py_or_dict.
  cbn [mapM py_in bind].
  destruct (dict_has jira "points_field"), (dict_has jira "status_map");
    cbn; intros H; try discriminate. auto.
Qed.

Lemma check_section_jira_removed cfg jira :
  dict_has jira "points_field" = true ->
  check_section (JDict (without_status_map cfg jira)) "jira"
                ["points_field"; "status_map"]
  = Ok [mkIssue "jira.status_map" "Missing 'status_map'"].
Proof.
  intros Hp. unfold check_section, without_status_map.
  cbn [py_in bind]. unfold dict_has at 1.
  rewrite dict_get_set_same. cbn [negb py_get bind].
  rewrite dict_get_set_same, py_or_dict. cbn [mapM py_in bind].
  unfold dict_has in *.
  rewrite dict_get_remove_other by discriminate.
  rewrite dict_get_remove_same.
  destruct (dict_get jira "points_field"); [|discriminate]. reflexivity.
Qed.

Lemma check_jira_points cfg jira w :
  dict_get cfg "jira" = Some (JDict jira) ->
  check_jira (JDict cfg) = Ok ([], w) ->
  check_str_field (JDict jira) "points_field" "jira.points_field"
    "Must be a string (e.g., customfield_10016)" = Ok [].
Proof.
  intros Hj. unfold check_jira. cbn [py_get_default bind]. rewrite Hj, py_or_dict.
  destruct (check_str_field (JDict jira) _ _ _) as [e1|]; [|discriminate].
  cbn [bind py_get_default].
  destruct (py_or _ (JDict [])) as [| | | | | |d].
  all: try (intros [= H _]; apply app_eq_nil in H; destruct H as [-> _]; reflexivity).
  destruct (check_steps d CANONICAL_STEPS) as [e2 w2].
  destruct (scan_steps d []) as [[e3 w3]|]; [|discriminate]. cbn [bind].
  intros [= H _]. apply app_eq_nil in H. destruct H as [-> _]. reflexivity.
Qed.

Lemma check_jira_removed cfg jira :
  check_str_field (JDict jira) "points_field" "jira.points_field"
    "Must be a string (e.g., customfield_10016)" = Ok [] ->
  check_jira (JDict (without_status_map cfg jira)) = Ok ([], ALL_NOT_MAPPED).
Proof.
  intros Hp. unfold check_jira, without_status_map.
  cbn [py_get_default bind]. rewrite dict_get_set_same, py_or_dict.
  assert (check_str_field (JDict (dict_remove "status_map" jira)) "points_field"
            "jira.points_field" "Must be a string (e.g., customfield_10016)"
          = Ok []) as ->.
  { revert Hp. unfold check_str_field. cbn [py_in py_get bind]. unfold dict_has.
    rewrite dict_get_remove_other by discriminate. auto. }
  cbn [bind py_get_default]. rewrite dict_get_remove_same. reflexivity.
Qed.

Lemma filter_negb_length {A : Type} (f : A -> bool) (l : list A) :
  (length (List.filter f l) + length (List.filter (fun x => negb (f x)) l)
   = length l)%nat.
Proof.
  induction l as [|x l IH]; simpl; [reflexivity|].
  destruct (f x); simpl; lia.
Qed.

Section ValidatorFacts.

Variable regex_error : string -> option string.

Lemma validate_components cfg r :
  validate_mapping_config regex_error (JDict cfg) = Ok r ->
  exists e0 ej wj e2 e3 e4 e5,
    check_presence (JDict cfg) = Ok e0
    /\ check_jira (JDict cfg) = Ok (ej, wj)
    /\ check_clickup (JDict cfg) = Ok e2
    /\ check_azure (JDict cfg) = Ok e3
    /\ check_github regex_error (JDict cfg) = Ok e4
    /\ check_validator (JDict cfg) = Ok e5
    /\ v_errors r = e0 ++ ej ++ e2 ++ e3 ++ e4 ++ e5
    /\ v_warnings r = wj
    /\ v_ok r = (length (v_errors r) =? 0)%nat.
Proof.
  unfold validate_mapping_config. rewrite py_or_dict.
  destruct (check_presence (JDict cfg)) as [e0|]; [|discriminate].
  destruct (check_jira (JDict cfg)) as [[ej wj]|]; [|discriminate].
  destruct (check_clickup (JDict cfg)) as [e2|]; [|discriminate].
  destruct (check_azure (JDict cfg)) as [e3|]; [|discriminate].
  destruct (check_github regex_error (JDict cfg)) as [e4|]; [|discriminate].
  destruct (check_validator (JDict cfg)) as [e5|]; [|discriminate].
  cbn [bind fst snd]. intros [= <-]. cbn [v_errors v_warnings v_ok].
  exists e0, ej, wj, e2, e3, e4, e5. repeat split; reflexivity.
Qed.

Lemma validate_ok_errors cfg r :
  validate_mapping_config regex_error cfg = Ok r ->
  v_ok r = (length (v_errors r) =? 0)%nat.
Proof.
  unfold validate_mapping_config.
  destruct (check_presence _) as [e0|]; [|discriminate].
  destruct (check_jira _) as [[ej wj]|]; [|discriminate].
  destruct (check_clickup _) as [e2|]; [|discriminate].
  destruct (check_azure _) as [e3|]; [|discriminate].
  destruct (check_github regex_error _) as [e4|]; [|discriminate].
  destruct (check_validator _) as [e5|]; [|discriminate].
  cbn [bind]. intros [= <-]. reflexivity.
Qed.

Lemma validate_without_status_map cfg jira r :
  validate_mapping_config regex_error (JDict cfg) = Ok r ->
  v_errors r = [] ->
  dict_get cfg "jira" = Some (JDict jira) ->
  validate_mapping_config regex_error (JDict (without_status_map cfg jira))
  = Ok (mkValidation false [mkIssue "jira.status_map" "Missing 'status_map'"]
          ALL_NOT_MAPPED (JDict (without_status_map cfg jira))).
Proof.
  intros Hv He Hj.
  destruct (validate_components cfg r Hv)
    as (e0 & ej & wj & e2 & e3 & e4 & e5 & H0 & H1 & H2 & H3 & H4 & H5 & Hr & _ & _).
  rewrite He in Hr. symmetry in Hr.
  apply app_eq_nil in Hr. destruct Hr as [-> Hr].
  apply app_eq_nil in Hr. destruct Hr as [-> Hr].
  apply app_eq_nil in Hr. destruct Hr as [-> Hr].
  apply app_eq_nil in Hr. destruct Hr as [-> Hr].
  apply app_eq_nil in Hr. destruct Hr as [-> ->].
  rewrite check_presence_unfold in H0.
  destruct (check_section (JDict cfg) "jira" _) as [sj|] eqn:Sj; [|discriminate].
  destruct (check_section (JDict cfg) "clickup" _) as [sc|] eqn:Sc; [|discriminate].
  destruct (check_section (JDict cfg) "azure" _) as [sa|] eqn:Sa; [|discriminate].
  destruct (check_section (JDict cfg) "github" _) as [sg|] eqn:Sg; [|discriminate].
  cbn [bind] in H0. injection H0 as H0.
  apply app_eq_nil in H0. destruct H0 as [-> H0].
  apply app_eq_nil in H0. destruct H0 as [-> H0].
  apply app_eq_nil in H0. destruct H0 as [-> ->].
  destruct (check_section_jira_keys cfg jira Hj Sj) as [Hpf _].
  assert (forall k, "jira" <> k ->
            dict_get (without_status_map cfg jira) k = dict_get cfg k) as Hother
    by (intros k Hk; apply dict_get_set_other, Hk).
  unfold validate_mapping_config. rewrite py_or_dict.
  rewrite check_presence_unfold.
  rewrite (check_section_jira_removed cfg jira Hpf).
  rewrite (check_section_ext _ cfg "clickup"), Sc by (apply Hother; discriminate).
  rewrite (check_section_ext _ cfg "azure"), Sa by (apply Hother; discriminate).
  rewrite (check_section_ext _ cfg "github"), Sg by (apply Hother; discriminate).
  cbn [bind].
  rewrite (check_jira_removed cfg jira (check_jira_points cfg jira wj Hj H1)).
  rewrite (check_clickup_ext _ cfg), H2 by (apply Hother; discriminate).
  rewrite (check_azure_ext _ cfg), H3 by (apply Hother; discriminate).
  rewrite (check_github_ext _ _ cfg), H4 by (apply Hother; discriminate).
  rewrite (check_validator_ext _ cfg), H5 by (apply Hother; discriminate).
  reflexivity.
Qed.

Lemma validate_status_map_warnings cfg jira sm r :
  validate_mapping_config regex_error (JDict cfg) = Ok r ->
  dict_get cfg "jira" = Some (JDict jira) ->
  dict_get jira "status_map" = Some (JDict sm) ->
  exists shared,
    v_warnings r
    = map not_mapped_warning
          (List.filter (fun s => negb (step_mapped sm s)) CANONICAL_STEPS)
      ++ shared
    /\ Forall (fun w => i_path w = "jira.status_map") shared
    /\ (names_distinct sm = true -> shared = []).
Proof.
  intros Hv Hj Hs.
  destruct (validate_components cfg r Hv)
    as (e0 & ej & wj & e2 & e3 & e4 & e5 & _ & H1 & _ & _ & _ & _ & _ & -> & _).
  revert H1. unfold check_jira. cbn [py_get_default bind]. rewrite Hj, py_or_dict.
  destruct (check_str_field (JDict jira) _ _ _) as [e1|]; [|discriminate].
  cbn [bind py_get_default]. rewrite Hs, py_or_dict.
  pose proof (check_steps_warnings sm CANONICAL_STEPS) as Hw.
  destruct (check_steps sm CANONICAL_STEPS) as [es ws].
  destruct (scan_steps sm []) as [[e3' w3]|] eqn:E; [|discriminate].
  cbn [bind]. intros [= _ <-]. simpl in Hw. subst ws.
  exists w3. split; [reflexivity|]. split.
  - eapply scan_steps_warning_paths, E.
  - intros Hd.
    apply (scan_steps_no_warning sm (names_distinct_prop sm Hd)) in E.
    + exact E.
    + apply incl_refl.
    + intros k st. discriminate.
Qed.


End ValidatorFacts.



(** ** Jira: step times from the changelog *)

Lemma earliest_none (l : list DateTime) : earliest l = None <-> l = [].
Proof. destruct l; simpl; split; congruence. Qed.

Lemma py_min_spec (l : list DateTime) : forall d,
  (py_min d l = d \/ In (py_min d l) l)
  /\ instant (py_min d l) <= instant d
  /\ forall x, In x l -> instant (py_min d l) <= instant x.
Proof.
  induction l as [|y l IH]; intros d; simpl.
  - split; [auto|]. split; [lia | intros x []].
  - destruct (instant y <? instant d) eqn:E.
    + apply Z.ltb_lt in E. destruct (IH y) as (H1 & H2 & H3).
      split; [destruct H1 as [->|H1]; auto|]. split; [lia|].
      intros x [<-|Hx]; [exact H2 | apply H3, Hx].
    + apply Z.ltb_ge in E. destruct (IH d) as (H1 & H2 & H3).
      split; [destruct H1; auto|]. split; [exact H2|].
      intros x [<-|Hx]; [lia | apply H3, Hx].
Qed.

Lemma earliest_some (l : list DateTime) d :
  earliest l = Some d ->
  In d l /\ forall x, In x l -> instant d <= instant x.
Proof.
  destruct l as [|a l]; simpl; [discriminate|]. intros [= <-].
  destruct (py_min_spec l a) as (H1 & H2 & H3).
  split; [destruct H1 as [->|H1]; auto|].
  intros x [<-|Hx]; [exact H2 | apply H3, Hx].
Qed.

Lemma py_or_twice a b : py_or (py_or a b) b = py_or a b.
Proof.
  unfold py_or. destruct (truthy a) eqn:Ea; [rewrite Ea; reflexivity|].
  destruct (truthy b); reflexivity.
Qed.

Lemma py_get_value obj k v :
  py_get obj k = Ok v -> exists d, obj = JDict d /\ v = dict_value d k.
Proof.
  destruct obj; simpl; try discriminate. intros [= <-]. eauto.
Qed.

(** The lower-cased targets hold the lower-cased name exactly when the
    name is one of the targets, case ignored. *)
Lemma lowered_targets (ts : list Json) : forall tl x to_name,
  mapM py_lower_obj ts = Ok tl ->
  py_lower_obj x = Ok to_name ->
  str_in to_name tl = existsb (same_name x) ts.
Proof.
  induction ts as [|t ts IH]; intros tl x to_name Hm Hx.
  - injection Hm as <-. reflexivity.
  - cbn [mapM] in Hm.
    destruct (py_lower_obj t) as [y|] eqn:Et; cbn [bind] in Hm; [|discriminate].
    destruct (mapM py_lower_obj ts) as [ys|] eqn:Ets; cbn [bind] in Hm;
      [|discriminate].
    injection Hm as <-. cbn [existsb]. unfold str_in. cbn [existsb].
    fold (str_in to_name ys). rewrite (IH ys x to_name eq_refl Hx).
    destruct x; try discriminate. destruct t; try discriminate.
    simpl in Hx, Et. injection Hx as <-. injection Et as <-. reflexivity.
Qed.

Section StatusTimeFacts.

Variable fromisoformat : string -> result DateTime.
Variable current_timezone : Z -> Z.

(** The loop over the items of an entry, whatever they hold. *)
Lemma status_items_inv (ts : list Json) tl when (items : list Json) :
  mapM py_lower_obj ts = Ok tl ->
  forall hits,
    status_items tl when items = Ok hits ->
    hits = match when with
           | Some w => map (fun _ => w) (List.filter (item_matches ts) items)
           | None => []
           end.
Proof.
  intros Hm. induction items as [|item items IH]; intros hits H.
  - injection H as <-. destruct when; reflexivity.
  - cbn [status_items] in H.
    destruct (py_get item "field") as [f|] eqn:Ef; cbn [bind] in H;
      [|discriminate].
    destruct (py_get_value _ _ _ Ef) as (d & -> & ->).
    cbn [List.filter item_matches].
    destruct (py_eq (dict_value d "field") (JStr "status")); cbn [andb].
    + cbn [py_get bind] in H. fold (dict_value d "toString") in H.
      destruct (py_lower_obj (py_or (dict_value d "toString") (JStr "")))
        as [to_name|] eqn:En; cbn [bind] in H; [|discriminate].
      destruct (status_items tl when items) as [rest|]; cbn [bind] in H;
        [|discriminate].
      injection H as <-. rewrite (IH rest eq_refl).
      rewrite <- (lowered_targets ts tl _ to_name Hm En).
      destruct when; [|reflexivity].
      destruct (str_in to_name tl); reflexivity.
    + apply IH, H.
Qed.

(** The loop over the entries of the changelog. *)
Lemma status_hits_inv (ts : list Json) tl (hs : list Json) :
  mapM py_lower_obj ts = Ok tl ->
  forall hits,
    status_hits fromisoformat current_timezone tl hs = Ok hits ->
    hits = matching_times fromisoformat current_timezone ts hs.
Proof.
  intros Hm. induction hs as [|h hs IH]; intros hits H.
  - injection H as <-. reflexivity.
  - cbn [status_hits] in H. cbn [matching_times flat_map].
    fold (matching_times fromisoformat current_timezone ts hs).
    unfold entry_time, entry_items.
    destruct (py_get h "created") as [c|]; cbn [bind] in H |- *;
      [|discriminate].
    destruct (to_dt fromisoformat current_timezone c) as [when|];
      cbn [bind] in H; [|discriminate].
    destruct (py_get_default h "items" (JList [])) as [its|];
      cbn [bind] in H |- *; [|discriminate].
    destruct (py_iter (py_or its (JList []))) as [items|];
      cbn [bind] in H; [|discriminate].
    destruct (status_items tl when items) as [hits1|] eqn:E1; cbn [bind] in H;
      [|discriminate].
    destruct (status_hits fromisoformat current_timezone tl hs) as [rest|];
      cbn [bind] in H; [|discriminate].
    injection H as <-. cbn [try_except].
    rewrite (IH rest eq_refl).
    rewrite (status_items_inv ts tl when items Hm hits1 E1).
    destruct when; reflexivity.
Qed.

(** [_status_time], whatever the issue and the targets hold: when it
    returns, it returns the earliest of the times of the entries that
    hold a transition to one of the targets. *)
Lemma status_time_inv issue targets r :
  _status_time fromisoformat current_timezone issue targets = Ok r ->
  r = earliest
        (matching_times fromisoformat current_timezone
           (try_except (py_iter (py_or targets (JList []))) [])
           (changelog_entries issue)).
Proof.
  unfold _status_time, changelog_entries.
  destruct (py_iter (py_or targets (JList []))) as [ts|]; cbn [bind];
    [|discriminate].
  destruct (mapM py_lower_obj ts) as [tl|] eqn:Hm; cbn [bind]; [|discriminate].
  destruct (py_get (py_or issue (JDict [])) "changelog") as [cl|]; cbn [bind];
    [|discriminate].
  destruct (py_get_default (py_or cl (JDict [])) "histories" (JList []))
    as [hs|]; cbn [bind]; [|discriminate].
  destruct (py_iter (py_or hs (JList []))) as [histories|]; cbn [bind];
    [|discriminate].
  destruct (status_hits fromisoformat current_timezone tl histories)
    as [hits|] eqn:Eh; cbn [bind]; [|discriminate].
  intros [= <-]. cbn [try_except].
  rewrite (status_hits_inv ts tl histories Hm hits Eh). reflexivity.
Qed.

Lemma matching_times_In targets entries d :
  In d (matching_times fromisoformat current_timezone targets entries)
  <-> exists h, In h entries
                /\ entry_time fromisoformat current_timezone h = Some d
                /\ entry_matches targets h = true.
Proof.
  unfold matching_times. rewrite in_flat_map. split.
  - intros (h & Hin & Hd).
    destruct (entry_time fromisoformat current_timezone h) as [w|] eqn:Ew;
      [|destruct Hd].
    apply in_map_iff in Hd. destruct Hd as (i & <- & Hi).
    apply filter_In in Hi. destruct Hi as [Hi Hmt].
    exists h. split; [exact Hin|]. split; [exact Ew|].
    unfold entry_matches. apply existsb_exists. eauto.
  - intros (h & Hin & Ht & Hmt). exists h. split; [exact Hin|]. rewrite Ht.
    unfold entry_matches in Hmt. apply existsb_exists in Hmt.
    destruct Hmt as (i & Hi & Hmt). apply in_map_iff. exists i.
    split; [reflexivity|]. apply filter_In. auto.
Qed.

End StatusTimeFacts.

(** Inverts a successful run of a chain of binds, one step at a time. *)
Ltac bind_inv H :=
  repeat match type of H with
         | (let* _ := ?e in _) = Ok _ =>
             let E := fresh "E" in
             destruct e eqn:E; cbn [bind] in H; [|discriminate H]
         | (if ?c then _ else _) = Ok _ =>
             let E := fresh "E" in
             destruct c eqn:E; try discriminate H
         end.

Section JiraValuesFacts.

Variable fromisoformat : string -> result DateTime.
Variable current_timezone : Z -> Z.
Variable py_repr : Json -> string.
Variable py_float : Json -> result PyFloat.
Variable root : Json.

(** The step times of the values are the results of [_status_time] for
    the targets the status map gives for the steps. *)
Lemma jira_values_steps payload v :
  jira_values fromisoformat current_timezone py_repr py_float root payload
  = Ok (Some v) ->
  forall step, In step CHANGELOG_STEPS ->
    (let* targets :=
       py_get_default (py_or (cfg root ["jira"; "status_map"] (JDict []))
                             (JDict [])) step (JList []) in
     _status_time fromisoformat current_timezone (py_or payload (JDict []))
                  targets)
    = Ok (step_time step v).
Proof.
  intros H. unfold jira_values in H. cbv beta zeta in H.
  bind_inv H. injection H as <-.
  intros step Hin. unfold CHANGELOG_STEPS in Hin. simpl in Hin.
  repeat (destruct Hin as [<-|Hin]; [assumption|]). destruct Hin.
Qed.

(** The time of a step is the earliest of the times of the entries
    that hold a transition to one of the names of the step. *)
Lemma step_time_matching payload v step :
  jira_values fromisoformat current_timezone py_repr py_float root payload
  = Ok (Some v) ->
  In step CHANGELOG_STEPS ->
  step_time step v
  = earliest (matching_times fromisoformat current_timezone
                (step_targets root step) (changelog_entries payload)).
Proof.
  intros Hv Hstep.
  pose proof (jira_values_steps payload v Hv step Hstep) as H.
  unfold step_targets.
  destruct (py_get_default _ step (JList [])) as [targets|]; cbn [bind] in H |- *;
    [|discriminate].
  apply status_time_inv in H. rewrite H.
  unfold changelog_entries. rewrite py_or_twice. reflexivity.
Qed.

Lemma step_time_earliest payload v step :
  jira_values fromisoformat current_timezone py_repr py_float root payload
  = Ok (Some v) ->
  In step CHANGELOG_STEPS ->
  let entries := changelog_entries payload in
  let targets := step_targets root step in
  match step_time step v with
  | Some d =>
      (exists h, In h entries
                 /\ entry_time fromisoformat current_timezone h = Some d
                 /\ entry_matches targets h = true)
      /\ (forall h d', In h entries ->
                       entry_time fromisoformat current_timezone h = Some d' ->
                       entry_matches targets h = true ->
                       instant d <= instant d')
  | None =>
      forall h, In h entries -> entry_matches targets h = true ->
                entry_time fromisoformat current_timezone h = None
  end.
Proof.
  intros Hv Hstep. cbv zeta.
  rewrite (step_time_matching payload v step Hv Hstep).
  destruct (earliest _) as [d|] eqn:E.
  - apply earliest_some in E. destruct E as [Hin Hmin]. split.
    + apply matching_times_In in Hin. exact Hin.
    + intros h d' Hh Hd' Hm. apply Hmin, matching_times_In. eauto.
  - apply earliest_none in E. intros h Hh Hm.
    destruct (entry_time fromisoformat current_timezone h) as [d|] eqn:Ed;
      [|reflexivity].
    assert (In d (matching_times fromisoformat current_timezone
                    (step_targets root step) (changelog_entries payload)))
      as Hin by (apply matching_times_In; eauto).
    rewrite E in Hin. destruct Hin.
Qed.

End JiraValuesFacts.

Section StepTimeTheorem.

Variable fromisoformat : string -> result DateTime.
Variable current_timezone : Z -> Z.
Variable py_repr : Json -> string.
Variable py_float : Json -> result PyFloat.

(** C4. For every issue payload that is normalized, whatever its
    changelog holds, and every configuration: the time computed for a
    step is the time of a changelog entry that holds a status
    transition to one of the names the status map lists for the step,
    case ignored, and no such entry has an earlier time; it is [None]
    exactly when no entry with a time holds such a transition. The work
    item row stores this value. *)
Theorem jira_step_time_earliest (root payload : Json) (v : JiraValues)
    (step : string) :
  jira_values fromisoformat current_timezone py_repr py_float root payload
  = Ok (Some v) ->
  In step CHANGELOG_STEPS ->
  let entries := changelog_entries payload in
  let targets := step_targets root step in
  match step_time step v with
  | Some d =>
      (exists h, In h entries
                 /\ entry_time fromisoformat current_timezone h = Some d
                 /\ entry_matches targets h = true)
      /\ (forall h d', In h entries ->
                       entry_time fromisoformat current_timezone h = Some d' ->
                       entry_matches targets h = true ->
                       instant d <= instant d')
  | None =>
      forall h, In h entries -> entry_matches targets h = true ->
                entry_time fromisoformat current_timezone h = None
  end
  /\ (forall board parent_story blocked_since row,
        row_step_time step (jira_defaults board v parent_story blocked_since row)
        = opt_instant (step_time step v)).
Proof.
  intros Hv Hstep. cbv zeta. split.
  - exact (step_time_earliest fromisoformat current_timezone py_repr py_float
             root payload v step Hv Hstep).
  - intros board ps bs row. unfold CHANGELOG_STEPS in Hstep. simpl in Hstep.
    repeat (destruct Hstep as [<-|Hstep]; [reflexivity|]). destruct Hstep.
Qed.

(** The scenario of the specification: an issue whose changelog holds
    a transition to In Progress at T1 and one to In Review at T2, with
    [dev_started] mapped to In Progress and [ready_for_qa] to In
    Review, is normalized to [dev_started_at = T1] and
    [ready_for_qa_at = T2]. *)
Lemma jira_scenario_step_times (root payload : Json) (h1 h2 : Json)
    (T1 T2 : DateTime) (v : JiraValues) :
  jira_values fromisoformat current_timezone py_repr py_float root payload
  = Ok (Some v) ->
  step_targets root "dev_started" = [JStr "In Progress"] ->
  step_targets root "ready_for_qa" = [JStr "In Review"] ->
  changelog_entries payload = [h1; h2] ->
  entry_time fromisoformat current_timezone h1 = Some T1 ->
  entry_time fromisoformat current_timezone h2 = Some T2 ->
  entry_items h1 = [JDict [("field", JStr "status");
                           ("fromString", JStr "To Do");
                           ("toString", JStr "In Progress")]] ->
  entry_items h2 = [JDict [("field", JStr "status");
                           ("fromString", JStr "In Progress");
                           ("toString", JStr "In Review")]] ->
  jv_dev_started_at v = Some T1 /\ jv_ready_for_qa_at v = Some T2.
Proof.
  intros Hv Hd Hq Hc H1 H2 I1 I2.
  pose proof (step_time_matching fromisoformat current_timezone py_repr
                py_float root payload v "dev_started" Hv
                ltac:(simpl; auto)) as Sd.
  pose proof (step_time_matching fromisoformat current_timezone py_repr
                py_float root payload v "ready_for_qa" Hv
                ltac:(simpl; auto)) as Sq.
  rewrite Hd, Hc in Sd. rewrite Hq, Hc in Sq.
  unfold matching_times in Sd, Sq. cbn [flat_map] in Sd, Sq.
  rewrite H1, H2, I1, I2 in Sd, Sq.
  split; [exact Sd | exact Sq].
Qed.

End StepTimeTheorem.

(** An instance: a changelog as Jira delivers it, with further keys in
    its entries and items, newest entry first, and status names
    written in another case than the status map has them. *)
Lemma jira_step_time_earliest_witness :
  let fiso := fun _ : string => @Raise DateTime ValueError in
  let ctz := fun _ : Z => 0 in
  let rep := fun _ : Json => "" in
  let pf := fun _ : Json => @Raise PyFloat ValueError in
  let verifie := "V" +:+ String "233"%char "rifi" +:+ String "233"%char "" in
  let VERIFIE := "V" +:+ String "201"%char "RIFI" +:+ String "201"%char "" in
  let sm := [("dev_started", JList [JStr "In Progress"]);
             ("ready_for_qa", JList [JStr "In Review"]);
             ("qa_verified", JList [JStr verifie])] in
  let root := JDict [("jira", JDict [("points_field", JStr "customfield_10016");
                                     ("status_map", JDict sm)])] in
  let item := fun (field from to : string) =>
    JDict [("field", JStr field); ("fieldtype", JStr "jira");
           ("from", JNull); ("fromString", JStr from);
           ("to", JNull); ("toString", JStr to)] in
  let entry := fun (id created : string) (items : list Json) =>
    JDict [("id", JStr id);
           ("author", JDict [("displayName", JStr "Ann")]);
           ("created", JStr created);
           ("items", JList items)] in
  let h4 := entry "10004" "2024-01-04T10:00:00.000+0000"
                  [item "status" "In Progress" VERIFIE] in
  let h3 := entry "10003" "2024-01-03T10:00:00.000+0000"
                  [item "status" "In Review" "In Progress"] in
  let h2 := entry "10002" "2024-01-02T10:00:00.000+0000"
                  [item "assignee" "" "bob";
                   item "status" "In Progress" "in review"] in
  let h1 := entry "10001" "2024-01-01T10:00:00.000+0000"
                  [item "status" "To Do" "IN PROGRESS"] in
  let payload :=
    JDict [("id", JStr "10000"); ("key", JStr "PROJ-1");
           ("fields", JDict [("summary", JStr "Fix it")]);
           ("changelog", JDict [("startAt", JInt 0); ("total", JInt 4);
                                ("histories", JList [h4; h3; h2; h1])])] in
  let T1 := mkDateTime 1704103200000000 (Some 0) in
  let T2 := mkDateTime 1704189600000000 (Some 0) in
  let T3 := mkDateTime 1704276000000000 (Some 0) in
  let T4 := mkDateTime 1704362400000000 (Some 0) in
  exists v,
    jira_values fiso ctz rep pf root payload = Ok (Some v)
    /\ changelog_entries payload = [h4; h3; h2; h1]
    /\ map (entry_time fiso ctz) [h4; h3; h2; h1]
       = [Some T4; Some T3; Some T2; Some T1]
    /\ step_time "dev_started" v = Some T1
    /\ step_time "ready_for_qa" v = Some T2
    /\ step_time "qa_verified" v = Some T4
    /\ step_time "signed_off" v = None
    /\ entry_matches (step_targets root "dev_started") h3 = true
    /\ instant T1 <= instant T3.
Proof.
  intros fiso ctz rep pf verifie VERIFIE sm root item entry h4 h3 h2 h1 payload
         T1 T2 T3 T4.
  assert (exists v, jira_values fiso ctz rep pf root payload = Ok (Some v)
                    /\ step_time "dev_started" v = Some T1
                    /\ step_time "ready_for_qa" v = Some T2
                    /\ step_time "qa_verified" v = Some T4
                    /\ step_time "signed_off" v = None)
    as (v & Hv & Hs & Hq & Hf & Hn)
    by (eexists; repeat split; vm_compute; reflexivity).
  exists v. split; [exact Hv|]. split; [reflexivity|].
  split; [vm_compute; reflexivity|].
  split; [exact Hs|]. split; [exact Hq|]. split; [exact Hf|].
  split; [exact Hn|].
  assert (entry_matches (step_targets root "dev_started") h3 = true) as Hm
    by (vm_compute; reflexivity).
  split; [exact Hm|].
  pose proof (jira_step_time_earliest fiso ctz rep pf root payload v
                "dev_started" Hv ltac:(simpl; auto)) as [H _].
  cbv zeta in H. rewrite Hs in H. destruct H as [_ Hmin].
  apply (Hmin h3 T3); [simpl; auto | vm_compute; reflexivity | exact Hm].
Defined.

(** ** The work item store: upserts *)

Section StoreFacts.

Variable clock : nat -> Z.

Lemma save_item_same sid row w :
  items (save_item clock sid row w) !! sid
  = Some (set_last_synced (clock (ticks w)) row).
Proof. unfold save_item. simpl. apply lookup_insert_eq. Qed.

Lemma save_item_other sid row w sid' :
  sid <> sid' ->
  items (save_item clock sid row w) !! sid' = items w !! sid'.
Proof. intros H. unfold save_item. simpl. apply lookup_insert_ne, H. Qed.

Lemma save_item_items sid row w :
  items (save_item clock sid row w)
  = <[sid := set_last_synced (clock (ticks w)) row]> (items w).
Proof. reflexivity. Qed.

Lemma save_item_ticks sid row w :
  ticks (save_item clock sid row w) = S (ticks w).
Proof. reflexivity. Qed.

Lemma update_or_create_inv source sid f w w' :
  update_or_create clock source sid f w = Ok w' ->
  exists base,
    w' = save_item clock sid (f base) w
    /\ match items w !! sid with
       | Some row => base = row /\ wi_source row = source
       | None => base = new_work_item source sid
       end.
Proof.
  unfold update_or_create. destruct (items w !! sid) as [row|].
  - destruct (String.eqb_spec (wi_source row) source); [|discriminate].
    intros [= <-]. eauto.
  - intros [= <-]. eauto.
Qed.

Lemma get_or_create_inv source sid f w w' :
  get_or_create clock source sid f w = Ok w' ->
  match items w !! sid with
  | Some row => w' = w /\ wi_source row = source
  | None => w' = save_item clock sid (f (new_work_item source sid)) w
  end.
Proof.
  unfold get_or_create. destruct (items w !! sid) as [row|].
  - destruct (String.eqb_spec (wi_source row) source); [|discriminate].
    intros [= <-]. auto.
  - intros [= <-]. reflexivity.
Qed.

End StoreFacts.

Section UpsertParentFacts.

Variable py_repr : Json -> string.
Variable clock : nat -> Z.

(** The placeholder parent is created at most once: rows that exist are
    left alone, and a new row is not blocked. *)
Lemma upsert_parent_inv board source pk w ps w1 :
  upsert_parent py_repr clock board source pk w = Ok (ps, w1) ->
  (w1 = w
   /\ (truthy pk = false /\ ps = None
       \/ truthy pk = true /\ ps = Some (py_str py_repr pk)
          /\ exists row, items w !! py_str py_repr pk = Some row
                         /\ wi_source row = source))
  \/ (truthy pk = true /\ ps = Some (py_str py_repr pk)
      /\ items w !! py_str py_repr pk = None
      /\ exists row,
           w1 = save_item clock (py_str py_repr pk) row w
           /\ wi_source row = source /\ wi_blocked_flag row = false
           /\ wi_blocked_since row = None).
Proof.
  unfold upsert_parent. destruct (truthy pk); simpl.
  - destruct (get_or_create clock source (py_str py_repr pk) _ w) as [w'|] eqn:E;
      [|discriminate].
    simpl. intros [= <- <-]. apply get_or_create_inv in E.
    destruct (items w !! py_str py_repr pk) as [row|] eqn:El.
    + destruct E as [-> Hs]. left. split; [reflexivity|]. right. eauto.
    + right. repeat (split; [reflexivity|]). eexists. split; [exact E|].
      repeat split; reflexivity.
  - intros [= <- <-]. left. auto.
Qed.

Lemma upsert_parent_carried board source pk w ps w1 src sid :
  upsert_parent py_repr clock board source pk w = Ok (ps, w1) ->
  carried_blocked_since src sid w1 = carried_blocked_since src sid w.
Proof.
  intros H. apply upsert_parent_inv in H.
  destruct H as [[-> _]|(_ & _ & Hn & row & -> & _ & Hf & _)]; [reflexivity|].
  unfold carried_blocked_since.
  destruct (decide (py_str py_repr pk = sid)) as [<-|Hne].
  - rewrite save_item_same, Hn. simpl. rewrite Hf, andb_false_r. reflexivity.
  - rewrite save_item_other by exact Hne. reflexivity.
Qed.

Lemma upsert_parent_ticks board source pk w ps w1 :
  upsert_parent py_repr clock board source pk w = Ok (ps, w1) ->
  (ticks w <= ticks w1 <= S (ticks w))%nat.
Proof.
  intros H. apply upsert_parent_inv in H.
  destruct H as [[-> _]|(_ & _ & _ & row & -> & _)]; simpl; lia.
Qed.

End UpsertParentFacts.

Section JiraRunFacts.

Variable fromisoformat : string -> result DateTime.
Variable current_timezone : Z -> Z.
Variable py_repr : Json -> string.
Variable py_float : Json -> result PyFloat.
Variable clock : nat -> Z.
Variable root : Json.

Lemma carried_find_item sid w :
  carried_blocked_since Source_JIRA sid w
  = match find_item Source_JIRA sid w with
    | Some e => if wi_blocked_flag e then wi_blocked_since e else None
    | None => None
    end.
Proof.
  unfold carried_blocked_since, find_item.
  destruct (items w !! sid) as [e|]; [|reflexivity].
  destruct (String.eqb (wi_source e) Source_JIRA); reflexivity.
Qed.

Lemma jira_blocked_since_spec flag sid w bs w' :
  jira_blocked_since clock flag (find_item Source_JIRA sid w) w = (bs, w') ->
  items w' = items w
  /\ (flag = false -> bs = None /\ w' = w)
  /\ (flag = true ->
      match carried_blocked_since Source_JIRA sid w with
      | Some t => bs = Some t /\ w' = w
      | None => bs = Some (clock (ticks w)) /\ ticks w' = S (ticks w)
      end).
Proof.
  rewrite carried_find_item. unfold jira_blocked_since.
  destruct (find_item Source_JIRA sid w) as [e|].
  - destruct flag; simpl.
    + destruct (wi_blocked_flag e); simpl.
      * destruct (wi_blocked_since e); intros [= <- <-];
          (split; [reflexivity|]); (split; [discriminate|]); auto.
      * intros [= <- <-]. split; [reflexivity|]. split; [discriminate|]. auto.
    + intros [= <- <-]. split; [reflexivity|]. split; [auto | discriminate].
  - destruct flag; simpl; intros [= <- <-];
      (split; [reflexivity|]); split; auto; discriminate.
Qed.

Lemma jira_run_inv board rp v w c w' :
  rp_source rp = Source_JIRA ->
  rp_object_type rp = "issue" ->
  jira_values fromisoformat current_timezone py_repr py_float root (rp_payload rp)
  = Ok (Some v) ->
  jira_normalize_one fromisoformat current_timezone py_repr py_float clock root
                     board rp w = Ok (c, w') ->
  c = true
  /\ exists ps w1 bs w2,
       upsert_parent py_repr clock board Source_JIRA (jv_parent_key v) w
       = Ok (ps, w1)
       /\ jira_blocked_since clock (jv_blocked_flag v)
            (find_item Source_JIRA (py_str py_repr (jv_key v)) w1) w1 = (bs, w2)
       /\ update_or_create clock Source_JIRA (py_str py_repr (jv_key v))
            (jira_defaults board v ps bs) w2 = Ok w'.
Proof.
  intros Hs Ht Hv. unfold jira_normalize_one. rewrite Hs, Ht, Hv. simpl.
  destruct (upsert_parent py_repr clock board Source_JIRA (jv_parent_key v) w)
    as [[ps w1]|] eqn:Ep; [|discriminate]. simpl.
  destruct (jira_blocked_since clock (jv_blocked_flag v) _ w1) as [bs w2] eqn:Eb.
  destruct (update_or_create clock Source_JIRA _ _ w2) as [w3|] eqn:Eu;
    [|discriminate].
  simpl. intros [= <- <-]. split; [reflexivity|].
  exists ps, w1, bs, w2. auto.
Qed.

(** One run on a record with the values [v]: the row of the issue
    afterwards. *)
Lemma jira_run_row board rp v w c w' :
  rp_source rp = Source_JIRA ->
  rp_object_type rp = "issue" ->
  jira_values fromisoformat current_timezone py_repr py_float root (rp_payload rp)
  = Ok (Some v) ->
  jira_normalize_one fromisoformat current_timezone py_repr py_float clock root
                     board rp w = Ok (c, w') ->
  exists row,
    items w' !! py_str py_repr (jv_key v) = Some row
    /\ wi_source row = Source_JIRA
    /\ wi_blocked_flag row = jv_blocked_flag v
    /\ (ticks w < ticks w')%nat
    /\ (jv_blocked_flag v = false -> wi_blocked_since row = None)
    /\ (jv_blocked_flag v = true ->
        match carried_blocked_since Source_JIRA (py_str py_repr (jv_key v)) w with
        | Some t => wi_blocked_since row = Some t
        | None => exists k, (ticks w <= k < ticks w')%nat
                            /\ wi_blocked_since row = Some (clock k)
        end).
Proof.
  intros Hs Ht Hv Hr.
  destruct (jira_run_inv board rp v w c w' Hs Ht Hv Hr)
    as (_ & ps & w1 & bs & w2 & Hp & Hb & Hu).
  set (sid := py_str py_repr (jv_key v)) in *.
  pose proof (upsert_parent_ticks _ _ _ _ _ _ _ _ Hp) as Htk.
  pose proof (upsert_parent_carried _ _ _ _ _ _ _ _ Source_JIRA sid Hp) as Hc.
  apply jira_blocked_since_spec in Hb. destruct Hb as (Hi & Hf & Hb).
  apply update_or_create_inv in Hu. destruct Hu as (base & -> & Hbase).
  exists (set_last_synced (clock (ticks w2)) (jira_defaults board v ps bs base)).
  split; [apply save_item_same|].
  split.
  { simpl. destruct (items w2 !! sid) as [r|]; [destruct Hbase as [-> Hsrc]; exact Hsrc|].
    subst base. reflexivity. }
  split; [reflexivity|].
  rewrite save_item_ticks. simpl.
  destruct (jv_blocked_flag v).
  - specialize (Hb eq_refl). rewrite Hc in Hb.
    destruct (carried_blocked_since Source_JIRA sid w) as [t|].
    + destruct Hb as [-> ->]. split; [lia|]. split; [discriminate|]. auto.
    + destruct Hb as [-> Htk2]. split; [lia|]. split; [discriminate|].
      intros _. exists (ticks w1). split; [lia | reflexivity].
  - destruct (Hf eq_refl) as [-> ->]. split; [lia|]. split; [auto | discriminate].
Qed.

End JiraRunFacts.

Section BlockedSinceRuns.

Variable fromisoformat : string -> result DateTime.
Variable current_timezone : Z -> Z.
Variable py_repr : Json -> string.
Variable py_float : Json -> result PyFloat.
Variable clock : nat -> Z.
Variable root : Json.

Lemma carried_some source sid w t :
  carried_blocked_since source sid w = Some t <->
  exists e, items w !! sid = Some e /\ wi_source e = source
            /\ wi_blocked_flag e = true /\ wi_blocked_since e = Some t.
Proof.
  unfold carried_blocked_since. split.
  - destruct (items w !! sid) as [e|]; [|discriminate].
    destruct (String.eqb_spec (wi_source e) source); [|discriminate].
    destruct (wi_blocked_flag e) eqn:Ef; [|discriminate]. simpl.
    intros H. exists e. auto.
  - intros (e & -> & <- & -> & ->). rewrite String.eqb_refl. reflexivity.
Qed.

(** Runs on records of the issue that are blocked keep the value a
    blocked row carries. *)
Lemma jira_runs_keep board sid t (rps : list RawPayload) : forall w w2,
  Forall (fun rp => blocked_issue_of fromisoformat current_timezone py_repr
                      py_float root sid rp = true) rps ->
  carried_blocked_since Source_JIRA sid w = Some t ->
  jira_runs fromisoformat current_timezone py_repr py_float clock root
            board rps w = Ok w2 ->
  carried_blocked_since Source_JIRA sid w2 = Some t.
Proof.
  induction rps as [|rp rps IH]; intros w w2 Hall Hc Hr.
  - injection Hr as <-. exact Hc.
  - inversion Hall as [|? ? Hrp Hrest]; subst. cbn [jira_runs] in Hr.
    destruct (jira_normalize_one _ _ _ _ _ _ board rp w) as [[c w1]|] eqn:E1;
      [|discriminate]. cbn [bind snd] in Hr.
    unfold blocked_issue_of in Hrp.
    apply andb_prop in Hrp. destruct Hrp as [Hrp Hv].
    apply andb_prop in Hrp. destruct Hrp as [Hs Ht].
    apply String.eqb_eq in Hs. apply String.eqb_eq in Ht.
    destruct (jira_values _ _ _ _ root (rp_payload rp)) as [[v|]|] eqn:Ev;
      try discriminate.
    apply andb_prop in Hv. destruct Hv as [Hk Hf]. apply String.eqb_eq in Hk.
    destruct (jira_run_row _ _ _ _ _ _ board rp v w c w1 Hs Ht Ev E1)
      as (row & Hl & Hsrc & Hflag & _ & _ & Hb).
    rewrite Hk in *. rewrite Hf in *. specialize (Hb eq_refl). rewrite Hc in Hb.
    apply (IH w1 w2 Hrest); [|exact Hr].
    apply carried_some. exists row. auto.
Qed.

(** C2. A Jira normalization run on a record of an issue, followed by
    any number of runs on records of the same issue that are blocked.
    After the first run the row of the issue has the blocked flag of the
    record, and its [blocked_since] is null exactly when the flag is
    false. When the flag is true, [blocked_since] is the value the row
    carried if it was blocked with a value before the run, and else the
    reading of the clock taken during the run; and after the later runs
    the row is blocked with that same [blocked_since]. *)
Theorem jira_blocked_since_runs (board : Board) (rp : RawPayload)
    (v : JiraValues) (w w1 w2 : World) (c : bool) (rps : list RawPayload) :
  rp_source rp = Source_JIRA ->
  rp_object_type rp = "issue" ->
  jira_values fromisoformat current_timezone py_repr py_float root (rp_payload rp)
  = Ok (Some v) ->
  jira_normalize_one fromisoformat current_timezone py_repr py_float clock root
                     board rp w = Ok (c, w1) ->
  Forall (fun r => blocked_issue_of fromisoformat current_timezone py_repr
                     py_float root (py_str py_repr (jv_key v)) r = true) rps ->
  jira_runs fromisoformat current_timezone py_repr py_float clock root
            board rps w1 = Ok w2 ->
  exists row1,
    items w1 !! py_str py_repr (jv_key v) = Some row1
    /\ wi_blocked_flag row1 = jv_blocked_flag v
    /\ (wi_blocked_since row1 = None <-> jv_blocked_flag v = false)
    /\ (jv_blocked_flag v = true ->
        match carried_blocked_since Source_JIRA (py_str py_repr (jv_key v)) w with
        | Some t => wi_blocked_since row1 = Some t
        | None => exists k, (ticks w <= k < ticks w1)%nat
                            /\ wi_blocked_since row1 = Some (clock k)
        end
        /\ exists row2,
             items w2 !! py_str py_repr (jv_key v) = Some row2
             /\ wi_blocked_flag row2 = true
             /\ wi_blocked_since row2 = wi_blocked_since row1).
Proof.
  intros Hs Ht Hv H1 Hall H2.
  destruct (jira_run_row _ _ _ _ _ _ board rp v w c w1 Hs Ht Hv H1)
    as (row & Hl & Hsrc & Hflag & _ & Hf & Hb).
  exists row. split; [exact Hl|]. split; [exact Hflag|].
  assert (jv_blocked_flag v = true -> exists t, wi_blocked_since row = Some t) as Hsome.
  { intros Ht'. specialize (Hb Ht').
    destruct (carried_blocked_since _ _ w); [eauto|].
    destruct Hb as (k & _ & Hk). eauto. }
  split.
  - split.
    + intros Hn. destruct (jv_blocked_flag v); [|reflexivity].
      destruct (Hsome eq_refl) as [t Ht']. congruence.
    + exact Hf.
  - intros Htrue. split; [exact (Hb Htrue)|].
    destruct (Hsome Htrue) as [t Ht'].
    assert (carried_blocked_since Source_JIRA (py_str py_repr (jv_key v)) w1
            = Some t) as Hc1.
    { apply carried_some. exists row. rewrite Hflag. auto. }
    pose proof (jira_runs_keep board _ t rps w1 w2 Hall Hc1 H2) as Hc2.
    apply carried_some in Hc2. destruct Hc2 as (row2 & Hl2 & _ & Hf2 & Hs2).
    exists row2. rewrite Ht'. auto.
Qed.

End BlockedSinceRuns.

Lemma jira_blocked_since_runs_witness :
  let fiso := fun _ : string => @Raise DateTime ValueError in
  let ctz := fun _ : Z => 0 in
  let rep := fun _ : Json => "" in
  let pf := fun _ : Json => @Raise PyFloat ValueError in
  let clk := fun n : nat => 1000 + Z.of_nat n in
  let root := JDict [] in
  let board := mkBoard 1 None in
  let issue := fun title : string =>
    JDict [("key", JStr "PROJ-1");
           ("fields", JDict [("summary", JStr title);
                             ("status", JDict [("name", JStr "Blocked")])])] in
  let rp := mkRawPayload "jira" "issue" (issue "Fix it") in
  let rp' := mkRawPayload "jira" "issue" (issue "Fix it, now") in
  let w := mkWorld ∅ 0 in
  exists v w1 w2,
    jira_values fiso ctz rep pf root (rp_payload rp) = Ok (Some v)
    /\ py_str rep (jv_key v) = "PROJ-1"
    /\ jv_blocked_flag v = true
    /\ jira_normalize_one fiso ctz rep pf clk root board rp w = Ok (true, w1)
    /\ Forall (fun r => blocked_issue_of fiso ctz rep pf root "PROJ-1" r = true)
              [rp'; rp]
    /\ jira_runs fiso ctz rep pf clk root board [rp'; rp] w1 = Ok w2
    /\ exists row1 row2,
         items w1 !! "PROJ-1" = Some row1
         /\ items w2 !! "PROJ-1" = Some row2
         /\ wi_blocked_since row1 = Some 1000
         /\ wi_blocked_since row2 = Some 1000.
Proof.
  intros fiso ctz rep pf clk root board issue rp rp' w.
  assert (exists v, jira_values fiso ctz rep pf root (rp_payload rp) = Ok (Some v)
                    /\ py_str rep (jv_key v) = "PROJ-1"
                    /\ jv_blocked_flag v = true) as (v & Hv & Hk & Hf)
    by (eexists; split; [vm_compute; reflexivity | split; reflexivity]).
  assert (exists w1, jira_normalize_one fiso ctz rep pf clk root board rp w
                     = Ok (true, w1)
                     /\ carried_blocked_since Source_JIRA "PROJ-1" w = None
                     /\ ticks w1 = 2%nat
                     /\ exists w2, jira_runs fiso ctz rep pf clk root board
                                     [rp'; rp] w1 = Ok w2)
    as (w1 & H1 & Hc & Htk & w2 & H2).
  { eexists. split; [vm_compute; reflexivity|].
    split; [reflexivity|]. split; [reflexivity|].
    eexists. vm_compute. reflexivity. }
  assert (Forall (fun r => blocked_issue_of fiso ctz rep pf root "PROJ-1" r = true)
                 [rp'; rp]) as Hall
    by (repeat constructor; vm_compute; reflexivity).
  exists v, w1, w2.
  repeat (split; [assumption|]).
  pose proof Hall as Hall'. rewrite <- Hk in Hall'.
  destruct (jira_blocked_since_runs fiso ctz rep pf clk root board rp v w w1 w2
              true [rp'; rp] eq_refl eq_refl Hv H1 Hall' H2)
    as (row1 & Hl1 & _ & _ & Hb).
  destruct (Hb Hf) as [Hfresh (row2 & Hl2 & _ & Hs2)].
  rewrite Hk in *. rewrite Hc in Hfresh.
  destruct Hfresh as (k & Hk' & Hs1).
  exists row1, row2. split; [exact Hl1|]. split; [exact Hl2|].
  assert (wi_blocked_since row1 = Some 1000) as Hs.
  { revert Hl1 Hs1. clear -H1. intros Hl1 Hs1.
    assert (exists r, items w1 !! "PROJ-1" = Some r
                      /\ wi_blocked_since r = Some 1000) as (r & Hr & Hrs).
    { injection H1 as <-. eexists. split; vm_compute; reflexivity. }
    congruence. }
  split; [exact Hs | congruence].
Defined.

(** ** Normalizing a record twice *)

Lemma set_last_synced_id r : set_last_synced (wi_last_synced r) r = r.
Proof. destruct r; reflexivity. Qed.

Lemma same_rows_refl w : same_rows_but_stamp w w.
Proof.
  intros sid. destruct (items w !! sid) as [r|]; [|reflexivity].
  exists (wi_last_synced r). rewrite set_last_synced_id. reflexivity.
Qed.

Lemma same_rows_save clock sid r w :
  items w !! sid = Some r ->
  same_rows_but_stamp w (save_item clock sid r w).
Proof.
  intros H sid'. destruct (decide (sid = sid')) as [<-|Hne].
  - rewrite H, save_item_same. eauto.
  - rewrite save_item_other by exact Hne.
    destruct (items w !! sid') as [r'|]; [|reflexivity].
    exists (wi_last_synced r'). rewrite set_last_synced_id. reflexivity.
Qed.

Section TwiceFacts.

Variable fromisoformat : string -> result DateTime.
Variable current_timezone : Z -> Z.
Variable py_repr : Json -> string.
Variable py_float : Json -> result PyFloat.
Variable clock : nat -> Z.
Variable root : Json.

(** A record that is not counted leaves the database as it is. *)
Lemma jira_skip board rp w w1 :
  jira_normalize_one fromisoformat current_timezone py_repr py_float clock root
                     board rp w = Ok (false, w1) ->
  w1 = w
  /\ forall w', jira_normalize_one fromisoformat current_timezone py_repr
                  py_float clock root board rp w' = Ok (false, w').
Proof.
  unfold jira_normalize_one.
  destruct (negb (String.eqb (rp_source rp) Source_JIRA)
            || negb (String.eqb (rp_object_type rp) "issue")).
  - intros [= <-]. auto.
  - destruct (jira_values _ _ _ _ root (rp_payload rp)) as [[v|]|];
      [| intros [= <-]; auto | discriminate].
    simpl.
    destruct (upsert_parent _ _ _ _ _ w) as [[ps w0]|]; [|discriminate]. simpl.
    destruct (jira_blocked_since _ _ _ w0) as [bs w2].
    destruct (update_or_create _ _ _ _ w2); discriminate.
Qed.

Lemma jira_counted board rp w w1 :
  jira_normalize_one fromisoformat current_timezone py_repr py_float clock root
                     board rp w = Ok (true, w1) ->
  rp_source rp = Source_JIRA /\ rp_object_type rp = "issue"
  /\ exists v, jira_values fromisoformat current_timezone py_repr py_float root
                 (rp_payload rp) = Ok (Some v).
Proof.
  unfold jira_normalize_one.
  destruct (String.eqb_spec (rp_source rp) Source_JIRA); [|discriminate].
  destruct (String.eqb_spec (rp_object_type rp) "issue"); [|discriminate].
  simpl.
  destruct (jira_values _ _ _ _ root (rp_payload rp)) as [[v|]|];
    [eauto | discriminate | discriminate].
Qed.

(** The second run on a record that was counted. *)
Lemma jira_second_run board rp w w1 :
  jira_normalize_one fromisoformat current_timezone py_repr py_float clock root
                     board rp w = Ok (true, w1) ->
  exists sid r1,
    items w1 !! sid = Some r1 /\ wi_source r1 = Source_JIRA
    /\ jira_normalize_one fromisoformat current_timezone py_repr py_float clock
         root board rp w1 = Ok (true, save_item clock sid r1 w1).
Proof.
  intros H1. destruct (jira_counted board rp w w1 H1) as (Hs & Ht & v & Hv).
  destruct (jira_run_inv _ _ _ _ _ _ board rp v w true w1 Hs Ht Hv H1)
    as (_ & ps & wp & bs & wb & Hp & Hb & Hu).
  set (sid := py_str py_repr (jv_key v)) in *.
  pose proof Hb as Hb'. apply jira_blocked_since_spec in Hb'.
  destruct Hb' as (Hitems & Hfalse & Htrue).
  apply update_or_create_inv in Hu. destruct Hu as (base & -> & Hbase).
  set (r1 := set_last_synced (clock (ticks wb)) (jira_defaults board v ps bs base)).
  set (w1 := save_item clock sid (jira_defaults board v ps bs base) wb).
  assert (items w1 !! sid = Some r1) as Hl1 by apply save_item_same.
  assert (wi_source base = Source_JIRA) as Hsrc.
  { destruct (items wb !! sid); [destruct Hbase as [-> ?]; assumption|].
    subst base. reflexivity. }
  exists sid, r1. split; [exact Hl1|]. split; [exact Hsrc|].
  (* the parent exists in [w1] *)
  assert (upsert_parent py_repr clock board Source_JIRA (jv_parent_key v) w1
          = Ok (ps, w1)) as Hp1.
  { apply upsert_parent_inv in Hp. unfold upsert_parent.
    destruct Hp as [[-> [[Hpk ->]|(Hpk & -> & row & Hrow & Hrs)]]
                   |(Hpk & -> & Hn & row & -> & Hrs & _)];
      rewrite Hpk; simpl; [reflexivity| |].
    - unfold get_or_create.
      destruct (decide (sid = py_str py_repr (jv_parent_key v))) as [E|Hne].
      + rewrite <- E, Hl1. simpl. rewrite Hsrc. reflexivity.
      + unfold w1. rewrite save_item_other by exact Hne.
        rewrite Hitems, Hrow, Hrs. reflexivity.
    - unfold get_or_create.
      destruct (decide (sid = py_str py_repr (jv_parent_key v))) as [E|Hne].
      + rewrite <- E, Hl1. simpl. rewrite Hsrc. reflexivity.
      + unfold w1. rewrite save_item_other by exact Hne.
        rewrite Hitems, save_item_same. simpl. rewrite Hrs. reflexivity. }
  assert (jv_blocked_flag v = true -> exists t, bs = Some t) as Hsome.
  { intros Hf. specialize (Htrue Hf).
    destruct (carried_blocked_since Source_JIRA sid wp);
      destruct Htrue as [-> _]; eauto. }
  assert (jira_blocked_since clock (jv_blocked_flag v)
            (find_item Source_JIRA sid w1) w1 = (bs, w1)) as Hb1.
  { unfold find_item. rewrite Hl1. simpl. rewrite Hsrc. simpl.
    unfold jira_blocked_since. simpl.
    destruct (jv_blocked_flag v) eqn:Hf; simpl.
    - destruct (Hsome eq_refl) as [t ->]. reflexivity.
    - destruct (Hfalse eq_refl) as [-> _]. reflexivity. }
  unfold jira_normalize_one. rewrite Hs, Ht, Hv. simpl.
  fold sid. rewrite Hp1. simpl. rewrite Hb1.
  unfold update_or_create. rewrite Hl1. simpl. rewrite Hsrc. simpl.
  reflexivity.
Qed.

End TwiceFacts.

Section ClickUpTwiceFacts.

Variable fromisoformat : string -> result DateTime.
Variable current_timezone : Z -> Z.
Variable py_repr : Json -> string.
Variable py_float : Json -> result PyFloat.
Variable clock : nat -> Z.

Lemma clickup_skip pfn board rp w w1 :
  clickup_normalize_one fromisoformat current_timezone py_repr py_float clock
                        pfn board rp w = Ok (false, w1) ->
  w1 = w
  /\ forall w', clickup_normalize_one fromisoformat current_timezone py_repr
                  py_float clock pfn board rp w' = Ok (false, w').
Proof.
  unfold clickup_normalize_one.
  destruct (negb (String.eqb (rp_source rp) Source_CLICKUP)
            || negb (String.eqb (rp_object_type rp) "task")).
  - intros [= <-]. auto.
  - destruct (clickup_values _ _ _ _ pfn (rp_payload rp)) as [[v|]|];
      [| intros [= <-]; auto | discriminate].
    simpl. destruct (update_or_create _ _ _ _ w); discriminate.
Qed.

Lemma clickup_second_run pfn board rp w w1 :
  clickup_normalize_one fromisoformat current_timezone py_repr py_float clock
                        pfn board rp w = Ok (true, w1) ->
  exists sid r1,
    items w1 !! sid = Some r1 /\ wi_source r1 = Source_CLICKUP
    /\ clickup_normalize_one fromisoformat current_timezone py_repr py_float
         clock pfn board rp w1 = Ok (true, save_item clock sid r1 w1).
Proof.
  unfold clickup_normalize_one.
  destruct (negb (String.eqb (rp_source rp) Source_CLICKUP)
            || negb (String.eqb (rp_object_type rp) "task")); [discriminate|].
  destruct (clickup_values _ _ _ _ pfn (rp_payload rp)) as [[v|]|];
    [| discriminate | discriminate].
  simpl. set (sid := py_str py_repr (cv_tid v)).
  destruct (update_or_create clock Source_CLICKUP sid _ w) as [w'|] eqn:Eu;
    [|discriminate].
  simpl. intros [= <-].
  apply update_or_create_inv in Eu. destruct Eu as (base & -> & Hbase).
  set (r1 := set_last_synced (clock (ticks w)) (clickup_defaults board v base)).
  assert (wi_source base = Source_CLICKUP) as Hsrc.
  { destruct (items w !! sid); [destruct Hbase as [-> ?]; assumption|].
    subst base. reflexivity. }
  exists sid, r1. split; [apply save_item_same|]. split; [exact Hsrc|].
  unfold update_or_create. rewrite save_item_same. simpl. rewrite Hsrc. simpl.
  reflexivity.
Qed.

End ClickUpTwiceFacts.

Section Twice.

Variable fromisoformat : string -> result DateTime.
Variable current_timezone : Z -> Z.
Variable py_repr : Json -> string.
Variable py_float : Json -> result PyFloat.
Variable clock : nat -> Z.
Variable root : Json.

(** C3, as the code has it. When [normalize] of the Jira or ClickUp
    normalizer has processed a record, a second [normalize] of the same
    record succeeds with the same count, creates no row, and leaves every
    row as it was after the first run except for the [last_synced] stamp,
    which every save refreshes. A record that is counted has its row, of
    the source of the normalizer, and the second run writes that row
    again with the stamp of the clock at the second run. *)
Theorem normalize_twice (kind : NormalizerKind) (board : Board)
    (rp : RawPayload) (w w1 : World) (n : Z) :
  normalize_record fromisoformat current_timezone py_repr py_float clock root
                   kind board rp w = Ok (n, w1) ->
  exists w2,
    normalize_record fromisoformat current_timezone py_repr py_float clock root
                     kind board rp w1 = Ok (n, w2)
    /\ same_rows_but_stamp w1 w2
    /\ (n = 0 \/ n = 1)
    /\ (n = 0 -> w1 = w /\ w2 = w1)
    /\ (n = 1 ->
        exists sid r1,
          items w1 !! sid = Some r1
          /\ wi_source r1 = kind_source kind
          /\ items w2 = <[sid := set_last_synced (clock (ticks w1)) r1]> (items w1)).
Proof.
  destruct kind; unfold normalize_record.
  - unfold jira_normalize.
    destruct (jira_normalize_one _ _ _ _ _ _ board rp w) as [[c w']|] eqn:E1;
      [|discriminate].
    cbn [bind fst snd]. intros [= <- <-]. destruct c.
    + destruct (jira_second_run _ _ _ _ _ _ board rp w w' E1)
        as (sid & r1 & Hl & Hs & H2).
      exists (save_item clock sid r1 w'). rewrite H2. cbn [bind fst snd].
      split; [reflexivity|]. split; [apply same_rows_save, Hl|].
      split; [auto|]. split; [discriminate|].
      intros _. exists sid, r1. auto.
    + destruct (jira_skip _ _ _ _ _ _ board rp w w' E1) as [-> H2].
      exists w. rewrite H2. cbn [bind fst snd].
      split; [reflexivity|]. split; [apply same_rows_refl|].
      split; [auto|]. split; [auto | discriminate].
  - unfold clickup_normalize.
    destruct (points_field_name root) as [pfn|]; [|discriminate].
    cbn [bind clickup_loop].
    destruct (clickup_normalize_one _ _ _ _ _ pfn board rp w) as [[c w']|] eqn:E1;
      [|discriminate].
    cbn [bind fst snd]. intros [= <- <-]. destruct c.
    + destruct (clickup_second_run _ _ _ _ _ pfn board rp w w' E1)
        as (sid & r1 & Hl & Hs & H2).
      exists (save_item clock sid r1 w'). rewrite H2. cbn [bind fst snd].
      split; [reflexivity|]. split; [apply same_rows_save, Hl|].
      split; [auto|]. split; [discriminate|].
      intros _. exists sid, r1. auto.
    + destruct (clickup_skip _ _ _ _ _ pfn board rp w w' E1) as [-> H2].
      exists w. rewrite H2. cbn [bind fst snd].
      split; [reflexivity|]. split; [apply same_rows_refl|].
      split; [auto|]. split; [auto | discriminate].
Qed.

End Twice.

Lemma normalize_twice_witness :
  let fiso := fun _ : string => @Raise DateTime ValueError in
  let ctz := fun _ : Z => 0 in
  let rep := fun _ : Json => "" in
  let pf := fun j : Json => match j with
                            | JInt z => Ok (FFinite z 0)
                            | _ => Raise ValueError
                            end in
  let clk := fun n : nat => 1000 + Z.of_nat n in
  let root := JDict [] in
  let board := mkBoard 1 (Some "acme") in
  let task := JDict [("id", JStr "86a1b2c"); ("name", JStr "Bug: crash on save");
                     ("status", JDict [("status", JStr "in progress")]);
                     ("custom_fields",
                      JList [JDict [("name", JStr "Story Points");
                                    ("value", JInt 5)]])] in
  let rp := mkRawPayload "clickup" "task" task in
  let w := mkWorld ∅ 0 in
  exists w1,
    normalize_record fiso ctz rep pf clk root NClickUp board rp w = Ok (1, w1)
    /\ exists w2,
         normalize_record fiso ctz rep pf clk root NClickUp board rp w1
         = Ok (1, w2)
         /\ same_rows_but_stamp w1 w2.
Proof.
  intros fiso ctz rep pf clk root board task rp w.
  assert (exists w1, normalize_record fiso ctz rep pf clk root NClickUp board rp w
                     = Ok (1, w1)) as (w1 & H1)
    by (eexists; vm_compute; reflexivity).
  exists w1. split; [exact H1|].
  destruct (normalize_twice fiso ctz rep pf clk root NClickUp board rp w w1 1 H1)
    as (w2 & H2 & Hsame & _).
  exists w2. auto.
Defined.

(** C3, as the specification words it, fails: the second run of the Jira
    normalizer on the same record changes the [last_synced] field of the
    row. *)
Lemma normalize_twice_changes_stamp :
  let fiso := fun _ : string => @Raise DateTime ValueError in
  let ctz := fun _ : Z => 0 in
  let rep := fun _ : Json => "" in
  let pf := fun _ : Json => @Raise PyFloat ValueError in
  let clk := fun n : nat => 1000 + Z.of_nat n in
  let root := JDict [] in
  let board := mkBoard 1 None in
  let rp := mkRawPayload "jira" "issue"
              (JDict [("key", JStr "PROJ-1");
                      ("fields", JDict [("summary", JStr "Fix it")])]) in
  let w := mkWorld ∅ 0 in
  exists w1 w2 r1 r2,
    normalize_record fiso ctz rep pf clk root NJira board rp w = Ok (1, w1)
    /\ normalize_record fiso ctz rep pf clk root NJira board rp w1 = Ok (1, w2)
    /\ items w1 !! "PROJ-1" = Some r1
    /\ items w2 !! "PROJ-1" = Some r2
    /\ wi_last_synced r1 = 1000
    /\ wi_last_synced r2 = 1001
    /\ r1 <> r2.
Proof.
  intros fiso ctz rep pf clk root board rp w.
  eexists. eexists. eexists. eexists.
  split; [vm_compute; reflexivity|].
  split; [vm_compute; reflexivity|].
  split; [vm_compute; reflexivity|].
  split; [vm_compute; reflexivity|].
  split; [reflexivity|]. split; [reflexivity|].
  intros H. apply (f_equal wi_last_synced) in H. discriminate H.
Qed.
(** ** Remediation tickets: resolving and re-opening *)

Lemma first_latest_filter_nil (p : RemediationTicket -> bool) l : forall i,
  List.filter p l = [] -> first_latest p l i None = None.
Proof.
  induction l as [|t l IH]; intros i; simpl; [reflexivity|].
  destruct (p t); [discriminate | apply IH].
Qed.

Lemma open_for_done b w r now t : open_for b w r (set_done now t) = false.
Proof. unfold open_for. simpl. apply andb_false_r. Qed.

Lemma resolve_ticket_open_nil now b w r tbl b' w' r' :
  open_tickets b' w' r' tbl = [] ->
  open_tickets b' w' r' (resolve_ticket_if_any now b w r tbl) = [].
Proof.
  intros H.
  pose proof (resolve_ticket_open_le now b w r tbl b' w' r') as Hle.
  rewrite H in Hle. simpl in Hle.
  destruct (open_tickets b' w' r' (resolve_ticket_if_any now b w r tbl));
    [reflexivity | simpl in Hle; lia].
Qed.

Lemma resolve_ticket_closes_rows now b w r tbl :
  open_tickets b w r (resolve_ticket_if_any now b w r tbl) = []
  /\ forall now', resolve_ticket_if_any now' b w r
                    (resolve_ticket_if_any now b w r tbl)
                  = resolve_ticket_if_any now b w r tbl.
Proof.
  unfold open_tickets, resolve_ticket_if_any. split.
  - induction tbl as [|t tbl IH]; simpl; [reflexivity|].
    destruct (open_for b w r t) eqn:E.
    + rewrite open_for_done. exact IH.
    + rewrite E. exact IH.
  - intros now'. rewrite map_map. apply map_ext. intros t.
    destruct (open_for b w r t) eqn:E.
    + rewrite open_for_done. reflexivity.
    + rewrite E. reflexivity.
Qed.

(** X1. [resolve_ticket_if_any] leaves no non-done ticket of the key:
    each one becomes DONE with [resolved_at] the time of the call, every
    other row is left as it is and no row is added or removed. A
    further call for the key, at whatever time, changes nothing: the
    time a ticket was resolved at is not overwritten. *)
Theorem resolve_ticket_closes_key (now : Z) (board : Z)
    (work_item : option string) (rule_code : string) (tbl : TicketTable) :
  let tbl' := resolve_ticket_if_any now board work_item rule_code tbl in
  open_tickets board work_item rule_code tbl' = []
  /\ length tbl' = length tbl
  /\ (forall i t, tbl !! i = Some t ->
        tbl' !! i
        = Some (if open_for board work_item rule_code t
                then set_done now t else t))
  /\ (forall now', resolve_ticket_if_any now' board work_item rule_code tbl'
                   = tbl').
Proof.
  cbv zeta.
  destruct (resolve_ticket_closes_rows now board work_item rule_code tbl)
    as [Hnil Hidem].
  split; [exact Hnil|]. split; [apply length_map|].
  split; [|exact Hidem].
  intros i t H. unfold resolve_ticket_if_any.
  rewrite list_lookup_fmap, H. reflexivity.
Qed.

(** X2. When the violation comes back after its ticket was resolved,
    [open_ticket] does not re-open the resolved ticket: it adds a new
    OPEN row, created at the time of the call, and leaves every
    earlier row, the resolved ones included, as it is. *)
Theorem open_ticket_after_resolve (now now' : Z) (board : Z)
    (work_item : option string) (rule_code message : string) (meta : Json)
    (tbl : TicketTable) :
  let tbl1 := resolve_ticket_if_any now board work_item rule_code tbl in
  let rt := mkTicket board work_item rule_code message OPEN now' None
                     (py_or meta (JDict [])) in
  open_ticket now' board work_item rule_code message meta tbl1
  = (tbl1 ++ [rt], rt)
  /\ open_tickets board work_item rule_code (tbl1 ++ [rt]) = [rt].
Proof.
  cbv zeta.
  destruct (resolve_ticket_closes_rows now board work_item rule_code tbl)
    as (Hnil & _).
  split.
  - apply open_ticket_new, first_latest_filter_nil. exact Hnil.
  - unfold open_tickets in *. rewrite List.filter_app, Hnil. simpl.
    rewrite open_for_new. reflexivity.
Qed.

(** X3. What [open_ticket] never does: it removes no row and adds at
    most one; it changes no row that is not a non-done ticket of its
    key; and the row it refreshes keeps its key, its status, the time
    it was created at and the time it was resolved at. *)
Theorem open_ticket_frame (now : Z) (board : Z) (work_item : option string)
    (rule_code message : string) (meta : Json) (tbl : TicketTable) :
  let tbl' := fst (open_ticket now board work_item rule_code message meta tbl) in
  (length tbl <= length tbl' <= length tbl + 1)%nat
  /\ forall i t, tbl !! i = Some t ->
       exists t', tbl' !! i = Some t'
         /\ rt_board t' = rt_board t
         /\ rt_work_item t' = rt_work_item t
         /\ rt_rule_code t' = rt_rule_code t
         /\ rt_status t' = rt_status t
         /\ rt_created_at t' = rt_created_at t
         /\ rt_resolved_at t' = rt_resolved_at t
         /\ (open_for board work_item rule_code t = false -> t' = t).
Proof.
  cbv zeta.
  destruct (first_latest (open_for board work_item rule_code) tbl 0%nat None)
    as [[j rt]|] eqn:E.
  - rewrite (open_ticket_found _ _ _ _ _ _ _ _ _ E). simpl.
    apply first_latest_some in E.
    destruct E as [E | (_ & Hl & Hp)]; [discriminate|].
    rewrite Nat.sub_0_r in Hl.
    split; [rewrite length_insert; lia|].
    intros i t Ht. destruct (decide (i = j)) as [->|Hne].
    + assert (t = rt) as -> by congruence.
      exists (refreshed message (py_or meta (JDict [])) rt).
      split; [apply list_lookup_insert_eq; eapply lookup_lt_Some; eauto|].
      unfold refreshed.
      destruct (negb (String.eqb (rt_message rt) message));
        destruct (truthy (py_or meta (JDict [])) && _); simpl;
        repeat split; try reflexivity; congruence.
    + exists t. rewrite list_lookup_insert_ne by congruence.
      repeat split; auto.
  - rewrite (open_ticket_new _ _ _ _ _ _ _ E). simpl.
    split; [rewrite length_app; simpl; lia|].
    intros i t Ht. exists t.
    rewrite lookup_app_l by (eapply lookup_lt_Some; eauto).
    repeat split; auto.
Qed.
(** ** Validation rules: [validate_board] *)

Lemma resolve_ticket_other_key now b w r tbl b' w' r' :
  (b, w, r) <> (b', w', r') ->
  open_tickets b' w' r' (resolve_ticket_if_any now b w r tbl)
  = open_tickets b' w' r' tbl.
Proof.
  intros Hne. unfold open_tickets, resolve_ticket_if_any.
  induction tbl as [|t tbl IH]; simpl; [reflexivity|].
  destruct (open_for b w r t) eqn:E.
  - rewrite open_for_done.
    destruct (open_for b' w' r' t) eqn:E'; [|exact IH].
    destruct (open_for_key _ _ _ _ _ _ _ E E') as (-> & -> & ->).
    contradiction.
  - destruct (open_for b' w' r' t); rewrite IH; reflexivity.
Qed.

Lemma same_ticket_refl t : same_ticket t t.
Proof. repeat split. Qed.

Lemma same_ticket_trans t1 t2 t3 :
  same_ticket t1 t2 -> same_ticket t2 t3 -> same_ticket t1 t3.
Proof. unfold same_ticket. intuition congruence. Qed.

(** What one call of [open_ticket] does to a row. *)
Lemma open_ticket_lookup now b w r message meta tbl i t :
  tbl !! i = Some t ->
  exists t',
    fst (open_ticket now b w r message meta tbl) !! i = Some t'
    /\ same_ticket t t'
    /\ rt_status t' = rt_status t
    /\ rt_resolved_at t' = rt_resolved_at t
    /\ (truthy (py_or meta (JDict [])) = false -> rt_meta t' = rt_meta t)
    /\ (open_for b w r t = false -> t' = t).
Proof.
  intros Ht.
  destruct (first_latest (open_for b w r) tbl 0%nat None)
    as [[j rt]|] eqn:E.
  - rewrite (open_ticket_found _ _ _ _ _ _ _ _ _ E). simpl.
    apply first_latest_some in E.
    destruct E as [E | (_ & Hl & Hp)]; [discriminate|].
    rewrite Nat.sub_0_r in Hl.
    destruct (decide (i = j)) as [->|Hne].
    + assert (t = rt) as -> by congruence.
      exists (refreshed message (py_or meta (JDict [])) rt).
      split; [apply list_lookup_insert_eq; eapply lookup_lt_Some; eauto|].
      unfold refreshed, same_ticket.
      destruct (negb (String.eqb (rt_message rt) message));
        destruct (truthy (py_or meta (JDict []))) eqn:Em; simpl;
        try destruct (negb _); simpl;
        repeat split; try reflexivity; congruence.
    + exists t. rewrite list_lookup_insert_ne by congruence.
      split; [exact Ht|]. split; [apply same_ticket_refl|]. auto.
  - rewrite (open_ticket_new _ _ _ _ _ _ _ E). simpl.
    exists t. rewrite lookup_app_l by (eapply lookup_lt_Some; eauto).
    split; [exact Ht|]. split; [apply same_ticket_refl|]. auto.
Qed.

Lemma open_ticket_length now b w r message meta tbl :
  (length tbl <= length (fst (open_ticket now b w r message meta tbl))
   <= length tbl + 1)%nat.
Proof.
  unfold open_ticket.
  destruct (first_latest (open_for b w r) tbl 0%nat None) as [[j rt]|]; simpl.
  - rewrite length_insert. lia.
  - rewrite length_app. simpl. lia.
Qed.

Lemma advance_0 s : advance 0 s = s.
Proof. destruct s. reflexivity. Qed.

Section RunFacts.

Variable clock : nat -> Z.
Variable board : Board.
Variable code : string.

Let run := rule_run clock board code.

Lemma run_invariant items vs s s' :
  run items vs s s' ->
  ticket_invariant (tk_rows s) -> ticket_invariant (tk_rows s').
Proof.
  induction 1 as [s | wi r vs s k message s' _ IH | wi r vs s k s' _ IH];
    intros Hinv; [exact Hinv | |]; apply IH; simpl.
  - apply open_ticket_invariant, Hinv.
  - apply resolve_ticket_invariant, Hinv.
Qed.

(** A run leaves the non-done tickets of every key it does not serve as
    they are. *)
Lemma run_other items vs s s' b' w' r' :
  run items vs s s' ->
  (b' <> b_id board \/ r' <> code
   \/ forall wi, In wi items -> w' <> Some (wi_source_id wi)) ->
  open_tickets b' w' r' (tk_rows s') = open_tickets b' w' r' (tk_rows s).
Proof.
  induction 1 as [s | wi r vs s k message s' _ IH | wi r vs s k s' _ IH];
    intros Hk; [reflexivity | |].
  - rewrite IH by (destruct Hk as [?|[?|Hk]]; auto; right; right;
                   intros; apply Hk; right; assumption).
    simpl. apply open_ticket_other_key.
    intros [= <- <- <-].
    destruct Hk as [?|[?|Hk]]; [congruence | congruence |].
    apply (Hk wi); [left|]; reflexivity.
  - rewrite IH by (destruct Hk as [?|[?|Hk]]; auto; right; right;
                   intros; apply Hk; right; assumption).
    simpl. apply resolve_ticket_other_key.
    intros [= <- <- <-].
    destruct Hk as [?|[?|Hk]]; [congruence | congruence |].
    apply (Hk wi); [left|]; reflexivity.
Qed.

(** With distinct work items, the verdict on an item says whether it
    holds a non-done ticket of the rule at the end of the run. *)
Lemma run_verdicts items vs s s' :
  run items vs s s' ->
  NoDup (map wi_source_id items) ->
  Forall2 (fun wi v => has_open board code (tk_rows s') wi = v) items vs.
Proof.
  induction 1 as [s | wi r vs s k message s' Hr IH | wi r vs s k s' Hr IH];
    intros Hnd; [constructor | |];
    apply NoDup_cons in Hnd; destruct Hnd as [Hnin Hnd];
    (constructor; [|apply IH, Hnd]);
    unfold has_open;
    rewrite (run_other _ _ _ _ (b_id board) (Some (wi_source_id wi)) code Hr)
      by (right; right; intros wi' Hin [= Heq]; apply Hnin;
          rewrite Heq; apply list_elem_of_In, in_map, Hin);
    simpl.
  - pose proof (open_ticket_count (clock (k + tk_ticks s)) (b_id board)
                  (Some (wi_source_id wi)) code message JNull (tk_rows s)) as Hc.
    destruct (open_tickets _ _ _ (fst _)); [simpl in Hc; lia | reflexivity].
  - destruct (resolve_ticket_closes_rows (clock (k + tk_ticks s)) (b_id board)
               (Some (wi_source_id wi)) code (tk_rows s)) as [-> _].
    reflexivity.
Qed.

Lemma run_length items vs s s' :
  run items vs s s' -> length vs = length items.
Proof. induction 1; simpl; congruence. Qed.

(** What a run does to a row. *)
Lemma run_lookup items vs s s' :
  run items vs s s' ->
  forall i t, tk_rows s !! i = Some t ->
    exists t',
      tk_rows s' !! i = Some t'
      /\ same_ticket t t'
      /\ rt_meta t' = rt_meta t
      /\ ((forall wi, In wi items ->
             open_for (b_id board) (Some (wi_source_id wi)) code t = false) ->
          t' = t).
Proof.
  induction 1 as [s | wi r vs s k message s' _ IH | wi r vs s k s' _ IH];
    intros i t Ht.
  - exists t. split; [exact Ht|]. split; [apply same_ticket_refl|]. auto.
  - destruct (open_ticket_lookup (clock (k + tk_ticks s)) (b_id board)
                (Some (wi_source_id wi)) code message JNull _ _ _ Ht)
      as (t1 & H1 & Hs1 & _ & _ & Hm1 & Hu1).
    destruct (IH i t1 H1) as (t' & H' & Hs' & Hm' & Hu').
    exists t'. split; [exact H'|].
    split; [eapply same_ticket_trans; eauto|].
    split; [rewrite Hm'; apply Hm1; reflexivity|].
    intros Hall.
    assert (t1 = t) as -> by (apply Hu1, Hall; left; reflexivity).
    apply Hu'. intros wi' Hin. apply Hall. right. exact Hin.
  - assert (tk_rows (resolve_item clock board wi code (advance k s)) !! i
            = Some (if open_for (b_id board) (Some (wi_source_id wi)) code t
                    then set_done (clock (k + tk_ticks s)) t else t)) as H1.
    { simpl. unfold resolve_ticket_if_any.
      rewrite list_lookup_fmap, Ht. reflexivity. }
    destruct (IH i _ H1) as (t' & H' & Hs' & Hm' & Hu').
    exists t'. split; [exact H'|].
    split.
    { eapply same_ticket_trans; [|exact Hs'].
      destruct (open_for _ _ _ t); repeat split. }
    split.
    { rewrite Hm'. destruct (open_for _ _ _ t); reflexivity. }
    intros Hall.
    rewrite (Hall wi) in Hu' by (left; reflexivity).
    apply Hu'. intros wi' Hin. apply Hall. right. exact Hin.
Qed.

Lemma run_rows_length items vs s s' :
  run items vs s s' -> (length (tk_rows s) <= length (tk_rows s'))%nat.
Proof.
  induction 1 as [s | wi r vs s k message s' _ IH | wi r vs s k s' _ IH];
    [lia | |]; etransitivity; [|exact IH| |exact IH]; simpl.
  - apply open_ticket_length.
  - unfold resolve_ticket_if_any. rewrite length_map. lia.
Qed.

End RunFacts.
Lemma count_true_cons v vs :
  count_true (v :: vs) = (if v then 1 else 0) + count_true vs.
Proof. unfold count_true. destruct v; simpl List.filter; simpl length; lia. Qed.

Section RuleRuns.

Variable clock : nat -> Z.
Variable whole_days : Z -> Z.
Variable root : Json.
Variable VALIDATOR_DEFAULTS : Json.
Variable py_repr : Json -> string.
Variable board : Board.

(** The end of a step of a loop: the rest of the run is given by the
    induction hypothesis. *)
Ltac run_step IH n' s' ticks :=
  let vs := fresh "vs" in
  let Hr := fresh "Hr" in
  let Hc := fresh "Hc" in
  let Hp := fresh "Hp" in
  destruct (IH n' s') as (vs & Hr & Hc & Hp);
  eexists (_ :: vs);
  (split; [first [ eapply run_open with (k := ticks);
                   first [ rewrite advance_0; exact Hr | exact Hr ]
                 | eapply run_resolve with (k := ticks);
                   first [ rewrite advance_0; exact Hr | exact Hr ] ]
          | split; [rewrite count_true_cons, Hc; lia
                   | constructor; [|exact Hp]]]).

Lemma missing_points_run require_types ignore_subtasks items : forall n s,
  exists vs,
    rule_run clock board "MISSING_POINTS" items vs s
      (snd (missing_points_loop clock board require_types ignore_subtasks
                                items n s))
    /\ fst (missing_points_loop clock board require_types ignore_subtasks
                                items n s) = n + count_true vs
    /\ Forall2 (fun wi v => v = true -> justified "MISSING_POINTS" wi = true)
               items vs.
Proof.
  induction items as [|wi r IH]; intros n s; simpl.
  - exists []. split; [constructor|]. split; [unfold count_true; simpl; lia|].
    constructor.
  - destruct (ignore_subtasks && _).
    { run_step IH n (resolve_item clock board wi "MISSING_POINTS" s) 0%nat.
      discriminate. }
    destruct (negb (in_set _ _)).
    { run_step IH n (resolve_item clock board wi "MISSING_POINTS" s) 0%nat.
      discriminate. }
    destruct (started_without_points wi) eqn:E.
    + match goal with
      | |- context [missing_points_loop _ _ _ _ r (n + 1) ?s1] =>
          run_step IH (n + 1) s1 0%nat
      end.
      intros _. exact E.
    + run_step IH n (resolve_item clock board wi "MISSING_POINTS" s) 0%nat.
      discriminate.
Qed.

Lemma stuck_in_dev_run max_days items : forall n s,
  exists vs,
    rule_run clock board "STUCK_IN_DEV" items vs s
      (snd (stuck_in_dev_loop clock whole_days board max_days items n s))
    /\ fst (stuck_in_dev_loop clock whole_days board max_days items n s)
       = n + count_true vs
    /\ Forall2 (fun wi v => v = true -> justified "STUCK_IN_DEV" wi = true)
               items vs.
Proof.
  induction items as [|wi r IH]; intros n s; simpl.
  - exists []. split; [constructor|]. split; [unfold count_true; simpl; lia|].
    constructor.
  - destruct (dev_in_progress wi) eqn:E.
    + assert (exists d, wi_dev_started_at wi = Some d) as (d & Hd).
      { unfold dev_in_progress in E.
        destruct (wi_dev_started_at wi); [eauto | discriminate]. }
      rewrite Hd. simpl.
      destruct (_ >? max_days).
      * match goal with
        | |- context [stuck_in_dev_loop _ _ _ _ r (n + 1) ?s1] =>
            run_step IH (n + 1) s1 1%nat
        end.
        intros _. exact E.
      * match goal with
        | |- context [stuck_in_dev_loop _ _ _ _ r n ?s1] =>
            run_step IH n s1 1%nat
        end.
        discriminate.
    + run_step IH n (resolve_item clock board wi "STUCK_IN_DEV" s) 0%nat.
      discriminate.
Qed.

Lemma waiting_for_qa_run max_days items : forall n s,
  exists vs,
    rule_run clock board "WAITING_FOR_QA" items vs s
      (snd (waiting_for_qa_loop clock whole_days board max_days items n s))
    /\ fst (waiting_for_qa_loop clock whole_days board max_days items n s)
       = n + count_true vs
    /\ Forall2 (fun wi v => v = true -> justified "WAITING_FOR_QA" wi = true)
               items vs.
Proof.
  induction items as [|wi r IH]; intros n s; simpl.
  - exists []. split; [constructor|]. split; [unfold count_true; simpl; lia|].
    constructor.
  - destruct (waiting_for_qa wi) eqn:E.
    + assert (exists d, wi_ready_for_qa_at wi = Some d) as (d & Hd).
      { unfold waiting_for_qa in E.
        destruct (wi_ready_for_qa_at wi); [eauto | discriminate]. }
      rewrite Hd. simpl.
      destruct (_ >? max_days).
      * match goal with
        | |- context [waiting_for_qa_loop _ _ _ _ r (n + 1) ?s1] =>
            run_step IH (n + 1) s1 1%nat
        end.
        intros _. exact E.
      * match goal with
        | |- context [waiting_for_qa_loop _ _ _ _ r n ?s1] =>
            run_step IH n s1 1%nat
        end.
        discriminate.
    + run_step IH n (resolve_item clock board wi "WAITING_FOR_QA" s) 0%nat.
      discriminate.
Qed.

Lemma stuck_in_qa_run max_days items : forall n s,
  exists vs,
    rule_run clock board "STUCK_IN_QA" items vs s
      (snd (stuck_in_qa_loop clock whole_days board max_days items n s))
    /\ fst (stuck_in_qa_loop clock whole_days board max_days items n s)
       = n + count_true vs
    /\ Forall2 (fun wi v => v = true -> justified "STUCK_IN_QA" wi = true)
               items vs.
Proof.
  induction items as [|wi r IH]; intros n s; simpl.
  - exists []. split; [constructor|]. split; [unfold count_true; simpl; lia|].
    constructor.
  - destruct (qa_in_progress wi) eqn:E.
    + assert (exists d, wi_qa_started_at wi = Some d) as (d & Hd).
      { unfold qa_in_progress in E.
        destruct (wi_qa_started_at wi); [eauto | discriminate]. }
      rewrite Hd. simpl.
      destruct (_ >? max_days).
      * match goal with
        | |- context [stuck_in_qa_loop _ _ _ _ r (n + 1) ?s1] =>
            run_step IH (n + 1) s1 1%nat
        end.
        intros _. exact E.
      * match goal with
        | |- context [stuck_in_qa_loop _ _ _ _ r n ?s1] =>
            run_step IH n s1 1%nat
        end.
        discriminate.
    + run_step IH n (resolve_item clock board wi "STUCK_IN_QA" s) 0%nat.
      discriminate.
Qed.

Lemma blocked_reason_run items : forall n s,
  exists vs,
    rule_run clock board "BLOCKED_NO_REASON" items vs s
      (snd (blocked_reason_loop clock board items n s))
    /\ fst (blocked_reason_loop clock board items n s) = n + count_true vs
    /\ Forall2 (fun wi v => v = blocked_without_reason wi) items vs.
Proof.
  induction items as [|wi r IH]; intros n s; simpl.
  - exists []. split; [constructor|]. split; [unfold count_true; simpl; lia|].
    constructor.
  - destruct (blocked_without_reason wi) eqn:E.
    + match goal with
      | |- context [blocked_reason_loop _ _ r (n + 1) ?s1] =>
          run_step IH (n + 1) s1 0%nat
      end.
      symmetry. exact E.
    + run_step IH n (resolve_item clock board wi "BLOCKED_NO_REASON" s) 0%nat.
      symmetry. exact E.
Qed.

Lemma pr_required_run require_types keywords items : forall n s n' s',
  pr_required_loop clock py_repr board require_types keywords items n s
  = Ok (n', s') ->
  exists vs,
    rule_run clock board "PR_REQUIRED" items vs s s'
    /\ n' = n + count_true vs
    /\ Forall2 (fun wi v => v = true -> justified "PR_REQUIRED" wi = true)
               items vs.
Proof.
  induction items as [|wi r IH]; intros n s n' s'; simpl.
  - intros [= <- <-]. exists []. split; [constructor|].
    split; [unfold count_true; simpl; lia|]. constructor.
  - destruct (negb (in_set _ _)).
    { intros H. destruct (IH _ _ _ _ H) as (vs & Hr & Hc & Hp).
      exists (false :: vs).
      split; [eapply run_resolve with (k := 0%nat); rewrite advance_0; exact Hr|].
      split; [rewrite count_true_cons; lia|].
      constructor; [discriminate | exact Hp]. }
    destruct (py_lower_obj _) as [status|e]; cbn [bind]; [|discriminate].
    destruct (existsb _ keywords && negb (truthy (wi_linked_prs wi))) eqn:E.
    + intros H. destruct (IH _ _ _ _ H) as (vs & Hr & Hc & Hp).
      exists (true :: vs).
      split; [eapply run_open with (k := 0%nat); rewrite advance_0; exact Hr|].
      split; [rewrite count_true_cons; lia|].
      constructor; [|exact Hp].
      intros _. apply andb_prop in E. apply E.
    + intros H. destruct (IH _ _ _ _ H) as (vs & Hr & Hc & Hp).
      exists (false :: vs).
      split; [eapply run_resolve with (k := 0%nat); rewrite advance_0; exact Hr|].
      split; [rewrite count_true_cons; lia|].
      constructor; [discriminate | exact Hp].
Qed.

Let validate := validate_board clock whole_days root VALIDATOR_DEFAULTS py_repr.

(** A run of [validate_board] is a run of each of the six rules, in the
    order of [ALL_RULES]. *)
Lemma validate_board_runs items s res s' :
  validate board items s = Ok (res, s') ->
  exists v1 v2 v3 v4 v5 v6 s1 s2 s3 s4 s5,
    rule_run clock board "MISSING_POINTS" items v1 s s1
    /\ rule_run clock board "STUCK_IN_DEV" items v2 s1 s2
    /\ rule_run clock board "WAITING_FOR_QA" items v3 s2 s3
    /\ rule_run clock board "STUCK_IN_QA" items v4 s3 s4
    /\ rule_run clock board "BLOCKED_NO_REASON" items v5 s4 s5
    /\ rule_run clock board "PR_REQUIRED" items v6 s5 s'
    /\ res = [ ("MISSING_POINTS", count_true v1);
               ("STUCK_IN_DEV", count_true v2);
               ("WAITING_FOR_QA", count_true v3);
               ("STUCK_IN_QA", count_true v4);
               ("BLOCKED_NO_REASON", count_true v5);
               ("PR_REQUIRED", count_true v6) ]
    /\ Forall2 (fun wi v => v = true -> justified "MISSING_POINTS" wi = true)
               items v1
    /\ Forall2 (fun wi v => v = true -> justified "STUCK_IN_DEV" wi = true)
               items v2
    /\ Forall2 (fun wi v => v = true -> justified "WAITING_FOR_QA" wi = true)
               items v3
    /\ Forall2 (fun wi v => v = true -> justified "STUCK_IN_QA" wi = true)
               items v4
    /\ Forall2 (fun wi v => v = blocked_without_reason wi) items v5
    /\ Forall2 (fun wi v => v = true -> justified "PR_REQUIRED" wi = true)
               items v6.
Proof.
  unfold validate, validate_board, ALL_RULES. cbn [run_rules].
  intros H.
  destruct (rule_missing_points _ _ _ _ _ _) as [[n1 s1]|] eqn:E1;
    cbn [bind fst snd] in H; [|discriminate].
  destruct (rule_stuck_in_dev _ _ _ _ _ _ _) as [[n2 s2]|] eqn:E2;
    cbn [bind fst snd] in H; [|discriminate].
  destruct (rule_waiting_for_qa _ _ _ _ _ _ _) as [[n3 s3]|] eqn:E3;
    cbn [bind fst snd] in H; [|discriminate].
  destruct (rule_stuck_in_qa _ _ _ _ _ _ _) as [[n4 s4]|] eqn:E4;
    cbn [bind fst snd] in H; [|discriminate].
  destruct (rule_blocked_reason _ _ _ _) as [[n5 s5]|] eqn:E5;
    cbn [bind fst snd] in H; [|discriminate].
  destruct (rule_pr_required _ _ _ _ _ _ _) as [[n6 s6]|] eqn:E6;
    cbn [bind fst snd] in H; [|discriminate].
  injection H as <- <-.
  (* each rule is a run *)
  unfold rule_missing_points in E1. bind_inv E1. injection E1 as E1.
  unfold rule_stuck_in_dev in E2. bind_inv E2. injection E2 as E2.
  unfold rule_waiting_for_qa in E3. bind_inv E3. injection E3 as E3.
  unfold rule_stuck_in_qa in E4. bind_inv E4. injection E4 as E4.
  unfold rule_blocked_reason in E5. injection E5 as E5.
  unfold rule_pr_required in E6. bind_inv E6.
  match type of E1 with
  | missing_points_loop _ _ ?rt ?ig _ _ _ = _ =>
      destruct (missing_points_run rt ig items 0 s) as (v1 & R1 & C1 & P1)
  end.
  rewrite E1 in R1, C1. cbn [fst snd] in R1, C1.
  match type of E2 with
  | stuck_in_dev_loop _ _ _ ?m _ _ _ = _ =>
      destruct (stuck_in_dev_run m items 0 s1) as (v2 & R2 & C2 & P2)
  end.
  rewrite E2 in R2, C2. cbn [fst snd] in R2, C2.
  match type of E3 with
  | waiting_for_qa_loop _ _ _ ?m _ _ _ = _ =>
      destruct (waiting_for_qa_run m items 0 s2) as (v3 & R3 & C3 & P3)
  end.
  rewrite E3 in R3, C3. cbn [fst snd] in R3, C3.
  match type of E4 with
  | stuck_in_qa_loop _ _ _ ?m _ _ _ = _ =>
      destruct (stuck_in_qa_run m items 0 s3) as (v4 & R4 & C4 & P4)
  end.
  rewrite E4 in R4, C4. cbn [fst snd] in R4, C4.
  destruct (blocked_reason_run items 0 s4) as (v5 & R5 & C5 & P5).
  rewrite E5 in R5, C5. cbn [fst snd] in R5, C5.
  destruct (pr_required_run _ _ _ _ _ _ _ E6) as (v6 & R6 & C6 & P6).
  exists v1, v2, v3, v4, v5, v6, s1, s2, s3, s4, s5.
  repeat match goal with |- _ /\ _ => split end; auto.
  rewrite C1, C2, C3, C4, C5, C6. reflexivity.
Qed.

End RuleRuns.
Lemma rows_kept_trans board items codes t1 t2 t3 :
  rows_kept board items codes t1 t2 -> rows_kept board items codes t2 t3 ->
  rows_kept board items codes t1 t3.
Proof.
  intros H12 H23 i t Ht.
  destruct (H12 i t Ht) as (t' & Ht' & Hs & Hm & Hu).
  destruct (H23 i t' Ht') as (t'' & Ht'' & Hs' & Hm' & Hu').
  exists t''. split; [exact Ht''|].
  split; [eapply same_ticket_trans; eauto|].
  split; [congruence|].
  intros Hall. assert (t' = t) as -> by (apply Hu, Hall).
  apply Hu', Hall.
Qed.

Lemma rows_kept_run clock board code items vs s s' codes :
  rule_run clock board code items vs s s' -> In code codes ->
  rows_kept board items codes (tk_rows s) (tk_rows s').
Proof.
  intros Hr Hin i t Ht.
  destruct (run_lookup _ _ _ _ _ _ _ Hr i t Ht) as (t' & Ht' & Hs & Hm & Hu).
  exists t'. split; [exact Ht'|]. split; [exact Hs|]. split; [exact Hm|].
  intros Hall. apply Hu. intros wi Hwi. apply Hall; assumption.
Qed.

Lemma has_open_run_other clock board code items vs s s' code' wi :
  rule_run clock board code items vs s s' -> code' <> code ->
  has_open board code' (tk_rows s') wi = has_open board code' (tk_rows s) wi.
Proof.
  intros Hr Hne. unfold has_open.
  rewrite (run_other _ _ _ _ _ _ _ (b_id board) (Some (wi_source_id wi))
             code' Hr) by (right; left; exact Hne).
  reflexivity.
Qed.

Lemma count_true_filter {A : Type} (f : A -> bool) (l : list A) vs :
  Forall2 (fun x v => f x = v) l vs ->
  count_true vs = Z.of_nat (length (List.filter f l)).
Proof.
  induction 1 as [|x v l vs Hx _ IH]; [reflexivity|].
  rewrite count_true_cons, IH. simpl. rewrite Hx.
  destruct v; simpl length; lia.
Qed.

Lemma Forall2_In_l {A B : Type} (P : A -> B -> Prop) l vs x :
  Forall2 P l vs -> In x l -> exists v, P x v.
Proof.
  induction 1 as [|y v l vs Hy _ IH]; intros Hin; [destruct Hin|].
  destruct Hin as [->|Hin]; eauto.
Qed.

Lemma Forall2_and {A B : Type} (P Q : A -> B -> Prop) l vs :
  Forall2 P l vs -> Forall2 Q l vs -> Forall2 (fun x v => P x v /\ Q x v) l vs.
Proof.
  induction 1 as [|y v l vs Hy _ IH]; intros HQ; inversion HQ; subst;
    constructor; auto.
Qed.

Lemma Forall2_imp {A B : Type} (P Q : A -> B -> Prop) l vs :
  (forall x v, P x v -> Q x v) -> Forall2 P l vs -> Forall2 Q l vs.
Proof. intros H. induction 1; constructor; auto. Qed.

Section ValidateBoard.

Variable clock : nat -> Z.
Variable whole_days : Z -> Z.
Variable root : Json.
Variable VALIDATOR_DEFAULTS : Json.
Variable py_repr : Json -> string.

Let validate := validate_board clock whole_days root VALIDATOR_DEFAULTS py_repr.

(** What the six runs leave, verdict by verdict. *)
Lemma validate_board_verdicts board items s res s' :
  validate board items s = Ok (res, s') ->
  NoDup (map wi_source_id items) ->
  exists cvs : list (string * list bool),
    map fst cvs = RULE_CODES
    /\ res = map (fun cv => (fst cv, count_true (snd cv))) cvs
    /\ forall code vs, In (code, vs) cvs ->
         Forall2 (fun wi v =>
                    has_open board code (tk_rows s') wi = v
                    /\ (v = true -> justified code wi = true)
                    /\ (code = "BLOCKED_NO_REASON" ->
                        v = blocked_without_reason wi))
                 items vs.
Proof.
  intros H Hnd.
  destruct (validate_board_runs _ _ _ _ _ _ _ _ _ _ H)
    as (v1 & v2 & v3 & v4 & v5 & v6 & s1 & s2 & s3 & s4 & s5
        & R1 & R2 & R3 & R4 & R5 & R6 & -> & P1 & P2 & P3 & P4 & P5 & P6).
  exists [ ("MISSING_POINTS", v1); ("STUCK_IN_DEV", v2);
           ("WAITING_FOR_QA", v3); ("STUCK_IN_QA", v4);
           ("BLOCKED_NO_REASON", v5); ("PR_REQUIRED", v6) ].
  split; [reflexivity|]. split; [reflexivity|].
  pose proof (run_verdicts _ _ _ _ _ _ _ R1 Hnd) as V1.
  pose proof (run_verdicts _ _ _ _ _ _ _ R2 Hnd) as V2.
  pose proof (run_verdicts _ _ _ _ _ _ _ R3 Hnd) as V3.
  pose proof (run_verdicts _ _ _ _ _ _ _ R4 Hnd) as V4.
  pose proof (run_verdicts _ _ _ _ _ _ _ R5 Hnd) as V5.
  pose proof (run_verdicts _ _ _ _ _ _ _ R6 Hnd) as V6.
  assert (forall c c' : string, (c =? c')%string = false -> c <> c') as Hneq
    by (intros c c' Hf ->; rewrite String.eqb_refl in Hf; discriminate).
  intros code vs Hin.
  repeat (destruct Hin as [[= <- <-]|Hin]); [| | | | | |destruct Hin].
  - apply Forall2_and; [|apply Forall2_and].
    + eapply Forall2_imp; [|exact V1]. intros wi v <-.
      rewrite (has_open_run_other _ _ _ _ _ _ _ _ wi R6) by (apply Hneq; reflexivity).
      rewrite (has_open_run_other _ _ _ _ _ _ _ _ wi R5) by (apply Hneq; reflexivity).
      rewrite (has_open_run_other _ _ _ _ _ _ _ _ wi R4) by (apply Hneq; reflexivity).
      rewrite (has_open_run_other _ _ _ _ _ _ _ _ wi R3) by (apply Hneq; reflexivity).
      rewrite (has_open_run_other _ _ _ _ _ _ _ _ wi R2) by (apply Hneq; reflexivity).
      reflexivity.
    + exact P1.
    + eapply Forall2_imp; [|exact P1]. intros wi v _ Hc. discriminate Hc.
  - apply Forall2_and; [|apply Forall2_and].
    + eapply Forall2_imp; [|exact V2]. intros wi v <-.
      rewrite (has_open_run_other _ _ _ _ _ _ _ _ wi R6) by (apply Hneq; reflexivity).
      rewrite (has_open_run_other _ _ _ _ _ _ _ _ wi R5) by (apply Hneq; reflexivity).
      rewrite (has_open_run_other _ _ _ _ _ _ _ _ wi R4) by (apply Hneq; reflexivity).
      rewrite (has_open_run_other _ _ _ _ _ _ _ _ wi R3) by (apply Hneq; reflexivity).
      reflexivity.
    + exact P2.
    + eapply Forall2_imp; [|exact P2]. intros wi v _ Hc. discriminate Hc.
  - apply Forall2_and; [|apply Forall2_and].
    + eapply Forall2_imp; [|exact V3]. intros wi v <-.
      rewrite (has_open_run_other _ _ _ _ _ _ _ _ wi R6) by (apply Hneq; reflexivity).
      rewrite (has_open_run_other _ _ _ _ _ _ _ _ wi R5) by (apply Hneq; reflexivity).
      rewrite (has_open_run_other _ _ _ _ _ _ _ _ wi R4) by (apply Hneq; reflexivity).
      reflexivity.
    + exact P3.
    + eapply Forall2_imp; [|exact P3]. intros wi v _ Hc. discriminate Hc.
  - apply Forall2_and; [|apply Forall2_and].
    + eapply Forall2_imp; [|exact V4]. intros wi v <-.
      rewrite (has_open_run_other _ _ _ _ _ _ _ _ wi R6) by (apply Hneq; reflexivity).
      rewrite (has_open_run_other _ _ _ _ _ _ _ _ wi R5) by (apply Hneq; reflexivity).
      reflexivity.
    + exact P4.
    + eapply Forall2_imp; [|exact P4]. intros wi v _ Hc. discriminate Hc.
  - apply Forall2_and; [|apply Forall2_and].
    + eapply Forall2_imp; [|exact V5]. intros wi v <-.
      rewrite (has_open_run_other _ _ _ _ _ _ _ _ wi R6) by (apply Hneq; reflexivity).
      reflexivity.
    + eapply Forall2_imp; [|exact P5]. intros wi v -> Hb. exact Hb.
    + eapply Forall2_imp; [|exact P5]. intros wi v -> _. reflexivity.
  - apply Forall2_and; [|apply Forall2_and].
    + exact V6.
    + exact P6.
    + eapply Forall2_imp; [|exact P6]. intros wi v _ Hc. discriminate Hc.
Qed.

(** X4. A validation run keeps the invariant of the ticket table: when
    no key (board, work item, rule code) has more than one non-done
    ticket before [validate_board], none has afterwards. *)
Theorem validate_board_keeps_invariant (board : Board)
    (items : list WorkItem) (s : Tickets) (res : list (string * Z))
    (s' : Tickets) :
  validate board items s = Ok (res, s') ->
  ticket_invariant (tk_rows s) ->
  ticket_invariant (tk_rows s').
Proof.
  intros H Hinv.
  destruct (validate_board_runs _ _ _ _ _ _ _ _ _ _ H)
    as (v1 & v2 & v3 & v4 & v5 & v6 & s1 & s2 & s3 & s4 & s5
        & R1 & R2 & R3 & R4 & R5 & R6 & _).
  eapply run_invariant; [exact R6|].
  eapply run_invariant; [exact R5|].
  eapply run_invariant; [exact R4|].
  eapply run_invariant; [exact R3|].
  eapply run_invariant; [exact R2|].
  eapply run_invariant; [exact R1|].
  exact Hinv.
Qed.

(** X5. What a validation run never does. It deletes no ticket; it
    changes neither the board, the work item, the rule code, the
    creation time nor the [meta] of a ticket; and it leaves a ticket
    entirely as it is when the ticket belongs to another board, has a
    rule code that is not one of the six rules, is done already, or is
    attached to no work item of the run. *)
Theorem validate_board_frame (board : Board) (items : list WorkItem)
    (s : Tickets) (res : list (string * Z)) (s' : Tickets) :
  validate board items s = Ok (res, s') ->
  (length (tk_rows s) <= length (tk_rows s'))%nat
  /\ forall i t, tk_rows s !! i = Some t ->
       exists t',
         tk_rows s' !! i = Some t'
         /\ rt_board t' = rt_board t
         /\ rt_work_item t' = rt_work_item t
         /\ rt_rule_code t' = rt_rule_code t
         /\ rt_created_at t' = rt_created_at t
         /\ rt_meta t' = rt_meta t
         /\ (rt_board t <> b_id board
             \/ ~ In (rt_rule_code t) RULE_CODES
             \/ rt_status t = DONE
             \/ (forall wi, In wi items ->
                   rt_work_item t <> Some (wi_source_id wi)) ->
             t' = t).
Proof.
  intros H.
  destruct (validate_board_runs _ _ _ _ _ _ _ _ _ _ H)
    as (v1 & v2 & v3 & v4 & v5 & v6 & s1 & s2 & s3 & s4 & s5
        & R1 & R2 & R3 & R4 & R5 & R6 & _).
  split.
  { pose proof (run_rows_length _ _ _ _ _ _ _ R1).
    pose proof (run_rows_length _ _ _ _ _ _ _ R2).
    pose proof (run_rows_length _ _ _ _ _ _ _ R3).
    pose proof (run_rows_length _ _ _ _ _ _ _ R4).
    pose proof (run_rows_length _ _ _ _ _ _ _ R5).
    pose proof (run_rows_length _ _ _ _ _ _ _ R6). lia. }
  assert (rows_kept board items RULE_CODES (tk_rows s) (tk_rows s')) as Hk.
  { eapply rows_kept_trans;
      [eapply rows_kept_run; [exact R1 | simpl; tauto]|].
    eapply rows_kept_trans;
      [eapply rows_kept_run; [exact R2 | simpl; tauto]|].
    eapply rows_kept_trans;
      [eapply rows_kept_run; [exact R3 | simpl; tauto]|].
    eapply rows_kept_trans;
      [eapply rows_kept_run; [exact R4 | simpl; tauto]|].
    eapply rows_kept_trans;
      [eapply rows_kept_run; [exact R5 | simpl; tauto]|].
    eapply rows_kept_run; [exact R6 | simpl; tauto]. }
  intros i t Ht.
  destruct (Hk i t Ht) as (t' & Ht' & (Hb & Hw & Hr & Hc) & Hm & Hu).
  exists t'. repeat (split; [assumption|]).
  intros Hcond. apply Hu. intros code wi Hcode Hwi. unfold open_for.
  destruct Hcond as [Hc1 | [Hc2 | [Hc3 | Hc4]]].
  - apply Z.eqb_neq in Hc1. rewrite Hc1. reflexivity.
  - assert (String.eqb (rt_rule_code t) code = false) as ->.
    { apply String.eqb_neq. intros Heq. apply Hc2. rewrite Heq. exact Hcode. }
    rewrite andb_false_r. reflexivity.
  - rewrite Hc3. apply andb_false_r.
  - assert (opt_str_eqb (rt_work_item t) (Some (wi_source_id wi)) = false) as ->.
    { destruct (opt_str_eqb _ _) eqn:E; [|reflexivity].
      apply opt_str_eqb_eq in E. destruct (Hc4 wi Hwi E). }
    rewrite andb_false_r. reflexivity.
Qed.

(** X6. The numbers [validate_board] reports. The result lists the six
    rule codes in the order of [ALL_RULES], and, the work items being
    distinct, the number reported for a rule is the number of work
    items of the run that hold a non-done ticket of that rule when the
    run is over. *)
Theorem validate_board_counts (board : Board) (items : list WorkItem)
    (s : Tickets) (res : list (string * Z)) (s' : Tickets) :
  validate board items s = Ok (res, s') ->
  NoDup (map wi_source_id items) ->
  map fst res = RULE_CODES
  /\ forall code n, In (code, n) res ->
       n = Z.of_nat
             (length (List.filter (has_open board code (tk_rows s')) items)).
Proof.
  intros H Hnd.
  destruct (validate_board_verdicts _ _ _ _ _ H Hnd) as (cvs & Hc & -> & Hv).
  split.
  - rewrite map_map. simpl. exact Hc.
  - intros code n Hin. apply in_map_iff in Hin.
    destruct Hin as ([c vs] & [= <- <-] & Hin). simpl.
    apply count_true_filter.
    eapply Forall2_imp; [|exact (Hv c vs Hin)].
    intros wi v (Hh & _). exact Hh.
Qed.

(** X7. After a validation run over distinct work items, every non-done
    ticket of one of the six rules on a work item of the run is
    justified by the fields of the item: MISSING_POINTS by a dev start
    without story points, STUCK_IN_DEV by dev work begun, not finished
    and not closed, WAITING_FOR_QA by an item ready for QA, not yet in
    QA and not closed, STUCK_IN_QA by QA begun and neither verified,
    signed off nor done, PR_REQUIRED by the absence of linked PRs.
    BLOCKED_NO_REASON is exact: an item of the run holds such a ticket
    if and only if it is blocked and its reason is blank. *)
Theorem validate_board_tickets_justified (board : Board)
    (items : list WorkItem) (s : Tickets) (res : list (string * Z))
    (s' : Tickets) (wi : WorkItem) :
  validate board items s = Ok (res, s') ->
  NoDup (map wi_source_id items) ->
  In wi items ->
  (forall code, In code RULE_CODES ->
     has_open board code (tk_rows s') wi = true -> justified code wi = true)
  /\ has_open board "BLOCKED_NO_REASON" (tk_rows s') wi
     = blocked_without_reason wi.
Proof.
  intros H Hnd Hwi.
  destruct (validate_board_verdicts _ _ _ _ _ H Hnd) as (cvs & Hc & _ & Hv).
  assert (forall code, In code RULE_CODES -> exists vs, In (code, vs) cvs)
    as Hcode.
  { intros code Hin. rewrite <- Hc in Hin. apply in_map_iff in Hin.
    destruct Hin as ([c vs] & <- & Hin). eauto. }
  split.
  - intros code Hin Ho. destruct (Hcode code Hin) as (vs & Hvs).
    destruct (Forall2_In_l _ _ _ _ (Hv code vs Hvs) Hwi) as (v & Hh & Hj & _).
    apply Hj. congruence.
  - destruct (Hcode "BLOCKED_NO_REASON") as (vs & Hvs); [simpl; tauto|].
    destruct (Forall2_In_l _ _ _ _ (Hv _ vs Hvs) Hwi) as (v & Hh & _ & Hb).
    rewrite Hh. apply Hb. reflexivity.
Qed.

End ValidateBoard.
(** The scenario of the examples below: a configuration that asks
    stories for points and PRs, a clock that advances by a day per
    reading from day 10 on, and two stalled stories, the first of which
    has a ticket already. *)
Lemma validate_board_keeps_invariant_witness :
  let clk := fun n : nat => (10 + Z.of_nat n) * US_PER_DAY in
  let days := fun us : Z => us / US_PER_DAY in
  let root := JDict [("validator",
                JDict [("require_points_for_types", JList [JStr "story"]);
                       ("require_pr_for_types", JList [JStr "story"]);
                       ("pr_required_when_status_contains",
                        JList [JStr "Progress"])])] in
  let board := mkBoard 1 None in
  let items := [stalled_story "PROJ-1"; stalled_story "PROJ-2"] in
  let s := mkTickets [mkTicket 1 (Some "PROJ-1") "STUCK_IN_DEV" "old" OPEN 5
                               None (JDict [])] 0 in
  exists res s',
    validate_board clk days root (JDict []) (fun _ => "") board items s
    = Ok (res, s')
    /\ ticket_invariant (tk_rows s').
Proof.
  intros clk days root board items s.
  assert (exists res s',
            validate_board clk days root (JDict []) (fun _ => "") board items s
            = Ok (res, s')) as (res & s' & H).
  { destruct (validate_board clk days root (JDict []) (fun _ => "") board
                             items s) as [[res s']|e] eqn:H;
      [eauto | vm_compute in H; discriminate H]. }
  exists res, s'. split; [exact H|].
  apply (validate_board_keeps_invariant clk days root (JDict []) (fun _ => "")
           board items s res s' H).
  intros b w r. unfold open_tickets. simpl.
  destruct (open_for b w r _); simpl; lia.
Defined.

Lemma validate_board_frame_witness :
  let clk := fun n : nat => (10 + Z.of_nat n) * US_PER_DAY in
  let days := fun us : Z => us / US_PER_DAY in
  let root := JDict [("validator",
                JDict [("require_points_for_types", JList [JStr "story"]);
                       ("require_pr_for_types", JList [JStr "story"]);
                       ("pr_required_when_status_contains",
                        JList [JStr "Progress"])])] in
  let board := mkBoard 1 None in
  let items := [stalled_story "PROJ-1"; stalled_story "PROJ-2"] in
  let manual := mkTicket 1 (Some "PROJ-1") "MANUAL" "by hand" OPEN 5 None
                         (JDict []) in
  let s := mkTickets [manual] 0 in
  exists res s',
    validate_board clk days root (JDict []) (fun _ => "") board items s
    = Ok (res, s')
    /\ (length (tk_rows s) <= length (tk_rows s'))%nat
    /\ tk_rows s' !! 0%nat = Some manual.
Proof.
  intros clk days root board items manual s.
  assert (exists res s',
            validate_board clk days root (JDict []) (fun _ => "") board items s
            = Ok (res, s')) as (res & s' & H).
  { destruct (validate_board clk days root (JDict []) (fun _ => "") board
                             items s) as [[res s']|e] eqn:H;
      [eauto | vm_compute in H; discriminate H]. }
  exists res, s'. split; [exact H|].
  destruct (validate_board_frame clk days root (JDict []) (fun _ => "")
              board items s res s' H) as (Hlen & Hrows).
  split; [exact Hlen|].
  destruct (Hrows 0%nat manual eq_refl) as (t' & Ht' & _ & _ & _ & _ & _ & Hu).
  rewrite Ht'. f_equal. apply Hu. right. left.
  simpl. intros Hin. repeat (destruct Hin as [Hin|Hin]; [discriminate Hin|]).
  exact Hin.
Defined.

Lemma validate_board_counts_witness :
  let clk := fun n : nat => (10 + Z.of_nat n) * US_PER_DAY in
  let days := fun us : Z => us / US_PER_DAY in
  let root := JDict [("validator",
                JDict [("require_points_for_types", JList [JStr "story"]);
                       ("require_pr_for_types", JList [JStr "story"]);
                       ("pr_required_when_status_contains",
                        JList [JStr "Progress"])])] in
  let board := mkBoard 1 None in
  let items := [stalled_story "PROJ-1"; stalled_story "PROJ-2"] in
  let s := mkTickets [] 0 in
  exists s',
    validate_board clk days root (JDict []) (fun _ => "") board items s
    = Ok ([ ("MISSING_POINTS", 2); ("STUCK_IN_DEV", 2); ("WAITING_FOR_QA", 0);
            ("STUCK_IN_QA", 0); ("BLOCKED_NO_REASON", 2); ("PR_REQUIRED", 2) ],
          s')
    /\ forall code n,
         In (code, n)
            [ ("MISSING_POINTS", 2); ("STUCK_IN_DEV", 2); ("WAITING_FOR_QA", 0);
              ("STUCK_IN_QA", 0); ("BLOCKED_NO_REASON", 2); ("PR_REQUIRED", 2) ] ->
         n = Z.of_nat
               (length (List.filter (has_open board code (tk_rows s')) items)).
Proof.
  intros clk days root board items s.
  assert (exists res s',
            validate_board clk days root (JDict []) (fun _ => "") board items s
            = Ok (res, s')) as (res & s' & H).
  { destruct (validate_board clk days root (JDict []) (fun _ => "") board
                             items s) as [[res s']|e] eqn:H;
      [eauto | vm_compute in H; discriminate H]. }
  assert (res = [ ("MISSING_POINTS", 2); ("STUCK_IN_DEV", 2);
                  ("WAITING_FOR_QA", 0); ("STUCK_IN_QA", 0);
                  ("BLOCKED_NO_REASON", 2); ("PR_REQUIRED", 2) ]) as Hres.
  { pose proof H as H0. vm_compute in H0. injection H0 as <- _. reflexivity. }
  rewrite Hres in H.
  exists s'. split; [exact H|].
  apply (validate_board_counts clk days root (JDict []) (fun _ => "")
           board items s _ s' H).
  apply (bool_decide_unpack _). vm_compute. exact I.
Defined.

Lemma validate_board_tickets_justified_witness :
  let clk := fun n : nat => (10 + Z.of_nat n) * US_PER_DAY in
  let days := fun us : Z => us / US_PER_DAY in
  let root := JDict [("validator",
                JDict [("require_points_for_types", JList [JStr "story"]);
                       ("require_pr_for_types", JList [JStr "story"]);
                       ("pr_required_when_status_contains",
                        JList [JStr "Progress"])])] in
  let board := mkBoard 1 None in
  let items := [stalled_story "PROJ-1"; stalled_story "PROJ-2"] in
  let s := mkTickets [] 0 in
  exists res s',
    validate_board clk days root (JDict []) (fun _ => "") board items s
    = Ok (res, s')
    /\ has_open board "BLOCKED_NO_REASON" (tk_rows s') (stalled_story "PROJ-2")
       = blocked_without_reason (stalled_story "PROJ-2")
    /\ blocked_without_reason (stalled_story "PROJ-2") = true.
Proof.
  intros clk days root board items s.
  assert (exists res s',
            validate_board clk days root (JDict []) (fun _ => "") board items s
            = Ok (res, s')) as (res & s' & H).
  { destruct (validate_board clk days root (JDict []) (fun _ => "") board
                             items s) as [[res s']|e] eqn:H;
      [eauto | vm_compute in H; discriminate H]. }
  exists res, s'. split; [exact H|]. split; [|reflexivity].
  apply (validate_board_tickets_justified clk days root (JDict [])
           (fun _ => "") board items s res s' (stalled_story "PROJ-2") H).
  - apply (bool_decide_unpack _). vm_compute. exact I.
  - simpl. tauto.
Defined.
(** ** Back-filling [blocked_since] *)

Lemma set_blocked_since_same row :
  set_blocked_since (wi_blocked_since row) row = row.
Proof. destruct row. reflexivity. Qed.

Lemma set_blocked_since_twice v v' row :
  set_blocked_since v' (set_blocked_since v row) = set_blocked_since v' row.
Proof. reflexivity. Qed.

Lemma needs_backfill_none b row :
  needs_backfill b row = true -> wi_blocked_since row = None.
Proof.
  unfold needs_backfill. intros H.
  destruct (wi_blocked_since row); [|reflexivity].
  simpl in H. rewrite andb_false_r in H. discriminate.
Qed.

Lemma NoDup_fst_filter {A B : Type} (p : A * B -> bool) (l : list (A * B)) :
  NoDup (map fst l) -> NoDup (map fst (List.filter p l)).
Proof.
  induction l as [|x l IH]; simpl; [auto|].
  intros H. apply NoDup_cons in H. destruct H as [Hx Hl].
  destruct (p x); [|auto]. simpl. apply NoDup_cons. split; [|auto].
  intros Hin. apply Hx. apply list_elem_of_In in Hin. apply list_elem_of_In.
  apply in_map_iff in Hin. destruct Hin as (y & Hy & Hin).
  apply filter_In in Hin. apply in_map_iff. exists y. tauto.
Qed.

Lemma NoDup_fst_firstn {A B : Type} (k : nat) (l : list (A * B)) :
  NoDup (map fst l) -> NoDup (map fst (firstn k l)).
Proof.
  revert k. induction l as [|x l IH]; intros k; destruct k; simpl;
    try (intros; apply NoDup_nil_2).
  intros H. apply NoDup_cons in H. destruct H as [Hx Hl].
  apply NoDup_cons. split; [|auto].
  intros Hin. apply Hx. apply list_elem_of_In in Hin. apply list_elem_of_In.
  apply in_map_iff in Hin. destruct Hin as (y & Hy & Hin).
  apply in_map_iff. exists y. split; [exact Hy|].
  eapply In_firstn. exact Hin.
Qed.

(** The loop over the rows of one board. *)
Lemma backfill_rows_spec now flag rows : forall w n,
  NoDup (map fst rows) ->
  (forall sid wi, In (sid, wi) rows -> items w !! sid = Some wi) ->
  fst (backfill_rows now flag rows w n) = n + Z.of_nat (length rows)
  /\ ticks (snd (backfill_rows now flag rows w n)) = ticks w
  /\ (forall sid wi, In (sid, wi) rows ->
        items (snd (backfill_rows now flag rows w n)) !! sid
        = Some (set_blocked_since (backfill_value now flag wi) wi))
  /\ (forall sid, ~ In sid (map fst rows) ->
        items (snd (backfill_rows now flag rows w n)) !! sid = items w !! sid).
Proof.
  induction rows as [|[sid0 wi0] r IH]; intros w n Hnd Hin.
  - simpl. split; [lia|]. split; [reflexivity|]. split; [intros ? ? []|auto].
  - cbn [map fst] in Hnd. apply NoDup_cons in Hnd. destruct Hnd as [Hx Hnd].
    assert (~ In sid0 (map fst r)) as Hx'
      by (intros H; apply Hx, list_elem_of_In, H).
    cbn [backfill_rows].
    set (w1 := mkWorld _ (ticks w)).
    assert (forall sid wi, In (sid, wi) r -> items w1 !! sid = Some wi) as Hin1.
    { intros sid wi H. subst w1. simpl.
      rewrite lookup_alter_ne.
      - apply Hin. right. exact H.
      - intros <-. apply Hx'. apply in_map_iff. exists (sid0, wi). auto. }
    destruct (IH w1 (n + 1) Hnd Hin1) as (Hn & Ht & Ha & Hb).
    split; [rewrite Hn; simpl length; lia|].
    split; [rewrite Ht; reflexivity|].
    split.
    + intros sid wi [[= <- <-]|H]; [|apply Ha, H].
      rewrite (Hb _ Hx'). subst w1. simpl.
      rewrite lookup_alter_eq, (Hin sid0 wi0) by (left; reflexivity).
      reflexivity.
    + intros sid Hn'. rewrite Hb.
      * subst w1. simpl. apply lookup_alter_ne.
        intros <-. apply Hn'. left. reflexivity.
      * intros H. apply Hn'. right. exact H.
Qed.
Lemma classic_in {B : Type} (sid : string) (rows : list (string * B)) :
  (exists wi, In (sid, wi) rows) \/ ~ In sid (map fst rows).
Proof.
  induction rows as [|[s wi] r IH]; [right; intros []|].
  destruct (String.eqb s sid) eqn:E.
  - apply String.eqb_eq in E. subst. left. exists wi. left. reflexivity.
  - apply String.eqb_neq in E. destruct IH as [(wi' & H)|H].
    + left. exists wi'. right. exact H.
    + right. intros [H'|H']; [exact (E H') | exact (H H')].
Qed.
Lemma backfilled_trans clock flag bs r1 r2 r3 :
  backfilled clock flag bs r1 r2 -> backfilled clock flag bs r2 r3 ->
  backfilled clock flag bs r1 r3.
Proof.
  intros [->|(Hn1 & k1 & ->)] H23; [exact H23|].
  destruct H23 as [->|(Hn2 & k2 & ->)].
  - right. split; [exact Hn1|]. eauto.
  - right. split; [exact Hn1|]. exists k2.
    apply existsb_exists in Hn2. destruct Hn2 as (b2 & _ & Hb2).
    apply needs_backfill_none in Hb2. simpl in Hb2.
    apply existsb_exists in Hn1. destruct Hn1 as (b1 & _ & Hb1).
    apply needs_backfill_none in Hb1.
    assert (set_blocked_since None r1 = r1) as Hs
      by (rewrite <- Hb1; apply set_blocked_since_same).
    rewrite Hb2, Hs. reflexivity.
Qed.

Lemma backfilled_mono clock flag bs bs' r1 r2 :
  incl bs bs' -> backfilled clock flag bs r1 r2 -> backfilled clock flag bs' r1 r2.
Proof.
  intros Hi [->|(Hn & k & ->)]; [left; reflexivity|].
  right. split; [|eauto].
  apply existsb_exists in Hn. destruct Hn as (b & Hb & Hn).
  apply existsb_exists. exists b. split; [apply Hi, Hb | exact Hn].
Qed.

Lemma world_backfilled_refl clock flag bs w : world_backfilled clock flag bs w w.
Proof.
  intros sid. destruct (items w !! sid) as [row|]; [|reflexivity].
  exists row. split; [reflexivity | left; reflexivity].
Qed.

Lemma world_backfilled_trans clock flag bs w1 w2 w3 :
  world_backfilled clock flag bs w1 w2 -> world_backfilled clock flag bs w2 w3 ->
  world_backfilled clock flag bs w1 w3.
Proof.
  intros H12 H23 sid. specialize (H12 sid). specialize (H23 sid).
  destruct (items w1 !! sid) as [r1|].
  - destruct H12 as (r2 & E2 & B12). rewrite E2 in H23.
    destruct H23 as (r3 & E3 & B23). exists r3. split; [exact E3|].
    eapply backfilled_trans; eauto.
  - rewrite H12 in H23. exact H23.
Qed.

Lemma world_backfilled_mono clock flag bs bs' w1 w2 :
  incl bs bs' ->
  world_backfilled clock flag bs w1 w2 -> world_backfilled clock flag bs' w1 w2.
Proof.
  intros Hi H sid. specialize (H sid).
  destruct (items w1 !! sid) as [r1|]; [|exact H].
  destruct H as (r2 & E & B). exists r2. split; [exact E|].
  eapply backfilled_mono; eauto.
Qed.

Lemma candidates_spec b w sid wi :
  In (sid, wi) (backfill_candidates b w)
  <-> items w !! sid = Some wi /\ needs_backfill b wi = true.
Proof.
  unfold backfill_candidates. rewrite filter_In. simpl.
  rewrite <- list_elem_of_In, elem_of_map_to_list. reflexivity.
Qed.

Lemma candidates_nodup b w : NoDup (map fst (backfill_candidates b w)).
Proof.
  apply NoDup_fst_filter. exact (NoDup_fst_map_to_list (items w)).
Qed.

Section BackfillFacts.

Variable clock : nat -> Z.

(** One board. *)
Lemma backfill_board_step flag b w n :
  let w1 := snd (timezone_now clock w) in
  let res := backfill_rows (clock (ticks w)) flag
               (firstn BACKFILL_CAP (backfill_candidates b w)) w1 n in
  world_backfilled clock flag [b] w (snd res)
  /\ ticks (snd res) = S (ticks w)
  /\ ((length (backfill_candidates b w) <= BACKFILL_CAP)%nat ->
      fst res = n + Z.of_nat (length (backfill_candidates b w))
      /\ items (snd res) = backfill_row (clock (ticks w)) flag b <$> items w).
Proof.
  cbv zeta.
  set (rows := firstn BACKFILL_CAP (backfill_candidates b w)).
  assert (NoDup (map fst rows)) as Hnd
    by (apply NoDup_fst_firstn, candidates_nodup).
  assert (forall sid wi, In (sid, wi) rows ->
            items w !! sid = Some wi /\ needs_backfill b wi = true) as Hrows.
  { intros sid wi H. apply candidates_spec. eapply In_firstn. exact H. }
  destruct (backfill_rows_spec (clock (ticks w)) flag rows
              (snd (timezone_now clock w)) n Hnd)
    as (Hn & Ht & Ha & Hb).
  { intros sid wi H. apply (Hrows sid wi H). }
  split; [|split].
  - intros sid. destruct (items w !! sid) as [row|] eqn:E.
    + destruct (classic_in sid rows) as [(wi & Hin)|Hnin].
      * destruct (Hrows _ _ Hin) as [E' Hneed].
        assert (wi = row) as -> by congruence.
        eexists. split; [apply Ha, Hin|].
        right. split; [simpl; rewrite Hneed; reflexivity|]. eauto.
      * exists row. split; [|left; reflexivity].
        rewrite Hb by exact Hnin. exact E.
    + rewrite Hb; [exact E|].
      intros Hin. apply in_map_iff in Hin. destruct Hin as ([s wi] & <- & Hin).
      destruct (Hrows _ _ Hin) as [E' _]. simpl in E. congruence.
  - rewrite Ht. reflexivity.
  - intros Hcap.
    assert (rows = backfill_candidates b w) as Hall
      by (apply firstn_all2; exact Hcap).
    split; [rewrite Hn, Hall; reflexivity|].
    apply map_eq. intros sid. rewrite lookup_fmap.
    destruct (items w !! sid) as [row|] eqn:E; simpl.
    + unfold backfill_row. destruct (needs_backfill b row) eqn:Hneed.
      * apply Ha. rewrite Hall. apply candidates_spec. auto.
      * rewrite Hb; [exact E|].
        intros Hin. apply in_map_iff in Hin.
        destruct Hin as ([s wi] & <- & Hin).
        destruct (Hrows _ _ Hin) as [E' Hn']. simpl in E. congruence.
    + rewrite Hb; [exact E|].
      intros Hin. apply in_map_iff in Hin. destruct Hin as ([s wi] & <- & Hin).
      destruct (Hrows _ _ Hin) as [E' _]. simpl in E. congruence.
Qed.

End BackfillFacts.
Lemma needs_backfill_other now flag b b' row :
  b' <> b ->
  needs_backfill b' (backfill_row now flag b row) = needs_backfill b' row.
Proof.
  intros Hne. unfold backfill_row.
  destruct (needs_backfill b row) eqn:E; [|reflexivity].
  unfold needs_backfill in *. simpl.
  destruct (wi_board row =? b) eqn:Eb; [|discriminate].
  apply Z.eqb_eq in Eb.
  assert ((wi_board row =? b') = false) as -> by (apply Z.eqb_neq; congruence).
  reflexivity.
Qed.

Lemma needs_backfill_others now flag b r row :
  ~ In b r ->
  existsb (fun b' => needs_backfill b' (backfill_row now flag b row)) r
  = existsb (fun b' => needs_backfill b' row) r.
Proof.
  induction r as [|b' r IH]; intros Hb; [reflexivity|]. simpl.
  rewrite needs_backfill_other by (intros ->; apply Hb; left; reflexivity).
  f_equal. apply IH. intros H. apply Hb. right. exact H.
Qed.

Lemma filter_fmap_length (p : WorkItem -> bool) (G : WorkItem -> WorkItem)
    (m : gmap string WorkItem) :
  (forall row, p (G row) = p row) ->
  length (List.filter (fun kv => p (snd kv)) (map_to_list (G <$> m)))
  = length (List.filter (fun kv => p (snd kv)) (map_to_list m)).
Proof.
  intros HG.
  rewrite map_to_list_fmap.
  induction (map_to_list m) as [|[k v] l IH]; [reflexivity|].
  rewrite fmap_cons. cbn [List.filter prod_map snd id].
  rewrite HG. destruct (p v); cbn [length]; rewrite IH; reflexivity.
Qed.

Lemma filter_or_length {A : Type} (p q : A -> bool) (l : list A) :
  (forall x, p x = true -> q x = false) ->
  length (List.filter (fun x => p x || q x) l)
  = (length (List.filter p l) + length (List.filter q l))%nat.
Proof.
  intros Hd. induction l as [|x l IH]; [reflexivity|]. simpl.
  destruct (p x) eqn:Ep; simpl.
  - rewrite (Hd x Ep). simpl. rewrite IH. reflexivity.
  - destruct (q x); simpl; rewrite IH; lia.
Qed.

Lemma needs_backfill_board b row :
  needs_backfill b row = true -> wi_board row = b.
Proof.
  unfold needs_backfill. intros H.
  destruct (wi_board row =? b) eqn:E; [|discriminate].
  apply Z.eqb_eq, E.
Qed.

Lemma backfill_value_now now row :
  isSome (backfill_value now true row) = true.
Proof.
  unfold backfill_value.
  destruct (wi_dev_started_at row), (wi_ready_for_qa_at row),
    (wi_created_at row); reflexivity.
Qed.

Section BackfillBoards.

Variable clock : nat -> Z.

Lemma backfill_boards_step flag b r w n :
  backfill_boards clock flag (b :: r) w n
  = backfill_boards clock flag r
      (snd (backfill_rows (clock (ticks w)) flag
              (firstn BACKFILL_CAP (backfill_candidates b w))
              (snd (timezone_now clock w)) n))
      (fst (backfill_rows (clock (ticks w)) flag
              (firstn BACKFILL_CAP (backfill_candidates b w))
              (snd (timezone_now clock w)) n)).
Proof.
  cbn [backfill_boards]. unfold timezone_now. cbn [snd].
  destruct (backfill_rows _ _ _ _ _). reflexivity.
Qed.

Lemma backfill_boards_frame flag bs : forall w n,
  world_backfilled clock flag bs w (snd (backfill_boards clock flag bs w n)).
Proof.
  induction bs as [|b r IH]; intros w n.
  - apply world_backfilled_refl.
  - rewrite backfill_boards_step.
    destruct (backfill_board_step clock flag b w n) as (Hw & _).
    eapply world_backfilled_trans.
    + eapply world_backfilled_mono; [|exact Hw].
      intros x [<-|[]]. left. reflexivity.
    + eapply world_backfilled_mono; [|apply IH].
      intros x Hx. right. exact Hx.
Qed.

Lemma backfill_boards_complete bs : forall w n,
  NoDup bs ->
  (forall b, In b bs ->
     (length (backfill_candidates b w) <= BACKFILL_CAP)%nat) ->
  fst (backfill_boards clock true bs w n)
  = n + Z.of_nat (length (backfill_pending bs w))
  /\ (forall sid row,
        items (snd (backfill_boards clock true bs w n)) !! sid = Some row ->
        In (wi_board row) bs -> wi_blocked_flag row = true ->
        isSome (wi_blocked_since row) = true).
Proof.
  induction bs as [|b r IH]; intros w n Hnd Hcap.
  - simpl. split; [unfold backfill_pending; simpl|intros ? ? _ []].
    induction (map_to_list (items w)) as [|x l IHl]; simpl; [lia | exact IHl].
  - apply NoDup_cons in Hnd. destruct Hnd as [Hb Hnd].
    assert (~ In b r) as Hb' by (intros H; apply Hb, list_elem_of_In, H).
    rewrite backfill_boards_step.
    destruct (backfill_board_step clock true b w n) as (Hw & Ht & Hfull).
    destruct Hfull as (Hn & Hitems); [apply Hcap; left; reflexivity|].
    set (w2 := snd (backfill_rows _ _ _ _ _)) in *.
    set (n2 := fst (backfill_rows _ _ _ _ _)) in *.
    set (G := backfill_row (clock (ticks w)) true b) in *.
    assert (forall b', In b' r ->
              length (backfill_candidates b' w2)
              = length (backfill_candidates b' w)) as Hlen.
    { intros b' Hb'r. unfold backfill_candidates. rewrite Hitems.
      apply (filter_fmap_length (needs_backfill b') G).
      intros row. apply needs_backfill_other. intros ->. exact (Hb' Hb'r). }
    destruct (IH w2 n2 Hnd) as (Hn' & Hc').
    { intros b' Hb'r. rewrite (Hlen b' Hb'r). apply Hcap. right. exact Hb'r. }
    split.
    + rewrite Hn', Hn.
      assert (length (backfill_pending r w2) = length (backfill_pending r w))
        as ->.
      { unfold backfill_pending. rewrite Hitems.
        apply (filter_fmap_length
                 (fun row => existsb (fun b' => needs_backfill b' row) r) G).
        intros row. apply needs_backfill_others, Hb'. }
      unfold backfill_pending at 2. cbn [existsb].
      rewrite (filter_or_length (fun kv => needs_backfill b (snd kv))
                 (fun kv => existsb (fun b' => needs_backfill b' (snd kv)) r)).
      * unfold backfill_candidates, backfill_pending. lia.
      * intros [k v] Hp. simpl in *. apply needs_backfill_board in Hp.
        destruct (existsb _ r) eqn:Ee; [|reflexivity].
        apply existsb_exists in Ee. destruct Ee as (b' & Hb'r & Hq).
        apply needs_backfill_board in Hq. subst. congruence.
    + intros sid row Hrow [Hbd|Hbd] Hbl; [|eapply Hc'; eauto].
      pose proof (backfill_boards_frame true r w2 n2 sid) as Hf.
      destruct (items w2 !! sid) as [row2|] eqn:E2; [|congruence].
      destruct Hf as (row' & Hrow' & Hbf).
      assert (row' = row) as -> by congruence.
      destruct Hbf as [->|(Hex & k & ->)].
      * rewrite Hitems, lookup_fmap in E2.
        destruct (items w !! sid) as [row0|] eqn:E0; [|discriminate].
        injection E2 as <-. subst G. unfold backfill_row in *.
        destruct (needs_backfill b row0) eqn:Hneed.
        -- apply backfill_value_now.
        -- unfold needs_backfill in Hneed.
           rewrite Hbl, <- Hbd, Z.eqb_refl in Hneed. simpl in Hneed.
           destruct (wi_blocked_since row0); [reflexivity | discriminate].
      * apply existsb_exists in Hex. destruct Hex as (b' & Hb'r & Hq).
        apply needs_backfill_board in Hq. simpl in Hbd.
        exfalso. apply Hb'. congruence.
Qed.

Lemma backfill_boards_idle flag bs : forall w n,
  (forall b, In b bs -> backfill_candidates b w = []) ->
  fst (backfill_boards clock flag bs w n) = n
  /\ items (snd (backfill_boards clock flag bs w n)) = items w.
Proof.
  induction bs as [|b r IH]; intros w n Hnone; [split; reflexivity|].
  rewrite backfill_boards_step.
  rewrite (Hnone b) by (left; reflexivity).
  rewrite firstn_nil. cbn [backfill_rows fst snd].
  apply (IH (snd (timezone_now clock w))).
  intros b' Hb'. apply (Hnone b'). right. exact Hb'.
Qed.

End BackfillBoards.
Section BackfillTheorems.

Variable clock : nat -> Z.

(** X8. What [backfill_blocked_since] never does. It adds and removes
    no work item, and the only column it writes is [blocked_since]:
    a row is left exactly as it is (its [last_synced] stamp included)
    unless it belongs to one of the selected boards, is blocked and has
    no [blocked_since]; such a row can only get the back-fill value,
    that is its [dev_started_at], else its [ready_for_qa_at], else its
    [created_at], else a reading of the clock when
    [set_to_now_if_missing] holds. A [blocked_since] that is set is
    never overwritten. *)
Theorem backfill_only_fills (boards : list Z) (board_id : option Z)
    (set_to_now_if_missing : bool) (w : World) (sid : string) :
  let w' := snd (backfill_blocked_since clock boards board_id
                                        set_to_now_if_missing w) in
  match items w !! sid with
  | None => items w' !! sid = None
  | Some row =>
      exists row',
        items w' !! sid = Some row'
        /\ (row' = row
            \/ (wi_blocked_flag row = true
                /\ wi_blocked_since row = None
                /\ In (wi_board row) (select_boards boards board_id)
                /\ exists k,
                     row' = set_blocked_since
                              (backfill_value (clock k) set_to_now_if_missing
                                              row) row))
  end.
Proof.
  cbv zeta. unfold backfill_blocked_since.
  pose proof (backfill_boards_frame clock set_to_now_if_missing
                (select_boards boards board_id) w 0 sid) as H.
  destruct (items w !! sid) as [row|]; [|exact H].
  destruct H as (row' & Hrow' & Hbf). exists row'. split; [exact Hrow'|].
  destruct Hbf as [->|(Hex & k & ->)]; [left; reflexivity|].
  right. apply existsb_exists in Hex. destruct Hex as (b & Hb & Hneed).
  pose proof (needs_backfill_board _ _ Hneed) as Hboard.
  pose proof (needs_backfill_none _ _ Hneed) as Hnone.
  unfold needs_backfill in Hneed.
  destruct (wi_blocked_flag row);
    [|rewrite andb_false_r in Hneed; discriminate].
  split; [reflexivity|]. split; [exact Hnone|].
  split; [rewrite Hboard; exact Hb | eauto].
Qed.

(** X9. With [set_to_now_if_missing] and at most 5000 rows to fill per
    selected board, one run of [backfill_blocked_since] fills them all:
    it returns the number of blocked rows of the selected boards that
    had no [blocked_since]; afterwards every blocked row of a selected
    board has one; and a second run finds nothing to do, returns 0 and
    leaves the work items as they are. *)
Theorem backfill_completes (boards : list Z) (board_id : option Z)
    (w : World) :
  NoDup boards ->
  (forall b, In b (select_boards boards board_id) ->
     (length (backfill_candidates b w) <= BACKFILL_CAP)%nat) ->
  let bs := select_boards boards board_id in
  let res := backfill_blocked_since clock boards board_id true w in
  let res' := backfill_blocked_since clock boards board_id true (snd res) in
  fst res = Z.of_nat (length (backfill_pending bs w))
  /\ (forall sid row,
        items (snd res) !! sid = Some row ->
        In (wi_board row) bs -> wi_blocked_flag row = true ->
        isSome (wi_blocked_since row) = true)
  /\ fst res' = 0
  /\ items (snd res') = items (snd res).
Proof.
  intros Hnd Hcap. cbv zeta. unfold backfill_blocked_since.
  assert (NoDup (select_boards boards board_id)) as Hnd'.
  { unfold select_boards. destruct board_id as [i|]; [|exact Hnd].
    destruct (i =? 0); [exact Hnd|].
    clear Hcap. induction boards as [|b bs IH]; [apply NoDup_nil_2|].
    apply NoDup_cons in Hnd. destruct Hnd as [Hb Hnd]. simpl.
    destruct (i =? b); [|apply IH, Hnd].
    apply NoDup_cons. split; [|apply IH, Hnd].
    intros Hin. apply Hb. apply list_elem_of_In in Hin.
    apply filter_In in Hin. apply list_elem_of_In, Hin. }
  destruct (backfill_boards_complete clock (select_boards boards board_id)
              w 0 Hnd' Hcap) as (Hn & Hc).
  split; [rewrite Hn; lia|]. split; [exact Hc|].
  apply backfill_boards_idle.
  intros b Hb.
  destruct (backfill_candidates b _) as [|[sid row] l] eqn:E; [reflexivity|].
  assert (In (sid, row) (backfill_candidates b
            (snd (backfill_boards clock true (select_boards boards board_id)
                                  w 0)))) as Hin
    by (rewrite E; left; reflexivity).
  apply candidates_spec in Hin. destruct Hin as [Hrow Hneed].
  pose proof (needs_backfill_board _ _ Hneed) as Hboard.
  pose proof (needs_backfill_none _ _ Hneed) as Hnone.
  assert (wi_blocked_flag row = true) as Hflag.
  { unfold needs_backfill in Hneed.
    destruct (wi_blocked_flag row); [reflexivity|].
    rewrite andb_false_r in Hneed. discriminate. }
  specialize (Hc sid row Hrow). rewrite Hboard, Hnone in Hc.
  specialize (Hc Hb Hflag). discriminate Hc.
Qed.

End BackfillTheorems.

Lemma backfill_completes_witness :
  let clk := fun n : nat => 1000 + Z.of_nat n in
  let w := mkWorld {[ "PROJ-1" := stalled_story "PROJ-1";
                      "PROJ-2" := new_work_item "jira" "PROJ-2" ]} 0 in
  let res := backfill_blocked_since clk [1; 2] None true w in
  fst res = 1
  /\ (forall sid row,
        items (snd res) !! sid = Some row ->
        In (wi_board row) [1; 2] -> wi_blocked_flag row = true ->
        isSome (wi_blocked_since row) = true)
  /\ fst (backfill_blocked_since clk [1; 2] None true (snd res)) = 0.
Proof.
  intros clk w res.
  assert (NoDup [1; 2]) as Hnd
    by (apply (bool_decide_unpack _); vm_compute; exact I).
  assert (forall b, In b (select_boards [1; 2] None) ->
            (length (backfill_candidates b w) <= BACKFILL_CAP)%nat) as Hcap.
  { intros b [<-|[<-|[]]]; apply Nat.leb_le; vm_compute; reflexivity. }
  destruct (backfill_completes clk [1; 2] None w Hnd Hcap)
    as (Hn & Hc & Hn' & _).
  split; [|split; [exact Hc | exact Hn']].
  unfold res. rewrite Hn. vm_compute. reflexivity.
Defined.
(** ** The Teams card *)

Lemma card_samples_cap t : card_samples (cap_samples t) = card_samples t.
Proof.
  unfold card_samples, cap_samples. simpl. rewrite firstn_firstn.
  reflexivity.
Qed.

(** X13. The card shows at most five samples per rule: it depends on
    the samples of a group only through the first five, so cutting
    every group to its first five samples gives the same card. *)
Theorem remediation_card_caps_samples (board_name summary : string)
    (tickets : list Group) (admin_url : option string) :
  remediation_card board_name summary (map cap_samples tickets) admin_url
  = remediation_card board_name summary tickets admin_url.
Proof.
  unfold remediation_card.
  assert (card_facts (map cap_samples tickets) = card_facts tickets) as ->.
  { unfold card_facts. rewrite map_map. reflexivity. }
  assert (card_lines (map cap_samples tickets) = card_lines tickets) as Hl.
  { induction tickets as [|t r IH]; [reflexivity|].
    simpl map. cbn [card_lines]. rewrite card_samples_cap, IH. reflexivity. }
  unfold card_text. rewrite Hl. reflexivity.
Qed.
(** ** Linking pull requests: [add_linked_pr] *)

Lemma py_eq_str_l s x : py_eq (JStr s) x = true <-> x = JStr s.
Proof.
  destruct x; simpl; try (split; [discriminate | intros [=]]).
  split.
  - intros H. apply String.eqb_eq in H. congruence.
  - intros [= ->]. apply String.eqb_refl.
Qed.

Lemma any_pr_id_app pid l r :
  any_pr_id pid l = Ok false -> any_pr_id pid (l ++ r) = any_pr_id pid r.
Proof.
  induction l as [|x l IH]; simpl; [reflexivity|].
  destruct (py_get x "pr_id") as [v|]; simpl; [|discriminate].
  destruct (py_eq v pid); [discriminate | exact IH].
Qed.

(** X14. A pull request is linked to a work item once. After
    [add_linked_pr] has run for a PR, a further call for a PR with the
    same [pr_id] saves nothing, whatever the new dates and reviewers
    are: the entry is never refreshed. When the first call saves, it
    appends one entry with that [pr_id] and keeps the entries that
    were there, in their order. *)
Theorem add_linked_pr_once (linked_prs pr_dict pr_dict' : Json)
    (reviewers reviewers' : list Json) (saved : option Json)
    (pr_id : string) :
  add_linked_pr linked_prs pr_dict reviewers = Ok saved ->
  py_get pr_dict "pr_id" = Ok (JStr pr_id) ->
  py_get pr_dict' "pr_id" = Ok (JStr pr_id) ->
  add_linked_pr (linked_after linked_prs saved) pr_dict' reviewers' = Ok None
  /\ match saved with
     | Some v =>
         exists l e,
           py_or linked_prs (JList []) = JList l
           /\ v = JList (l ++ [e])
           /\ py_get e "pr_id" = Ok (JStr pr_id)
     | None => True
     end.
Proof.
  unfold add_linked_pr. intros H Hid Hid'. rewrite Hid in H. cbn [bind] in H.
  destruct (py_iter (py_or linked_prs (JList []))) as [xs|] eqn:Exs;
    cbn [bind] in H; [|discriminate].
  destruct (any_pr_id (JStr pr_id) xs) as [found|] eqn:Ef;
    cbn [bind] in H; [|discriminate].
  destruct found; cbn [negb] in H.
  - injection H as <-. cbn [linked_after]. split; [|exact I].
    assert (truthy linked_prs = true) as Ht.
    { destruct (truthy linked_prs) eqn:Et; [reflexivity|].
      unfold py_or in Exs. rewrite Et in Exs. injection Exs as <-.
      discriminate Ef. }
    unfold py_or in *. rewrite Ht in *. rewrite Hid', Exs. cbn [bind].
    rewrite Ef. reflexivity.
  - destruct (py_or linked_prs (JList [])) as [|b|z|f|s|l|d] eqn:El;
      try discriminate H.
    simpl in Exs. injection Exs as <-.
    destruct (py_get pr_dict "opened_at") as [o|]; cbn [bind] in H;
      [|discriminate].
    destruct (py_get pr_dict "first_reviewed_at") as [f|]; cbn [bind] in H;
      [|discriminate].
    destruct (py_get pr_dict "merged_at") as [m|]; cbn [bind] in H;
      [|discriminate].
    injection H as <-. cbn [linked_after]. split.
    + assert (truthy (JList (l ++ [JDict [("pr_id", JStr pr_id);
                ("opened_at", o); ("first_reviewed_at", f);
                ("merged_at", m); ("reviewers", JList reviewers)]])) = true)
        as Ht by (destruct l; reflexivity).
      unfold py_or. rewrite Ht, Hid'. cbn [bind py_iter].
      rewrite (any_pr_id_app _ _ _ Ef). cbn [any_pr_id py_get dict_get bind].
      rewrite String.eqb_refl. simpl. rewrite String.eqb_refl. reflexivity.
    + eexists. eexists. split; [reflexivity|]. split; [reflexivity|].
      reflexivity.
Qed.

Lemma add_linked_pr_once_witness :
  let pr := JDict [("pr_id", JStr "acme/app#7"); ("opened_at", JStr "2024-01-01");
                   ("merged_at", JNull)] in
  let pr' := JDict [("pr_id", JStr "acme/app#7"); ("opened_at", JStr "2024-01-01");
                    ("merged_at", JStr "2024-01-05")] in
  exists v,
    add_linked_pr (JList []) pr [JStr "ann"] = Ok (Some v)
    /\ add_linked_pr v pr' [JStr "ann"; JStr "bob"] = Ok None.
Proof.
  intros pr pr'.
  assert (exists v, add_linked_pr (JList []) pr [JStr "ann"] = Ok (Some v))
    as (v & H) by (eexists; reflexivity).
  exists v. split; [exact H|].
  apply (add_linked_pr_once (JList []) pr pr' [JStr "ann"]
           [JStr "ann"; JStr "bob"] (Some v) "acme/app#7" H eq_refl eq_refl).
Defined.

(** ** The pipeline: [_build_chain] *)

Lemma existsb_py_eq_In s (l : list Json) :
  existsb (py_eq (JStr s)) l = true <-> In (JStr s) l.
Proof.
  rewrite existsb_exists. split.
  - intros (x & Hx & He). apply py_eq_str_l in He. subst. exact Hx.
  - intros H. exists (JStr s). split; [exact H|]. apply py_eq_str_l.
    reflexivity.
Qed.

(** X15. The chain [_build_chain] builds for a list of stage names
    is not empty and holds exactly the stages that are named, each
    once, always in the order fetch, normalize, validate, snapshot: the
    order and the repetitions of the names, and names that are no
    stage, make no difference. It raises, and then [ValueError],
    exactly when no stage is named. *)
Theorem build_chain_flow (board_id : Z) (stages : list Json)
    (mapping_version : string) (date_iso : option string) :
  match _build_chain board_id (JList stages) mapping_version date_iso with
  | Ok tasks =>
      tasks <> []
      /\ (exists s, In s STAGES /\ In (JStr s) stages)
      /\ increasing (map stage_rank tasks)
      /\ forall s, In s STAGES ->
           (In (JStr s) stages <-> In s (map stage_name tasks))
  | Raise e =>
      e = ValueError /\ forall s, In s STAGES -> ~ In (JStr s) stages
  end.
Proof.
  unfold _build_chain. cbn [py_in bind].
  pose proof (existsb_py_eq_In "fetch" stages) as Hf.
  pose proof (existsb_py_eq_In "normalize" stages) as Hn.
  pose proof (existsb_py_eq_In "validate" stages) as Hv.
  pose proof (existsb_py_eq_In "snapshot" stages) as Hs.
  destruct (existsb (py_eq (JStr "fetch")) stages);
    destruct (existsb (py_eq (JStr "normalize")) stages);
    destruct (existsb (py_eq (JStr "validate")) stages);
    destruct (existsb (py_eq (JStr "snapshot")) stages);
    try (destruct date_iso as [d|]; [destruct (negb (String.eqb d ""))|]);
    cbn [app map stage_rank stage_name increasing];
    lazymatch goal with
    | |- _ = ValueError /\ _ =>
        split; [reflexivity|];
        intros s Hin; simpl in Hin;
        repeat (destruct Hin as [<-|Hin]); try destruct Hin;
        simpl; intuition (try discriminate; try congruence)
    | |- _ =>
        split; [discriminate|];
        split;
        [ first [ exists "fetch"; split; [simpl; tauto | apply Hf; reflexivity]
                | exists "normalize"; split; [simpl; tauto | apply Hn; reflexivity]
                | exists "validate"; split; [simpl; tauto | apply Hv; reflexivity]
                | exists "snapshot"; split; [simpl; tauto | apply Hs; reflexivity] ]
        |];
        split;
        [ repeat (split; [repeat constructor; lia|]); exact I
        | intros s Hin; simpl in Hin;
          repeat (destruct Hin as [<-|Hin]); try destruct Hin;
          simpl; intuition (try discriminate; try congruence) ]
    end.
Qed.
(** ** Shared helpers of the normalizers *)

Section ToDtResults.

Variable fromisoformat : string -> result DateTime.
Variable current_timezone : Z -> Z.

Lemma make_aware_aware d tz a : make_aware d tz = Ok a -> is_aware a = true.
Proof.
  unfold make_aware. destruct (is_aware d); [discriminate|].
  intros [= <-]. reflexivity.
Qed.

Lemma to_dt_some_inv (val : Json) (d : DateTime) :
  to_dt fromisoformat current_timezone val = Ok (Some d) ->
  is_aware d = true /\ exists s, val = JStr s.
Proof.
  intros H.
  destruct (is_number val) eqn:En.
  { rewrite (to_dt_number _ _ _ En) in H. discriminate. }
  unfold to_dt in H. destruct (truthy val); [|discriminate]. simpl in H.
  rewrite En in H.
  destruct val as [|b|z|f|s|l|m]; try discriminate.
  split; [|eauto].
  destruct (parse_datetime _) as [[p|]|]; simpl in H; [| |discriminate].
  - destruct (is_naive p) eqn:Ep.
    + destruct (make_aware p 0) as [a|] eqn:Ea; simpl in H; [|discriminate].
      injection H as <-. eapply make_aware_aware, Ea.
    + injection H as <-. unfold is_naive in Ep.
      destruct (is_aware p); [reflexivity | discriminate].
  - destruct (fromisoformat _) as [p|]; [|discriminate].
    destruct (is_naive p) eqn:Ep.
    + destruct (make_aware p 0) as [a|] eqn:Ea; simpl in H; [|discriminate].
      injection H as <-. eapply make_aware_aware, Ea.
    + injection H as <-. unfold is_naive in Ep.
      destruct (is_aware p); [reflexivity | discriminate].
Qed.

Lemma parse_datetime_raise s e : parse_datetime s = Raise e -> e = ValueError.
Proof.
  unfold parse_datetime.
  destruct (match_datetime _) as [[[[[[[[y m] d] hh] mm] ss] us] tz]|];
    [|discriminate].
  destruct tz as [offset|]; cbn [bind].
  - unfold fixed_timezone.
    destruct ((-1440 <? offset) && (offset <? 1440)); cbn [bind];
      [|congruence].
    unfold datetime_new. destruct (_ && _); cbn [bind]; congruence.
  - unfold datetime_new. destruct (_ && _); cbn [bind]; congruence.
Qed.

(** X16. [to_dt] never yields a naive time: every time it returns
    carries a UTC offset. It gives [None] for an empty value without
    looking at it, and it raises for a text only, and then
    [ValueError]. *)
Theorem to_dt_never_naive (val : Json) :
  match to_dt fromisoformat current_timezone val with
  | Ok (Some d) => is_aware d = true
  | Ok None => True
  | Raise e => e = ValueError /\ is_str val = true
  end
  /\ (truthy val = false ->
      to_dt fromisoformat current_timezone val = Ok None).
Proof.
  split; [|apply to_dt_falsy].
  destruct (to_dt fromisoformat current_timezone val) as [[d|]|e] eqn:H.
  - apply (to_dt_some_inv val d H).
  - exact I.
  - destruct (is_number val) eqn:En.
    { rewrite (to_dt_number _ _ _ En) in H. discriminate. }
    unfold to_dt in H. destruct (truthy val); [|discriminate]. simpl in H.
    rewrite En in H.
    destruct val as [|b|z|f|s|l|m]; try discriminate.
    split; [|reflexivity].
    destruct (parse_datetime _) as [[p|]|e'] eqn:Ep; simpl in H.
    + destruct (is_naive p) eqn:En'; [|discriminate].
      unfold make_aware in H. unfold is_naive in En'.
      destruct (is_aware p); discriminate.
    + destruct (fromisoformat _) as [p|]; [|discriminate].
      destruct (is_naive p) eqn:En'; [|discriminate].
      unfold make_aware in H. unfold is_naive in En'.
      destruct (is_aware p); discriminate.
    + injection H as <-. eapply parse_datetime_raise, Ep.
Qed.

End ToDtResults.

(** X17. How [cfg] composes. Looking up the path [p ++ q] is looking up
    [q] in what the lookup of [p] finds, and gives the default when
    the lookup of [p] finds nothing: a null value anywhere on the path
    counts as missing. And with a default that is not null, [cfg] never
    returns null. *)
Theorem cfg_compose (root : Json) (p q : list string) (default : Json) :
  cfg root (p ++ q) default
  = match cfg root p JNull with
    | JNull => default
    | node => cfg node q default
    end
  /\ (cfg root p default = JNull -> default = JNull).
Proof.
  revert root. induction p as [|k p IH]; intros root.
  - simpl. split.
    + destruct root; try reflexivity. destruct q; reflexivity.
    + destruct root; simpl; auto; discriminate.
  - simpl. destruct root as [| | | | | |m]; try (split; [reflexivity | auto]).
    destruct (dict_get m k) as [[| | | | | |]|];
      try (split; [reflexivity | auto]); apply IH.
Qed.

Lemma lower_char_idem c : lower_char (lower_char c) = lower_char c.
Proof.
  destruct c as [[] [] [] [] [] [] [] []]; reflexivity.
Qed.

Lemma py_lower_idem s : py_lower (py_lower s) = py_lower s.
Proof.
  induction s as [|c s IH]; [reflexivity|]. simpl.
  rewrite lower_char_idem, IH. reflexivity.
Qed.

Lemma py_lower_empty s : String.eqb (py_lower s) "" = String.eqb s "".
Proof. destruct s; reflexivity. Qed.

(** X18. [map_item_type] classifies every name: a name that is absent
    or empty is a story, a text gives one of the five item types,
    whatever the case of its letters, and only a value that is neither
    empty nor a text raises ([AttributeError]). *)
Theorem map_item_type_classifies (name : Json) :
  match map_item_type name with
  | Ok t => In t ITEM_TYPES
  | Raise e => e = AttributeError /\ truthy name = true /\ is_str name = false
  end
  /\ (truthy name = false -> map_item_type name = Ok ItemType_STORY)
  /\ (forall s, name = JStr s ->
        map_item_type (JStr (py_lower s)) = map_item_type name).
Proof.
  split; [|split].
  - unfold map_item_type, py_or.
    destruct name as [|b|z|f|s|l|m]; simpl.
    + auto.
    + destruct b; simpl; auto 10.
    + destruct (negb (z =? 0)); simpl; auto 10.
    + destruct f as [m e| |]; simpl; auto 10.
      destruct (negb (m =? 0)); simpl; auto 10.
    + destruct (negb (String.eqb s "")); simpl.
      * destruct (str_contains "bug" (py_lower s)); [auto|].
        destruct (str_contains "sub-task" (py_lower s) ||
                  str_contains "subtask" (py_lower s)); [auto 10|].
        destruct (str_contains "epic" (py_lower s)); [auto 10|].
        destruct (str_contains "task" (py_lower s)); auto 10.
      * auto.
    + destruct l; simpl; auto 10.
    + destruct m; simpl; auto 10.
  - intros H. unfold map_item_type, py_or. rewrite H. reflexivity.
  - intros s ->. unfold map_item_type, py_or. simpl.
    rewrite py_lower_empty.
    destruct (negb (String.eqb s "")); simpl; [|reflexivity].
    rewrite py_lower_idem. reflexivity.
Qed.
(** ** The normalizers: what a run counts and what it touches *)

Lemma rows_persist_refl w : rows_persist w w.
Proof. intros sid row H. eauto. Qed.

Lemma rows_persist_trans w1 w2 w3 :
  rows_persist w1 w2 -> rows_persist w2 w3 -> rows_persist w1 w3.
Proof.
  intros H12 H23 sid row H.
  destruct (H12 sid row H) as (r2 & H2 & Hs2).
  destruct (H23 sid r2 H2) as (r3 & H3 & Hs3).
  exists r3. split; [exact H3 | congruence].
Qed.

Section CountFacts.

Variable fromisoformat : string -> result DateTime.
Variable current_timezone : Z -> Z.
Variable py_repr : Json -> string.
Variable py_float : Json -> result PyFloat.
Variable clock : nat -> Z.
Variable root : Json.

Let jira_issue' := jira_issue fromisoformat current_timezone py_repr py_float root.
Let clickup_task' := clickup_task fromisoformat current_timezone py_repr py_float.

(** An upsert whose assignments keep the source. *)
Lemma update_or_create_step source sid f w w' :
  (forall r, wi_source (f r) = wi_source r) ->
  update_or_create clock source sid f w = Ok w' ->
  (exists row, items w' !! sid = Some row /\ wi_source row = source)
  /\ (forall sid', sid' <> sid -> items w' !! sid' = items w !! sid')
  /\ rows_persist w w'
  /\ (ticks w <= ticks w')%nat.
Proof.
  intros Hf H. apply update_or_create_inv in H.
  destruct H as (base & -> & Hbase).
  split; [|split; [|split]].
  - eexists. split; [apply save_item_same|]. simpl. rewrite Hf.
    destruct (items w !! sid) as [r|]; [destruct Hbase as [-> Hs]; exact Hs|].
    subst base. reflexivity.
  - intros sid' Hne. apply save_item_other. congruence.
  - intros s row Hrow. destruct (decide (s = sid)) as [->|Hne].
    + rewrite Hrow in Hbase. destruct Hbase as [-> Hs].
      eexists. split; [apply save_item_same|]. simpl. apply Hf.
    + exists row. split; [|reflexivity].
      rewrite save_item_other by congruence. exact Hrow.
  - rewrite save_item_ticks. lia.
Qed.

(** One record of the Jira normalizer. *)
Lemma jira_one_step board rp w c w' :
  jira_normalize_one fromisoformat current_timezone py_repr py_float clock root
                     board rp w = Ok (c, w') ->
  c = isSome (jira_issue' rp)
  /\ rows_persist w w'
  /\ (ticks w <= ticks w')%nat
  /\ match jira_issue' rp with
     | Some v =>
         (exists row, items w' !! py_str py_repr (jv_key v) = Some row
                      /\ wi_source row = Source_JIRA)
         /\ forall sid, sid <> py_str py_repr (jv_key v) ->
                        sid <> py_str py_repr (jv_parent_key v) ->
                        items w' !! sid = items w !! sid
     | None => w' = w
     end.
Proof.
  subst jira_issue'. unfold jira_normalize_one, jira_issue.
  destruct (String.eqb (rp_source rp) Source_JIRA); simpl;
    [|intros [= <- <-]; repeat split; auto using rows_persist_refl].
  destruct (String.eqb (rp_object_type rp) "issue"); simpl;
    [|intros [= <- <-]; repeat split; auto using rows_persist_refl].
  destruct (jira_values _ _ _ _ root (rp_payload rp)) as [[v|]|];
    cbn [bind]; [| intros [= <- <-]; repeat split; auto using rows_persist_refl
                 | discriminate].
  destruct (upsert_parent py_repr clock board Source_JIRA (jv_parent_key v) w)
    as [[ps w1]|] eqn:Ep; cbn [bind]; [|discriminate].
  destruct (jira_blocked_since clock (jv_blocked_flag v) _ w1) as [bs w2] eqn:Eb.
  destruct (update_or_create clock Source_JIRA _ _ w2) as [w3|] eqn:Eu;
    cbn [bind]; [|discriminate].
  intros [= <- <-]. split; [reflexivity|].
  pose proof (upsert_parent_ticks _ _ _ _ _ _ _ _ Ep) as Htk.
  apply upsert_parent_inv in Ep.
  apply jira_blocked_since_spec in Eb. destruct Eb as (Hi & Hf & Hb).
  assert (ticks w1 <= ticks w2)%nat as Htk2.
  { destruct (jv_blocked_flag v).
    - specialize (Hb eq_refl).
      destruct (carried_blocked_since _ _ w1); destruct Hb as [_ Hb];
        [subst; lia | lia].
    - destruct (Hf eq_refl) as [_ ->]. lia. }
  apply update_or_create_step in Eu; [|reflexivity].
  destruct Eu as (Hrow & Hother & Hpers & Htk3).
  assert (rows_persist w w1
          /\ forall sid, sid <> py_str py_repr (jv_parent_key v) ->
                         items w1 !! sid = items w !! sid) as [Hp1 Ho1].
  { destruct Ep as [[-> _]|(_ & _ & Hn & row & -> & _)].
    - split; [apply rows_persist_refl | reflexivity].
    - split.
      + intros sid r Hr. exists r. split; [|reflexivity].
        rewrite save_item_other; [exact Hr|]. intros <-. congruence.
      + intros sid Hne. apply save_item_other. congruence. }
  assert (rows_persist w1 w2) as Hp2.
  { intros sid r Hr. exists r. rewrite Hi. auto. }
  split; [eapply rows_persist_trans; [exact Hp1|];
          eapply rows_persist_trans; [exact Hp2 | exact Hpers]|].
  split; [lia|].
  split; [exact Hrow|].
  intros sid Hk Hpk. rewrite Hother by exact Hk. rewrite Hi. apply Ho1, Hpk.
Qed.

(** X19. What a run of the Jira normalizer counts and touches. The
    number it returns is the number of records that are Jira issues
    with a key or an id; each of them has a row of source jira
    afterwards; no row is deleted or changes its source; and a row
    whose [source_id] is neither the key of such an issue nor the key
    of its parent is left as it is. *)
Theorem jira_normalize_counts (board : Board) (raw_items : list RawPayload)
    (w : World) (n : Z) (w' : World) :
  jira_normalize fromisoformat current_timezone py_repr py_float clock root
                 board raw_items w = Ok (n, w') ->
  n = Z.of_nat (length (List.filter (fun rp => isSome (jira_issue' rp))
                                    raw_items))
  /\ (forall rp v, In rp raw_items -> jira_issue' rp = Some v ->
        exists row, items w' !! py_str py_repr (jv_key v) = Some row
                    /\ wi_source row = Source_JIRA)
  /\ rows_persist w w'
  /\ (forall sid,
        (forall rp v, In rp raw_items -> jira_issue' rp = Some v ->
           sid <> py_str py_repr (jv_key v)
           /\ sid <> py_str py_repr (jv_parent_key v)) ->
        items w' !! sid = items w !! sid).
Proof.
  revert w n w'. induction raw_items as [|rp r IH]; intros w n w'.
  - simpl. intros [= <- <-].
    split; [reflexivity|]. split; [intros ? ? []|].
    split; [apply rows_persist_refl | reflexivity].
  - cbn [jira_normalize].
    destruct (jira_normalize_one _ _ _ _ clock root board rp w)
      as [[c w1]|] eqn:E1; cbn [bind fst snd]; [|discriminate].
    destruct (jira_normalize _ _ _ _ clock root board r w1)
      as [[m w2]|] eqn:E2; cbn [bind fst snd]; [|discriminate].
    intros [= <- <-].
    destruct (jira_one_step _ _ _ _ _ E1) as (Hc & Hp1 & _ & Hv).
    destruct (IH _ _ _ E2) as (Hm & Hrows & Hp2 & Hframe).
    split; [|split; [|split]].
    + cbn [List.filter]. rewrite Hc, Hm.
      destruct (isSome (jira_issue' rp)); cbn [length]; lia.
    + intros rp' v [<-|Hin] Hj; [|eapply Hrows; eauto].
      rewrite Hj in Hv. destruct Hv as ((row & Hrow & Hs) & _).
      destruct (Hp2 _ _ Hrow) as (row' & Hrow' & Hs').
      exists row'. split; [exact Hrow' | congruence].
    + eapply rows_persist_trans; eauto.
    + intros sid Hsid. rewrite Hframe.
      * destruct (jira_issue' rp) as [v|] eqn:Ej; [|rewrite Hv; reflexivity].
        destruct Hv as (_ & Hv).
        destruct (Hsid rp v (or_introl eq_refl) Ej) as [Hk Hpk].
        apply Hv; assumption.
      * intros rp' v Hin Hj. apply (Hsid rp' v); [right; exact Hin | exact Hj].
Qed.

(** One record of the ClickUp normalizer. *)
Lemma clickup_one_step pfn board rp w c w' :
  clickup_normalize_one fromisoformat current_timezone py_repr py_float clock
                        pfn board rp w = Ok (c, w') ->
  c = isSome (clickup_task' pfn rp)
  /\ rows_persist w w'
  /\ match clickup_task' pfn rp with
     | Some v =>
         (exists base,
            items w' !! py_str py_repr (cv_tid v)
            = Some (set_last_synced (clock (ticks w))
                                    (clickup_defaults board v base))
            /\ wi_source base = Source_CLICKUP)
         /\ forall sid, sid <> py_str py_repr (cv_tid v) ->
                        items w' !! sid = items w !! sid
     | None => w' = w
     end.
Proof.
  subst clickup_task'. unfold clickup_normalize_one, clickup_task.
  destruct (String.eqb (rp_source rp) Source_CLICKUP); simpl;
    [|intros [= <- <-]; repeat split; auto using rows_persist_refl].
  destruct (String.eqb (rp_object_type rp) "task"); simpl;
    [|intros [= <- <-]; repeat split; auto using rows_persist_refl].
  destruct (clickup_values _ _ _ _ pfn (rp_payload rp)) as [[v|]|];
    cbn [bind]; [| intros [= <- <-]; repeat split; auto using rows_persist_refl
                 | discriminate].
  destruct (update_or_create clock Source_CLICKUP _ _ w) as [w3|] eqn:Eu;
    cbn [bind]; [|discriminate].
  intros [= <- <-]. split; [reflexivity|].
  pose proof Eu as Eu'.
  apply update_or_create_step in Eu; [|reflexivity].
  destruct Eu as (Hrow & Hother & Hpers & _).
  split; [exact Hpers|]. split; [|exact Hother].
  apply update_or_create_inv in Eu'. destruct Eu' as (base & -> & Hbase).
  exists base. split; [apply save_item_same|].
  destruct (items w !! _) as [r0|]; [destruct Hbase as [-> Hs]; exact Hs|].
  subst base. reflexivity.
Qed.

(** X20. What a run of the ClickUp normalizer counts and touches. The
    number it returns is the number of records that are ClickUp tasks
    with an id; each of them has a row of source clickup afterwards;
    no row is deleted or changes its source; and a row whose
    [source_id] is not the id of such a task is left as it is. *)
Theorem clickup_normalize_counts (board : Board)
    (raw_items : list RawPayload) (w : World) (n : Z) (w' : World) :
  clickup_normalize fromisoformat current_timezone py_repr py_float clock root
                    board raw_items w = Ok (n, w') ->
  exists pfn,
    points_field_name root = Ok pfn
    /\ n = Z.of_nat (length (List.filter
                               (fun rp => isSome (clickup_task' pfn rp))
                               raw_items))
    /\ (forall rp v, In rp raw_items -> clickup_task' pfn rp = Some v ->
          exists row, items w' !! py_str py_repr (cv_tid v) = Some row
                      /\ wi_source row = Source_CLICKUP)
    /\ rows_persist w w'
    /\ (forall sid,
          (forall rp v, In rp raw_items -> clickup_task' pfn rp = Some v ->
             sid <> py_str py_repr (cv_tid v)) ->
          items w' !! sid = items w !! sid).
Proof.
  unfold clickup_normalize.
  destruct (points_field_name root) as [pfn|]; cbn [bind]; [|discriminate].
  intros H. exists pfn. split; [reflexivity|].
  revert w n w' H. induction raw_items as [|rp r IH]; intros w n w'.
  - simpl. intros [= <- <-].
    split; [reflexivity|]. split; [intros ? ? []|].
    split; [apply rows_persist_refl | reflexivity].
  - cbn [clickup_loop].
    destruct (clickup_normalize_one _ _ _ _ clock pfn board rp w)
      as [[c w1]|] eqn:E1; cbn [bind fst snd]; [|discriminate].
    destruct (clickup_loop _ _ _ _ clock pfn board r w1)
      as [[m w2]|] eqn:E2; cbn [bind fst snd]; [|discriminate].
    intros [= <- <-].
    destruct (clickup_one_step _ _ _ _ _ _ E1) as (Hc & Hp1 & Hv).
    destruct (IH _ _ _ E2) as (Hm & Hrows & Hp2 & Hframe).
    split; [|split; [|split]].
    + cbn [List.filter]. rewrite Hc, Hm.
      destruct (isSome (clickup_task' pfn rp)); cbn [length]; lia.
    + intros rp' v [<-|Hin] Hj; [|eapply Hrows; eauto].
      rewrite Hj in Hv. destruct Hv as ((base & Hrow & Hs) & _).
      destruct (Hp2 _ _ Hrow) as (row' & Hrow' & Hs').
      exists row'. split; [exact Hrow'|]. rewrite Hs'. exact Hs.
    + eapply rows_persist_trans; eauto.
    + intros sid Hsid. rewrite Hframe.
      * destruct (clickup_task' pfn rp) as [v|] eqn:Ej;
          [|rewrite Hv; reflexivity].
        destruct Hv as (_ & Hv). apply Hv.
        apply (Hsid rp v (or_introl eq_refl) Ej).
      * intros rp' v Hin Hj. apply (Hsid rp' v); [right; exact Hin | exact Hj].
Qed.

End CountFacts.
Lemma jira_normalize_counts_witness :
  let fiso := fun _ : string => @Raise DateTime ValueError in
  let ctz := fun _ : Z => 0 in
  let rep := fun _ : Json => "" in
  let pf := fun _ : Json => @Raise PyFloat ValueError in
  let clk := fun n : nat => 1000 + Z.of_nat n in
  let root := JDict [] in
  let board := mkBoard 1 None in
  let issue := fun key : string =>
    JDict [("key", JStr key);
           ("fields", JDict [("summary", JStr "Fix it")])] in
  let raw := [mkRawPayload "jira" "issue" (issue "PROJ-1");
              mkRawPayload "jira" "sprint" (JDict [("id", JInt 7)]);
              mkRawPayload "github" "pr" (JDict [("number", JInt 12)]);
              mkRawPayload "jira" "issue" (issue "PROJ-2")] in
  let w := mkWorld {[ "TASK-9" := new_work_item "clickup" "TASK-9" ]} 0 in
  exists w',
    jira_normalize fiso ctz rep pf clk root board raw w = Ok (2, w')
    /\ (exists row, items w' !! "PROJ-1" = Some row
                    /\ wi_source row = Source_JIRA)
    /\ items w' !! "TASK-9" = Some (new_work_item "clickup" "TASK-9").
Proof.
  intros fiso ctz rep pf clk root board issue raw w.
  assert (exists n w', jira_normalize fiso ctz rep pf clk root board raw w
                       = Ok (n, w')) as (n & w' & H).
  { destruct (jira_normalize fiso ctz rep pf clk root board raw w)
      as [[n w']|e] eqn:H; [eauto | vm_compute in H; discriminate H]. }
  destruct (jira_normalize_counts fiso ctz rep pf clk root board raw w n w' H)
    as (Hn & Hrows & _ & Hframe).
  assert (n = 2) as -> by (rewrite Hn; vm_compute; reflexivity).
  exists w'. split; [exact H|]. split.
  - assert (exists v, jira_issue fiso ctz rep pf root
                        (mkRawPayload "jira" "issue" (issue "PROJ-1")) = Some v
                      /\ py_str rep (jv_key v) = "PROJ-1") as (v & Hv & Hk)
      by (eexists; split; vm_compute; reflexivity).
    rewrite <- Hk.
    apply (Hrows (mkRawPayload "jira" "issue" (issue "PROJ-1")) v);
      [left; reflexivity | exact Hv].
  - rewrite Hframe; [reflexivity|].
    intros rp v Hin Hv.
    destruct Hin as [<-|[<-|[<-|[<-|[]]]]];
      vm_compute in Hv; try discriminate Hv;
      injection Hv as <-; split; vm_compute; discriminate.
Defined.

Lemma clickup_normalize_counts_witness :
  let fiso := fun _ : string => @Raise DateTime ValueError in
  let ctz := fun _ : Z => 0 in
  let rep := fun _ : Json => "" in
  let pf := fun j : Json => match j with
                            | JInt z => Ok (FFinite z 0)
                            | _ => Raise ValueError
                            end in
  let clk := fun n : nat => 1000 + Z.of_nat n in
  let root := JDict [] in
  let board := mkBoard 1 (Some "acme") in
  let task := fun tid : string =>
    JDict [("id", JStr tid); ("name", JStr "Bug: crash on save");
           ("status", JDict [("status", JStr "in progress")])] in
  let raw := [mkRawPayload "clickup" "task" (task "86a1b2c");
              mkRawPayload "clickup" "task" (JDict [("name", JStr "no id")]);
              mkRawPayload "jira" "issue" (JDict [("key", JStr "PROJ-1")]);
              mkRawPayload "clickup" "task" (task "86a1b2d")] in
  let w := mkWorld {[ "PROJ-1" := new_work_item "jira" "PROJ-1" ]} 0 in
  exists w',
    clickup_normalize fiso ctz rep pf clk root board raw w = Ok (2, w')
    /\ (exists row, items w' !! "86a1b2d" = Some row
                    /\ wi_source row = Source_CLICKUP)
    /\ items w' !! "PROJ-1" = Some (new_work_item "jira" "PROJ-1").
Proof.
  intros fiso ctz rep pf clk root board task raw w.
  assert (exists n w', clickup_normalize fiso ctz rep pf clk root board raw w
                       = Ok (n, w')) as (n & w' & H).
  { destruct (clickup_normalize fiso ctz rep pf clk root board raw w)
      as [[n w']|e] eqn:H; [eauto | vm_compute in H; discriminate H]. }
  destruct (clickup_normalize_counts fiso ctz rep pf clk root board raw w n w' H)
    as (pfn & Hpfn & Hn & Hrows & _ & Hframe).
  assert (pfn = "story points") as ->
    by (vm_compute in Hpfn; injection Hpfn as <-; reflexivity).
  assert (n = 2) as -> by (rewrite Hn; vm_compute; reflexivity).
  exists w'. split; [exact H|]. split.
  - assert (exists v, clickup_task fiso ctz rep pf "story points"
                        (mkRawPayload "clickup" "task" (task "86a1b2d")) = Some v
                      /\ py_str rep (cv_tid v) = "86a1b2d") as (v & Hv & Hk)
      by (eexists; split; vm_compute; reflexivity).
    rewrite <- Hk.
    apply (Hrows (mkRawPayload "clickup" "task" (task "86a1b2d")) v);
      [right; right; right; left; reflexivity | exact Hv].
  - rewrite Hframe; [reflexivity|].
    intros rp v Hin Hv.
    destruct Hin as [<-|[<-|[<-|[<-|[]]]]];
      vm_compute in Hv; try discriminate Hv;
      injection Hv as <-; vm_compute; discriminate.
Defined.
(** ** The placeholder row of a parent *)

(** X21. [upsert_parent] never changes a row that exists: every row
    of the table is still there, field for field, after the call. It
    returns no parent exactly when the parent key is empty; otherwise
    the parent it returns is the row of that key, of the source asked
    for, and that row is new only if the key had no row. *)
Theorem upsert_parent_keeps_rows (py_repr : Json -> string) (clock : nat -> Z)
    (board : Board) (source : string) (parent_key : Json) (w : World)
    (parent : option string) (w' : World) :
  upsert_parent py_repr clock board source parent_key w = Ok (parent, w') ->
  (forall sid row, items w !! sid = Some row -> items w' !! sid = Some row)
  /\ (parent = None <-> truthy parent_key = false)
  /\ (truthy parent_key = false -> w' = w)
  /\ (truthy parent_key = true ->
      parent = Some (py_str py_repr parent_key)
      /\ (exists row, items w' !! py_str py_repr parent_key = Some row
                      /\ wi_source row = source)
      /\ (forall sid, sid <> py_str py_repr parent_key ->
                      items w' !! sid = items w !! sid)).
Proof.
  intros H. apply upsert_parent_inv in H.
  destruct H as [[-> [[Ht ->]|(Ht & -> & row & Hrow & Hs)]]
                |(Ht & -> & Hn & row & -> & Hs & _)].
  - split; [auto|]. split; [tauto|]. split; [auto|]. congruence.
  - split; [auto|]. split; [split; congruence|]. split; [congruence|].
    intros _. split; [reflexivity|]. split; [eauto | reflexivity].
  - split.
    { intros sid r Hr. rewrite save_item_other; [exact Hr|].
      intros <-. congruence. }
    split; [split; congruence|]. split; [congruence|].
    intros _. split; [reflexivity|]. split.
    + eexists. split; [apply save_item_same|]. exact Hs.
    + intros sid Hne. apply save_item_other. congruence.
Qed.

Lemma upsert_parent_keeps_rows_witness :
  let rep := fun _ : Json => "" in
  let clk := fun n : nat => 1000 + Z.of_nat n in
  let board := mkBoard 1 None in
  let story := stalled_story "PROJ-1" in
  let w := mkWorld {[ "PROJ-1" := story ]} 0 in
  exists w1 w2,
    upsert_parent rep clk board "jira" (JStr "PROJ-1") w = Ok (Some "PROJ-1", w1)
    /\ items w1 !! "PROJ-1" = Some story
    /\ upsert_parent rep clk board "jira" (JStr "PROJ-7") w1
       = Ok (Some "PROJ-7", w2)
    /\ items w2 !! "PROJ-1" = Some story
    /\ exists row, items w2 !! "PROJ-7" = Some row /\ wi_source row = "jira".
Proof.
  intros rep clk board story w.
  assert (exists w1, upsert_parent rep clk board "jira" (JStr "PROJ-1") w
                     = Ok (Some "PROJ-1", w1)) as (w1 & H1)
    by (eexists; vm_compute; reflexivity).
  assert (exists p w2, upsert_parent rep clk board "jira" (JStr "PROJ-7") w1
                       = Ok (p, w2)) as (p & w2 & H2).
  { destruct (upsert_parent rep clk board "jira" (JStr "PROJ-7") w1)
      as [[p w2]|e] eqn:H2; [eauto|].
    injection H1 as <-. vm_compute in H2. discriminate H2. }
  destruct (upsert_parent_keeps_rows rep clk board "jira" (JStr "PROJ-1") w
              (Some "PROJ-1") w1 H1) as (K1 & _).
  destruct (upsert_parent_keeps_rows rep clk board "jira" (JStr "PROJ-7") w1
              p w2 H2) as (K2 & _ & _ & K3).
  destruct (K3 eq_refl) as (-> & Hrow & _).
  exists w1, w2.
  assert (items w1 !! "PROJ-1" = Some story) as Hs
    by (apply K1; reflexivity).
  split; [exact H1|]. split; [exact Hs|]. split; [exact H2|].
  split; [apply K2, Hs | exact Hrow].
Defined.
